(** * Chart print service: a shallow embedding

    The development follows the TypeScript sources of the print widget:

    - [chart-print-service.ts]  the monolithic service (module [Service]);
    - [cache.ts], [widget-utils.ts] (kept as an unnamed part) and
      [capture.ts]  the modular rewrite of the same pipeline (module
      [Modular]).

    Conventions.  Sizes, indices and clock readings are integers and are
    modelled by [Z].  The numbers of the chart data are the doubles whose
    value is an integer, the two infinities and [NaN] (type [Num]): a sum
    of two of them is rounded to the nearest double, ties to even, and
    overflows to an infinity, as the addition of doubles does.  JavaScript
    strings are modelled by [string], one
    character per code unit.  Platform services the code calls but does not
    define (the DOM, the application store, the data-source manager,
    [String.prototype.localeCompare], [parseFloat] on strings, the
    rasterisers, the clock) are fields of the record [Host]; a function that
    may raise returns an [Outcome]. *)

From Stdlib Require Import ZArith List String Ascii Bool Lia DecimalString.
From Stdlib Require Import Sorting.Sorted Sorting.Permutation.
From stdpp Require Import gmap strings list fin_maps.

Set Default Proof Using "Type".

(* ===================================================================== *)
(** ** JavaScript values, exceptions and string primitives *)
(* ===================================================================== *)

Module Js.

(** The raw field values a data record may hold. *)
Inductive JsValue : Type :=
| JUndefined
| JNull
| JNum (n : Z)
| JStr (s : string).

#[global] Instance JsValue_eq_dec : EqDecision JsValue.
Proof. solve_decision. Defined.

(** A thrown value: an [Error] instance with its message, or anything
    else ([error instanceof Error] is false). *)
Inductive Exn : Type :=
| ErrorObj (message : string)
| NonError.

Inductive Outcome (A : Type) : Type :=
| Returns (a : A)
| Throws (e : Exn).
Arguments Returns {A} a.
Arguments Throws {A} e.

Definition obind {A B} (m : Outcome A) (k : A -> Outcome B) : Outcome B :=
  match m with
  | Returns a => k a
  | Throws e => Throws e
  end.

(** [try { m } catch (e) { h e }] *)
Definition ocatch {A} (m : Outcome A) (h : Exn -> Outcome A) : Outcome A :=
  match m with
  | Returns a => Returns a
  | Throws e => h e
  end.

(** [error instanceof Error ? error.message : fallback] *)
Definition messageOr (e : Exn) (fallback : string) : string :=
  match e with
  | ErrorObj m => m
  | NonError => fallback
  end.

Definition is_nullish (v : JsValue) : bool :=
  match v with
  | JUndefined | JNull => true
  | _ => false
  end.

(** [String(n)] for an integer [n]. *)
Definition String_of_number (n : Z) : string :=
  NilZero.string_of_int (Z.to_int n).

(** [String(v)] *)
Definition toString (v : JsValue) : string :=
  match v with
  | JUndefined => "undefined"
  | JNull => "null"
  | JNum n => String_of_number n
  | JStr s => s
  end.

(** Truthiness of an optional string: [undefined] and [""] are falsy. *)
Definition truthy (o : option string) : bool :=
  match o with
  | Some s => negb (String.eqb s EmptyString)
  | None => false
  end.

(** [a || b] on optional strings. *)
Definition orStr (a b : option string) : option string :=
  if truthy a then a else b.

(** [a || d] where [d] is a string literal. *)
Definition orLit (a : option string) (d : string) : string :=
  match a with
  | Some s => if String.eqb s EmptyString then d else s
  | None => d
  end.

(** [n || d] on numbers: [0] is falsy. *)
Definition orNum (n d : Z) : Z := if (n =? 0)%Z then d else n.

(** A number of the chart data: [NaN], a double whose value is the
    integer [n], or an infinity. *)
Inductive Num : Type :=
| NaN
| Fin (n : Z)
| Inf (negative : bool).

#[global] Instance Num_eq_dec : EqDecision Num.
Proof. solve_decision. Defined.

(** The double nearest to the integer [n].  A double has 53 significant
    bits: up to [2 ^ 53] in magnitude every integer is a double; beyond,
    the bits below the 53 leading ones are rounded off, to the nearest
    and to even on a tie; and what reaches [2 ^ 1024] is an infinity. *)
Definition roundDouble (n : Z) : Num :=
  let a := Z.abs n in
  if (a <=? 2 ^ 53)%Z then Fin n
  else
    let e := (Z.log2 a - 52)%Z in
    let q := (a / 2 ^ e)%Z in
    let r := (a mod 2 ^ e)%Z in
    let half := (2 ^ (e - 1))%Z in
    let q :=
      if (half <? r)%Z || ((r =? half)%Z && Z.odd q) then (q + 1)%Z
      else q in
    let m := (q * 2 ^ e)%Z in
    if (2 ^ 1024 <=? m)%Z then Inf (n <? 0)%Z
    else Fin (Z.sgn n * m).

(** [x + y] *)
Definition addNum (x y : Num) : Num :=
  match x, y with
  | NaN, _ | _, NaN => NaN
  | Inf a, Inf b => if Bool.eqb a b then Inf a else NaN
  | Inf a, Fin _ => Inf a
  | Fin _, Inf b => Inf b
  | Fin a, Fin b => roundDouble (a + b)
  end.

(** [x || 0]: [NaN] and [0] are falsy. *)
Definition orZero (x : Num) : Num :=
  match x with
  | NaN => Fin 0
  | _ => x
  end.

(** [x <= 0]; a comparison with [NaN] is false. *)
Definition leZero (x : Num) : bool :=
  match x with
  | NaN => false
  | Fin n => (n <=? 0)%Z
  | Inf negative => negative
  end.

Definition isNaN (x : Num) : bool :=
  match x with
  | NaN => true
  | _ => false
  end.

Definition lowerChar (c : ascii) : ascii :=
  let n := nat_of_ascii c in
  if (65 <=? n)%nat && (n <=? 90)%nat then ascii_of_nat (n + 32) else c.

(** [s.toLowerCase()] *)
Fixpoint toLowerCase (s : string) : string :=
  match s with
  | EmptyString => EmptyString
  | String c r => String (lowerChar c) (toLowerCase r)
  end.

(** The double-quote character, as a string. *)
Definition quote : string := String (ascii_of_nat 34) EmptyString.

(** [s.startsWith(p)] *)
Definition startsWith (s p : string) : bool := String.prefix p s.

(** [s.includes(p)] *)
Fixpoint includes (s p : string) : bool :=
  String.prefix p s ||
  match s with
  | EmptyString => false
  | String _ r => includes r p
  end.

Definition isSpace (c : ascii) : bool :=
  let n := nat_of_ascii c in
  (n =? 32)%nat || ((9 <=? n)%nat && (n <=? 13)%nat).

Fixpoint trimStart (s : string) : string :=
  match s with
  | EmptyString => EmptyString
  | String c r => if isSpace c then trimStart r else s
  end.

Fixpoint allSpace (s : string) : bool :=
  match s with
  | EmptyString => true
  | String c r => isSpace c && allSpace r
  end.

Fixpoint trimEnd (s : string) : string :=
  match s with
  | EmptyString => EmptyString
  | String c r => if allSpace s then EmptyString else String c (trimEnd r)
  end.

(** [s.trim()] *)
Definition trim (s : string) : string := trimEnd (trimStart s).

Definition isDigit (c : ascii) : bool :=
  let n := nat_of_ascii c in (48 <=? n)%nat && (n <=? 57)%nat.

Definition isLower (c : ascii) : bool :=
  let n := nat_of_ascii c in (97 <=? n)%nat && (n <=? 122)%nat.

Definition isUpper (c : ascii) : bool :=
  let n := nat_of_ascii c in (65 <=? n)%nat && (n <=? 90)%nat.

(** A character matched by [[a-z0-9]] under the [i] flag. *)
Definition isAlnum (c : ascii) : bool := isLower c || isUpper c || isDigit c.

Fixpoint mapChars (f : ascii -> string) (s : string) : string :=
  match s with
  | EmptyString => EmptyString
  | String c r => (f c +:+ mapChars f r)%string
  end.

(** [s.replace(/[^a-z0-9]/gi, r)] *)
Definition replaceNonAlnum (s r : string) : string :=
  mapChars (fun c => if isAlnum c then String c EmptyString else r) s.

(** [s.replace(/[^0-9.-]/g, "")] *)
Definition keepNumeric (s : string) : string :=
  mapChars (fun c =>
    if isDigit c || (nat_of_ascii c =? 46)%nat || (nat_of_ascii c =? 45)%nat
    then String c EmptyString else EmptyString) s.

End Js.
Export Js.

Notation "'let!' x ':=' m 'in' k" := (obind m (fun x => k))
  (at level 10, x name, m at level 100, k at level 200).

(** Optional chaining: [o?.f] is [undefined] when [o] is. *)
Definition optChain {A B} (o : option A) (f : A -> option B) : option B :=
  match o with
  | Some a => f a
  | None => None
  end.

Notation "o ?. f" := (optChain o f) (at level 50, left associativity).

(* ===================================================================== *)
(** ** Data model *)
(* ===================================================================== *)

(** [ChartDataRecord]: [{category, value, label?, color?}]. *)
Module ChartDataRecord.
Record t : Type := mk {
  category : JsValue;
  value : Num;
  label : option string;
  color : option string
}.
End ChartDataRecord.

(** [ChartDataExtractionResult] *)
Module ChartDataExtractionResult.
Record t : Type := mk {
  success : bool;
  data : option (list ChartDataRecord.t);
  chartTitle : option string;
  chartType : option string;
  categoryField : option string;
  valueField : option string;
  totalRecords : option nat;
  error : option string
}.

(** [{ success: false, error }] *)
Definition failure (msg : string) : t :=
  mk false None None None None None None (Some msg).
End ChartDataExtractionResult.

(** [ChartCaptureResult] *)
Module ChartCaptureResult.
Record t : Type := mk {
  success : bool;
  dataUrl : option string;
  width : option Z;
  height : option Z;
  error : option string
}.

#[global] Instance eq_dec : EqDecision t.
Proof. solve_decision. Defined.

(** [{ success: false, error }] *)
Definition failure (msg : string) : t := mk false None None None (Some msg).
End ChartCaptureResult.

(** The first series of a chart configuration, as read by the extractor. *)
Module Series.
Record t : Type := mk {
  x : option string;
  categoryField : option string;
  y : option string;
  numericField : option string;
  valueField : option string;
  type : option string;
  dataLabels : bool
}.
End Series.

Module ChartConfig.
Record t : Type := mk {
  series : option (list Series.t);
  categoryField : option string;
  valueField : option string;
  title : option string;
  type : option string
}.
End ChartConfig.

(** [widget.config]: the [webChart] member when present, and the object
    itself read as a chart configuration ([config?.webChart || config]). *)
Module WidgetConfig.
Record t : Type := mk {
  webChart : option ChartConfig.t;
  self : ChartConfig.t
}.
End WidgetConfig.

(** An entry of the host's widget registry. *)
Module Widget.
Record t : Type := mk {
  uri : option string;
  manifestName : option string;
  label : option string;
  config : option WidgetConfig.t;
  useDataSources : option (list (option string));
  outputDataSources : option (list string)
}.
End Widget.

(** The object returned by [record.getData()]: keys in insertion order. *)
Definition DataRecord : Type := list (string * JsValue).

(** A data source: each accessor may be absent, may throw, and may return
    [undefined]. *)
Module DataSource.
Record t : Type := mk {
  getSourceRecords : option (Outcome (option (list DataRecord)));
  getRecords : option (Outcome (option (list DataRecord)));
  query : option (Outcome (option (list DataRecord)))
}.
End DataSource.

(** DOM nodes are handles. *)
Definition Element : Type := nat.

(** What a canvas shows, symbolically. *)
Inductive Pixels : Type :=
| Blank
| Native (id : nat)
| Scaled (background : option string) (src : Pixels) (w h : Z)
| Rasterised (el : Element) (scale : Z)
| SvgImage (svg : nat).

Module Canvas.
Record t : Type := mk {
  width : Z;
  height : Z;
  pixels : Pixels
}.
End Canvas.

(** A legend node of the rendered chart, as the DOM strategy reads it. *)
Module LegendItem.
Record t : Type := mk {
  labelText : option string;      (* textContent of the label element *)
  itemText : option string;       (* textContent of the item *)
  swatchBackground : option string; (* computed background of the swatch *)
  valueText : option string       (* textContent of the value element *)
}.
End LegendItem.

(** An element carrying [data-category], [data-label] or [aria-label]. *)
Module DataElement.
Record t : Type := mk {
  dataCategory : option string;
  dataLabel : option string;
  ariaLabel : option string;
  dataValue : option string
}.
End DataElement.

Module Svg.
Record t : Type := mk {
  id : nat;
  width : Z;
  height : Z
}.
End Svg.

(** [ProfessionalPdfOptions]; [onProgress] tells whether the caller gave a
    progress callback, whose calls are logged in the world. *)
Module ProfessionalPdfOptions.
Record t : Type := mk {
  title : option string;
  subtitle : option string;
  showDate : option bool;
  showLegend : option bool;
  legendTitle : option string;
  author : option string;
  organization : option string;
  orientation : option string;
  format : option string;
  legendColumns : option nat;
  legendPosition : option string;
  borderColor : option string;
  headerColor : option string;
  footerText : option string;
  onProgress : bool;
  imageQuality : option Z;
  timeout : option Z;
  margin : option Z;
  forceRefresh : option bool
}.
End ProfessionalPdfOptions.

(** The composed document: what is drawn, in order.  Coordinates in
    millimetres are left out; a legend entry keeps its column and row. *)
Module Pdf.
Inductive Op : Type :=
| Border
| Title (text : string)
| Subtitle (text : string)
| Separator
| Image (dataUrl : string)
| Placeholder (text : string)
| LegendEntry (column row : nat) (color : string) (text : string)
| FooterDate
| FooterCentre (text : string)
| FooterRight (text : string).

Record Blob : Type := mkBlob {
  orientation : string;
  format : string;
  ops : list Op
}.
End Pdf.

(** The keys of [PDF_FORMAT_CONFIG]. *)
Definition PDF_FORMATS : list string :=
  [ "a4"; "a3"; "a2"; "a1"; "letter"; "legal"; "tabloid" ]%string.

(** Everything the pipeline consumes from the host application and the
    browser. *)
Module Host.
Record t : Type := mk {
  (* getAppStore().getState().appConfig?.widgets *)
  widgets : Outcome (option (gmap string Widget.t));
  (* DataSourceManager.getInstance().getDataSource(id) *)
  getDataSource : option string -> option DataSource.t;
  (* String.prototype.localeCompare *)
  localeCompare : string -> string -> Z;
  (* parseFloat on a string; a finite result is a double *)
  parseFloat : string -> Num;
  (* document.contains(el), document.body.contains(el) *)
  documentContains : Element -> bool;
  bodyContains : Element -> bool;
  (* document.querySelector(selector) *)
  documentQuerySelector : string -> Outcome (option Element);
  (* document.querySelectorAll("[data-widgetid]") with the attribute *)
  widgetIdElements : list (Element * string);
  (* el.querySelector(selector), el.parentElement *)
  querySelector : Element -> string -> option Element;
  parentElement : Element -> option Element;
  (* legend nodes under a chart element *)
  legendItems : Element -> list LegendItem.t;
  shadowLegend : Element -> option (list (option string));
  dataElements : Element -> list DataElement.t;
  (* Math.round of getBoundingClientRect() *)
  boundingWidth : Element -> Z;
  boundingHeight : Element -> Z;
  (* findAllCanvases(el): canvases reachable through shadow roots *)
  findAllCanvases : Element -> list Canvas.t;
  (* canvas.getContext("2d") is non-null *)
  hasContext : Canvas.t -> bool;
  (* html2canvas(el, {scale, ...}) *)
  html2canvas : Element -> Z -> Outcome Canvas.t;
  (* el.querySelectorAll("svg") with bounding boxes; image decoding *)
  svgs : Element -> list Svg.t;
  loadSvgImage : Svg.t -> Outcome unit;
  (* canvas.toDataURL("image/png", 0.92) *)
  toDataURL : Canvas.t -> Outcome string;
  (* Number.prototype.toLocaleString *)
  toLocaleString : Num -> string;
  (* timing of the event loop, for a timer armed with the given delay
     at the start of a composition: whether the two initial yields to
     the rendering loop last at least as long as the delay, and whether
     a capture that suspends settles before the timer fires *)
  yieldsOutlast : Z -> bool;
  captureSettlesWithin : Z -> bool
}.
End Host.

(** The process-wide mutable state of one module instance (its two caches
    and its canvas pool), the clock, and two observation logs: the
    elements on which [htmlToCanvas] has been entered, and the calls
    received by the caller's progress callback. *)
Module World.
Record t : Type := mk {
  chartElementCache : gmap string (Element * Z);
  captureCache : gmap string (ChartCaptureResult.t * Z);
  canvasPool : list Canvas.t;
  clock : nat -> Z;
  reads : nat;
  rasterisations : list Element;
  progress : list (string * Z * string)
}.

Definition setElementCache (c : gmap string (Element * Z)) (w : t) : t :=
  mk c (captureCache w) (canvasPool w) (clock w) (reads w)
     (rasterisations w) (progress w).

Definition setCaptureCache (c : gmap string (ChartCaptureResult.t * Z))
    (w : t) : t :=
  mk (chartElementCache w) c (canvasPool w) (clock w) (reads w)
     (rasterisations w) (progress w).

Definition setCanvasPool (p : list Canvas.t) (w : t) : t :=
  mk (chartElementCache w) (captureCache w) p (clock w) (reads w)
     (rasterisations w) (progress w).

Definition tick (w : t) : t :=
  mk (chartElementCache w) (captureCache w) (canvasPool w) (clock w)
     (S (reads w)) (rasterisations w) (progress w).

Definition logRasterisation (element : Element) (w : t) : t :=
  mk (chartElementCache w) (captureCache w) (canvasPool w) (clock w)
     (reads w) (rasterisations w ++ [element]) (progress w).

Definition report (stage : string) (pct : Z) (msg : string) (w : t) : t :=
  mk (chartElementCache w) (captureCache w) (canvasPool w) (clock w)
     (reads w) (rasterisations w) (progress w ++ [(stage, pct, msg)]).
End World.

(* ===================================================================== *)
(** ** The effect monad: state and exceptions *)
(* ===================================================================== *)

(** A computation reads and updates the world and either returns or
    throws; state changes made before a throw persist. *)
Definition M (A : Type) : Type := World.t -> Outcome A * World.t.

Definition ret {A} (a : A) : M A := fun w => (Returns a, w).

Definition throw {A} (e : Exn) : M A := fun w => (Throws e, w).

Definition bind {A B} (m : M A) (k : A -> M B) : M B :=
  fun w =>
    match m w with
    | (Returns a, w') => k a w'
    | (Throws e, w') => (Throws e, w')
    end.

(** [try { m } catch (e) { h e }] *)
Definition try_catch {A} (m : M A) (h : Exn -> M A) : M A :=
  fun w =>
    match m w with
    | (Returns a, w') => (Returns a, w')
    | (Throws e, w') => h e w'
    end.

Definition lift {A} (o : Outcome A) : M A := fun w => (o, w).

Definition gets {A} (f : World.t -> A) : M A := fun w => (Returns (f w), w).

Definition modify (f : World.t -> World.t) : M unit :=
  fun w => (Returns tt, f w).

(** [Date.now()] *)
Definition Date_now : M Z :=
  fun w => (Returns (World.clock w (World.reads w)), World.tick w).

Notation "'let*' x ':=' m 'in' k" := (bind m (fun x => k))
  (at level 10, x name, m at level 100, k at level 200).
Notation "m1 ';;' m2" := (bind m1 (fun _ => m2))
  (at level 100, m2 at level 200, right associativity).

(* ===================================================================== *)
(** ** Shared pieces of the data extractor *)
(* ===================================================================== *)

(** A JavaScript [Map] keyed by raw category values: insertion order is
    kept, and a [set] on an existing key keeps its position. *)
Definition JsMap : Type := list (JsValue * Num).

Fixpoint Map_get (m : JsMap) (k : JsValue) : option Num :=
  match m with
  | [] => None
  | (k', v) :: m' => if decide (k' = k) then Some v else Map_get m' k
  end.

Fixpoint Map_set (m : JsMap) (k : JsValue) (v : Num) : JsMap :=
  match m with
  | [] => [(k, v)]
  | (k', v') :: m' =>
      if decide (k' = k) then (k', v) :: m' else (k', v') :: Map_set m' k v
  end.

(** [data[field]]; an undefined field name reads the key ["undefined"]. *)
Fixpoint lookupKey (data : DataRecord) (key : string) : JsValue :=
  match data with
  | [] => JUndefined
  | (k, v) :: rest => if String.eqb k key then v else lookupKey rest key
  end.

Definition prop (data : DataRecord) (field : option string) : JsValue :=
  lookupKey data (default "undefined"%string field).

(** [Array.prototype.sort(cmp)]: the stable sort.  Elements are inserted
    left to right, each after the elements that do not compare greater. *)
Fixpoint sortInsert {A} (cmp : A -> A -> Z) (x : A) (l : list A) : list A :=
  match l with
  | [] => [x]
  | y :: l' => if (cmp x y <? 0)%Z then x :: l else y :: sortInsert cmp x l'
  end.

Definition Array_sort {A} (cmp : A -> A -> Z) (l : list A) : list A :=
  fold_left (fun acc x => sortInsert cmp x acc) l [].

(** The palette used to recreate legends. *)
Definition CHART_COLORS : list string :=
  [ "#5A9BD5"; "#70AD47"; "#ED7D31"; "#FFC000"; "#44546A"; "#9E480E";
    "#997300"; "#636363"; "#264478"; "#43682B"; "#FF6B6B"; "#4ECDC4";
    "#A855F7"; "#EC4899"; "#14B8A6"; "#F97316" ]%string.

(** [CHART_COLORS[index % CHART_COLORS.length]] *)
Definition paletteColor (index : nat) : option string :=
  CHART_COLORS !! (index mod length CHART_COLORS)%nat.

(** [m?.() || []] *)
Definition optCallOrEmpty (m : option (Outcome (option (list DataRecord))))
  : Outcome (list DataRecord) :=
  match m with
  | None => Returns []
  | Some o => let! r := o in Returns (default [] r)
  end.

(** [m() || []]: calling an absent method raises a [TypeError]. *)
Definition callOrEmpty (m : option (Outcome (option (list DataRecord))))
  : Outcome (list DataRecord) :=
  match m with
  | None => Throws (ErrorObj "not a function")
  | Some o => let! r := o in Returns (default [] r)
  end.

(** [parseFloat(v)] on a raw field value; a number is read back from
    its own string, which gives the number itself. *)
Definition parseFloatValue (h : Host.t) (v : JsValue) : Num :=
  match v with
  | JNum n => roundDouble n
  | JStr s => Host.parseFloat h s
  | JUndefined | JNull => NaN
  end.

(** [/year|annee|date|category|categorie|name|nom|label/i.test(f)] *)
Definition looksLikeCategory (f : string) : bool :=
  existsb (includes (toLowerCase f))
    [ "year"; "annee"; "date"; "category"; "categorie"; "name"; "nom";
      "label" ]%string.

(** [sampleFields.includes(field)] with a possibly undefined field. *)
Definition fieldKnown (sampleFields : list string) (field : option string)
  : bool :=
  match field with
  | Some f => existsb (String.eqb f) sampleFields
  | None => false
  end.

(** The comparator given to [chartData.sort]. *)
Definition compareCategory (h : Host.t) (a b : ChartDataRecord.t) : Z :=
  match ChartDataRecord.category a, ChartDataRecord.category b with
  | JNum x, JNum y => (x - y)%Z
  | ca, cb => Host.localeCompare h (toString ca) (toString cb)
  end.

(** One iteration of [for (const record of allRecords)]. *)
Definition aggregateRecord (h : Host.t) (categoryField valueField : option string)
    (aggregatedData : JsMap) (record : DataRecord) : JsMap :=
  let category := prop record categoryField in
  let value := orZero (parseFloatValue h (prop record valueField)) in
  if negb (is_nullish category) then
    let existingValue :=
      match Map_get aggregatedData category with
      | Some existing => orZero existing
      | None => Fin 0
      end in
    Map_set aggregatedData category (addNum existingValue value)
  else aggregatedData.

(** [chartData.push({category, value, label: String(category)})] *)
Definition recordOfEntry (entry : JsValue * Num) : ChartDataRecord.t :=
  let '(category, value) := entry in
  ChartDataRecord.mk category value (Some (toString category)) None.

(** The loop, the conversion of the map to an array, and the sort. *)
Definition aggregate (h : Host.t) (categoryField valueField : option string)
    (allRecords : list DataRecord) : list ChartDataRecord.t :=
  let aggregatedData :=
    fold_left (aggregateRecord h categoryField valueField) allRecords [] in
  let chartData := map recordOfEntry aggregatedData in
  Array_sort (compareCategory h) chartData.

(* ===================================================================== *)
(** ** The visual capture engine

    [getPooledCanvas], [returnCanvasToPool], [findLargestCanvas] and
    [htmlToCanvas] have the same text in [chart-print-service.ts] and in
    [cache.ts] / [capture.ts]; each module instance runs them on its own
    pool. *)
(* ===================================================================== *)

Inductive ChartPosition : Type := TOP | BOTTOM | LEFT | RIGHT | OVERLAY.

Module ChartSize.
Record t : Type := mk {
  width : Z;
  height : Z
}.
End ChartSize.

(** [Partial<ChartPrintOptions>] *)
Module ChartPrintOptions.
Record t : Type := mk {
  chartWidgetId : option string;
  includeChartInPrint : option bool;
  chartPosition : option ChartPosition;
  chartSize : option ChartSize.t;
  chartTitle : option string;
  chartBackground : option string;
  preserveChartRatio : option bool;
  scaleToFit : option bool
}.
End ChartPrintOptions.

Module Engine.

Definition MAX_POOL_SIZE : nat := 3.
Definition SUFFICIENT_AREA : Z := 200000.

(** [canvas.width = v], for an integer [v]: the value is converted to an
    unsigned 32-bit integer, and one that is not in the range of [0] to
    [2147483647] is replaced by the default of the attribute. *)
Definition canvasDimension (v fallback : Z) : Z :=
  let u := (v mod 2 ^ 32)%Z in
  if (u <=? 2147483647)%Z then u else fallback.

(** [canvasPool.pop()] or a fresh canvas; setting the dimensions resets
    the bitmap.  A canvas is 300 by 150 by default. *)
Definition getPooledCanvas (width height : Z) : M Canvas.t :=
  let* pool := gets World.canvasPool in
  modify (World.setCanvasPool (tail pool)) ;;
  ret (Canvas.mk (canvasDimension width 300) (canvasDimension height 150)
         Blank).

(** Unless the pool is full, the canvas is cleared, when it gives a 2d
    context, and pushed. *)
Definition returnCanvasToPool (h : Host.t) (canvas : Canvas.t) : M unit :=
  let* pool := gets World.canvasPool in
  if (length pool <? MAX_POOL_SIZE)%nat then
    let cleared :=
      if Host.hasContext h canvas
      then Canvas.mk (Canvas.width canvas) (Canvas.height canvas) Blank
      else canvas in
    modify (World.setCanvasPool (cleared :: pool))
  else ret tt.

(** The loop of [findLargestCanvas]: keep the first strictly larger
    canvas, stop at one whose area is sufficient. *)
Fixpoint largestFrom (allCanvases : list Canvas.t) (maxArea : Z)
    (largestCanvas : option Canvas.t) : option Canvas.t :=
  match allCanvases with
  | [] => largestCanvas
  | canvas :: rest =>
      let area := (Canvas.width canvas * Canvas.height canvas)%Z in
      if (maxArea <? area)%Z then
        if (SUFFICIENT_AREA <=? area)%Z then Some canvas
        else largestFrom rest area (Some canvas)
      else largestFrom rest maxArea largestCanvas
  end.

Definition findLargestCanvas (h : Host.t) (element : Element)
  : option Canvas.t :=
  largestFrom (Host.findAllCanvases h element) 0 None.

(** [Math.ceil(a / b)] for a non-zero divisor. *)
Definition ceilDiv (a b : Z) : Z := (- ((- a) / b))%Z.

(** The largest [svg] wider and higher than 50. *)
Fixpoint largestSvg (allSvgs : list Svg.t) (svgMaxArea : Z)
    (chartSvg : option Svg.t) : option Svg.t :=
  match allSvgs with
  | [] => chartSvg
  | s :: rest =>
      let area := (Svg.width s * Svg.height s)%Z in
      if (svgMaxArea <? area)%Z && (50 <? Svg.width s)%Z
         && (50 <? Svg.height s)%Z
      then largestSvg rest area (Some s)
      else largestSvg rest svgMaxArea chartSvg
  end.

Section Techniques.
Variable h : Host.t.
Variable element : Element.
Variable options : option ChartPrintOptions.t.

Definition chartContainer : Element :=
  default element (Host.querySelector h element ".chart-container").

Definition actualWidth : Z :=
  orNum (Host.boundingWidth h chartContainer) 400.
Definition actualHeight : Z :=
  orNum (Host.boundingHeight h chartContainer) 300.

Definition targetWidth : Z :=
  match options ?. ChartPrintOptions.chartSize with
  | Some size => orNum (ChartSize.width size) actualWidth
  | None => actualWidth
  end.
Definition targetHeight : Z :=
  match options ?. ChartPrintOptions.chartSize with
  | Some size => orNum (ChartSize.height size) actualHeight
  | None => actualHeight
  end.

Definition scale : Z :=
  Z.min 2 (Z.max 1 (ceilDiv targetWidth actualWidth)).

(** [options?.chartBackground || "#FFFFFF"] *)
Definition background : string :=
  orLit (options ?. ChartPrintOptions.chartBackground) "#FFFFFF".

(** MÉTHODE 1: reuse the largest existing canvas.  [None] means the
    technique produced nothing and the next one is tried. *)
Definition existingCanvasTechnique : M (option Canvas.t) :=
  match findLargestCanvas h element with
  | Some existingCanvas =>
      if (100 <? Canvas.width existingCanvas)%Z
         && (100 <? Canvas.height existingCanvas)%Z
      then
        if (Z.abs (Canvas.width existingCanvas - targetWidth) <? 50)%Z
           && (Z.abs (Canvas.height existingCanvas - targetHeight) <? 50)%Z
        then ret (Some existingCanvas)
        else
          let* outputCanvas := getPooledCanvas targetWidth targetHeight in
          if Host.hasContext h outputCanvas then
            ret (Some (Canvas.mk (Canvas.width outputCanvas)
                         (Canvas.height outputCanvas)
                         (Scaled (Some background)
                            (Canvas.pixels existingCanvas)
                            targetWidth targetHeight)))
          else ret None
      else ret None
  | None => ret None
  end.

(** MÉTHODE 2: [html2canvas] on the container.  An exception is
    caught here and means the technique failed. *)
Definition html2canvasTechnique : M (option Canvas.t) :=
  try_catch
    (let* canvas := lift (Host.html2canvas h chartContainer scale) in
     if (10 <? Z.abs (Canvas.width canvas - targetWidth * scale))%Z
        || (10 <? Z.abs (Canvas.height canvas - targetHeight * scale))%Z
     then
       let* resizedCanvas := getPooledCanvas targetWidth targetHeight in
       if Host.hasContext h resizedCanvas then
         ret (Some (Canvas.mk (Canvas.width resizedCanvas)
                      (Canvas.height resizedCanvas)
                      (Scaled None (Canvas.pixels canvas)
                         targetWidth targetHeight)))
       else ret (Some canvas)
     else ret (Some canvas))
    (fun _ => ret None).

(** MÉTHODE 3: the largest [svg], decoded into an image and drawn.  A
    failed decoding throws to the handler of [htmlToCanvas]. *)
Definition svgTechnique : M (option Canvas.t) :=
  match largestSvg (Host.svgs h chartContainer) 0 None with
  | Some chartSvg =>
      lift (Host.loadSvgImage h chartSvg) ;;
      let* canvas := getPooledCanvas targetWidth targetHeight in
      if Host.hasContext h canvas then
        ret (Some (Canvas.mk (Canvas.width canvas) (Canvas.height canvas)
                     (Scaled (Some background) (SvgImage (Svg.id chartSvg))
                        targetWidth targetHeight)))
      else ret None
  | None => ret None
  end.

(** [htmlToCanvas]: the three techniques in order, first canvas wins;
    the whole body is inside [try], whose handler returns [null]. *)
Definition htmlToCanvas : M (option Canvas.t) :=
  modify (World.logRasterisation element) ;;
  try_catch
    (let* c1 := existingCanvasTechnique in
     match c1 with
     | Some canvas => ret (Some canvas)
     | None =>
         let* c2 := html2canvasTechnique in
         match c2 with
         | Some canvas => ret (Some canvas)
         | None => svgTechnique
         end
     end)
    (fun _ => ret None).

End Techniques.

End Engine.

(* ===================================================================== *)
(** ** Data of the print helpers *)
(* ===================================================================== *)

(** [{r, g, b}] *)
Module Rgb.
Record t : Type := mk {
  r : Z;
  g : Z;
  b : Z
}.
End Rgb.

(** [ChartPrintElement]; [position], [size] and [title] are copied from
    options that may leave them out. *)
Module ChartPrintElement.
Record t : Type := mk {
  type : string;
  content : string;
  position : option ChartPosition;
  size : option ChartSize.t;
  title : option string
}.
End ChartPrintElement.

(** [ChartWidgetInfo]: [{id, label}]. *)
Module ChartWidgetInfo.
Record t : Type := mk {
  id : string;
  label : string
}.
End ChartWidgetInfo.

(** The result of [validateChartPrintOptions]. *)
Module Validation.
Record t : Type := mk {
  valid : bool;
  errors : list string
}.
End Validation.

(** A size as it arrives unchecked: a member may be missing, and a
    number may be [NaN] or an infinity. *)
Module UncheckedSize.
Record t : Type := mk {
  width : option Num;
  height : option Num
}.
End UncheckedSize.

(** Print options as they arrive unchecked: only the members the
    validation reads, the position being any string. *)
Module UncheckedOptions.
Record t : Type := mk {
  chartWidgetId : option string;
  chartSize : option UncheckedSize.t;
  chartPosition : option string
}.
End UncheckedOptions.

(** [Object.values(ChartPosition)] *)
Definition ChartPosition_values : list string :=
  [ "TOP"; "BOTTOM"; "LEFT"; "RIGHT"; "OVERLAY" ]%string.

(** The properties of a print template.  Arrays are shared objects: the
    template holds the address of its [extraElements] array, when it has
    one, in a store of arrays; [others] are its other members. *)
Module Template.
Record t : Type := mk {
  extraElements : option nat;
  others : list (string * JsValue)
}.
End Template.

Definition Arrays : Type := gmap nat (list ChartPrintElement.t).

(** [PdfGenerationOptions] *)
Module PdfGenerationOptions.
Record t : Type := mk {
  orientation : option string;
  format : option string;
  margin : option Z;
  includeTimestamp : option bool;
  includeTitle : option bool;
  quality : option string
}.
End PdfGenerationOptions.

(** A document of several pages, each page being what is drawn on it, in
    order. *)
Module MultiPdf.
Record Blob : Type := mkBlob {
  orientation : string;
  format : string;
  pages : list (list Pdf.Op)
}.
End MultiPdf.

(** The output formats of [printChartOnly]. *)
Inductive OutputFormat : Type := PDF | PNG | PRINT.

(** What [printChartOnly] returns: [{url, blob?}]. *)
Module PrintOutput.
Record t : Type := mk {
  url : string;
  blob : option Pdf.Blob
}.
End PrintOutput.

(** The page written into the print window: the title, escaped, and the
    source of the image (the style sheet and the time stamp are left
    out). *)
Module PrintPage.
Record t : Type := mk {
  escapedTitle : string;
  imageSource : string
}.
End PrintPage.

(** What a print helper did besides returning: the name it gave to the
    file whose download it started, and the page it wrote into a print
    window. *)
Module PrintEffect.
Record t : Type := mk {
  download : option string;
  printed : option PrintPage.t
}.
End PrintEffect.

(** What the print helpers consume from the browser beside [Host]. *)
Module Browser.
Record t : Type := mk {
  (* the natural size of the image decoded from a data URL, or [None]
     when the image fails to load *)
  imageSize : string -> option (Z * Z);
  (* URL.createObjectURL(blob) *)
  createObjectURL : Pdf.Blob -> string;
  (* window.open(...) returns a window *)
  popupAllowed : bool
}.
End Browser.

(* ===================================================================== *)
(** ** [chart-print-service.ts]: widget lookup and the query-engine
       extraction strategy *)
(* ===================================================================== *)

Module Service.

Definition ELEMENT_CACHE_TTL : Z := 30000.
Definition CAPTURE_CACHE_TTL : Z := 5000.

(** [isChartWidgetAvailable]: the widget is registered and its [uri]
    contains ["chart"]. *)
Definition isChartWidgetAvailable (h : Host.t) (chartWidgetId : string)
  : Outcome bool :=
  if String.eqb chartWidgetId EmptyString then Returns false else
  let! widgets := Host.widgets h in
  match widgets with
  | None => Returns false
  | Some ws =>
      match ws !! chartWidgetId with
      | None => Returns false
      | Some widget =>
          match Widget.uri widget with
          | None => Returns false
          | Some uri => Returns (includes uri "chart")
          end
      end
  end.

(** [getChartWidgetInfo] *)
Definition getChartWidgetInfo (h : Host.t) (chartWidgetId : string)
  : Outcome (option Widget.t) :=
  if String.eqb chartWidgetId EmptyString then Returns None else
  let! widgets := Host.widgets h in
  match widgets with
  | None => Returns None
  | Some ws => Returns (ws !! chartWidgetId)
  end.

(** [useDataSources?.[0]?.dataSourceId] *)
Definition firstUseDataSourceId (useDataSources : option (list (option string)))
  : option string :=
  match useDataSources with
  | Some (Some i :: _) => Some i
  | _ => None
  end.

(** STRATÉGIE 1: the output data source, [getSourceRecords] first and
    [getRecords] when that gave nothing. *)
Definition recordsFromOutput (outputDs : DataSource.t) : list DataRecord :=
  let allRecords :=
    match optCallOrEmpty (DataSource.getSourceRecords outputDs) with
    | Returns sourceRecords =>
        if (0 <? length sourceRecords)%nat then sourceRecords else []
    | Throws _ => []
    end in
  if (length allRecords =? 0)%nat then
    match optCallOrEmpty (DataSource.getRecords outputDs) with
    | Returns records => records
    | Throws _ => allRecords
    end
  else allRecords.

(** STRATÉGIE 2: the upstream data source, [query] first, then
    [getRecords], then [getSourceRecords]. *)
Definition recordsFromUse (ds : DataSource.t) : Outcome (list DataRecord) :=
  ocatch (callOrEmpty (DataSource.query ds))
    (fun _ =>
       ocatch (callOrEmpty (DataSource.getRecords ds))
         (fun _ => optCallOrEmpty (DataSource.getSourceRecords ds))).

(** Field auto-detection on the first record. *)
Definition detectCategoryField (sampleFields : list string)
    (categoryField : option string) : option string :=
  if negb (truthy categoryField) || negb (fieldKnown sampleFields categoryField)
  then orStr (find looksLikeCategory sampleFields) (head sampleFields)
  else categoryField.

Definition detectValueField (h : Host.t) (sampleData : DataRecord)
    (sampleFields : list string) (valueField : option string)
  : option string :=
  if negb (truthy valueField) || negb (fieldKnown sampleFields valueField)
  then
    orStr
      (find (fun f =>
               match lookupKey sampleData f with
               | JNum _ => true
               | val => negb (isNaN (parseFloatValue h val))
               end) sampleFields)
      (sampleFields !! 1%nat)
  else valueField.

(** [config?.webChart || config] *)
Definition chartConfigOf (widgetInfo : Widget.t) : option ChartConfig.t :=
  match Widget.config widgetInfo with
  | None => None
  | Some c => Some (default (WidgetConfig.self c) (WidgetConfig.webChart c))
  end.

(** [chartConfig?.series?.[0]] *)
Definition firstSeries (widgetInfo : Widget.t) : option Series.t :=
  chartConfigOf widgetInfo ?. ChartConfig.series ?. head.

(** [series?.x || series?.categoryField || chartConfig?.categoryField] *)
Definition configuredCategoryField (widgetInfo : Widget.t) : option string :=
  let series := firstSeries widgetInfo in
  orStr (orStr (series ?. Series.x) (series ?. Series.categoryField))
        (chartConfigOf widgetInfo ?. ChartConfig.categoryField).

(** [series?.y || series?.numericField || series?.valueField ||
    chartConfig?.valueField] *)
Definition configuredValueField (widgetInfo : Widget.t) : option string :=
  let series := firstSeries widgetInfo in
  orStr (orStr (orStr (series ?. Series.y) (series ?. Series.numericField))
               (series ?. Series.valueField))
        (chartConfigOf widgetInfo ?. ChartConfig.valueField).

(** The records the two retrieval strategies end with. *)
Definition retrieveRecords (h : Host.t) (widgetInfo : Widget.t)
  : Outcome (list DataRecord) :=
  (* STRATÉGIE 1 *)
  let allRecords :=
    match Widget.outputDataSources widgetInfo with
    | Some (outputDsId :: _) =>
        match Host.getDataSource h (Some outputDsId) with
        | Some outputDs => recordsFromOutput outputDs
        | None => []
        end
    | _ => []
    end in
  (* STRATÉGIE 2 *)
  match allRecords, Widget.useDataSources widgetInfo with
  | [], Some (first :: _) =>
      match Host.getDataSource h first with
      | Some ds => recordsFromUse ds
      | None => Returns allRecords
      end
  | _, _ => Returns allRecords
  end.

Definition extractChartData_body (h : Host.t) (chartWidgetId : string)
  : Outcome ChartDataExtractionResult.t :=
  let! widgetInfo := getChartWidgetInfo h chartWidgetId in
  match widgetInfo with
  | None =>
      Returns (ChartDataExtractionResult.failure
                 ("Widget Chart non trouvé: " +:+ chartWidgetId))
  | Some widgetInfo =>
      let useDataSources := Widget.useDataSources widgetInfo in
      let outputDataSources := Widget.outputDataSources widgetInfo in
      let chartConfig := chartConfigOf widgetInfo in
      let series := firstSeries widgetInfo in
      let categoryField := configuredCategoryField widgetInfo in
      let valueField := configuredValueField widgetInfo in
      let chartTitle :=
        orLit (orStr (chartConfig ?. ChartConfig.title)
                     (Widget.label widgetInfo)) EmptyString in
      let chartType :=
        orLit (orStr (chartConfig ?. ChartConfig.type)
                     (series ?. Series.type)) "unknown" in
      let! allRecords := retrieveRecords h widgetInfo in
      match allRecords with
      | [] =>
          Returns (ChartDataExtractionResult.failure
            ("Aucun enregistrement trouvé. OutputDS: "
             +:+ orLit (outputDataSources ?. head) "none"
             +:+ ", UseDS: "
             +:+ orLit (firstUseDataSourceId useDataSources) "none"))
      | sample :: _ =>
          let sampleFields := map fst sample in
          let actualCategoryField :=
            detectCategoryField sampleFields categoryField in
          let actualValueField :=
            detectValueField h sample sampleFields valueField in
          let chartData :=
            aggregate h actualCategoryField actualValueField allRecords in
          Returns (ChartDataExtractionResult.mk
                     true (Some chartData) (Some chartTitle) (Some chartType)
                     actualCategoryField actualValueField
                     (Some (length allRecords)) None)
      end
  end.

(** [extractChartData]: the body runs inside [try]; the handler turns any
    exception into a failure result. *)
Definition extractChartData (h : Host.t) (chartWidgetId : string)
  : ChartDataExtractionResult.t :=
  match extractChartData_body h chartWidgetId with
  | Returns r => r
  | Throws e =>
      ChartDataExtractionResult.failure (messageOr e "Erreur inconnue")
  end.


(* ------------------------------------------------------------------- *)
(** *** Cache maintenance *)

(** [cleanExpiredCache]: the periodic sweep. *)
Definition cleanExpiredCache : M unit :=
  let* now := Date_now in
  modify (fun w =>
    World.setElementCache
      (filter (fun kv => ¬ (ELEMENT_CACHE_TTL < now - (kv.2).2)%Z)
              (World.chartElementCache w)) w) ;;
  modify (fun w =>
    World.setCaptureCache
      (filter (fun kv => ¬ (CAPTURE_CACHE_TTL < now - (kv.2).2)%Z)
              (World.captureCache w)) w).

(** [invalidateChartCache] *)
Definition invalidateChartCache (chartWidgetId : string) : M unit :=
  modify (fun w =>
    World.setElementCache (delete chartWidgetId (World.chartElementCache w)) w) ;;
  modify (fun w =>
    World.setCaptureCache (delete chartWidgetId (World.captureCache w)) w).

(** [cleanupChartPrintResources] *)
Definition cleanupChartPrintResources : M unit :=
  modify (World.setElementCache ∅) ;;
  modify (World.setCaptureCache ∅) ;;
  modify (World.setCanvasPool []).

(* ------------------------------------------------------------------- *)
(** *** Locating the chart element *)

(** The first selector for which [document.querySelector] returns an
    element; a selector that raises is skipped. *)
Fixpoint firstMatch (h : Host.t) (selectors : list string) : option Element :=
  match selectors with
  | [] => None
  | selector :: rest =>
      match Host.documentQuerySelector h selector with
      | Returns (Some element) => Some element
      | _ => firstMatch h rest
      end
  end.

Definition primarySelectors (chartWidgetId : string) : list string :=
  [ "[data-widgetid=" +:+ quote +:+ chartWidgetId +:+ quote +:+ "]";
    "[data-widget-id=" +:+ quote +:+ chartWidgetId +:+ quote +:+ "]";
    "#widget-" +:+ chartWidgetId ]%string.

Definition secondarySelectors (chartWidgetId : string) : list string :=
  [ "#" +:+ chartWidgetId;
    ".widget-" +:+ chartWidgetId;
    "[id*=" +:+ quote +:+ chartWidgetId +:+ quote +:+ "] .jimu-widget" ]%string.

(** [chartElementCache.set(id, {element, timestamp: Date.now()})] *)
Definition cacheElement (chartWidgetId : string) (element : Element)
  : M unit :=
  let* now := Date_now in
  modify (fun w =>
    World.setElementCache
      (<[chartWidgetId := (element, now)]> (World.chartElementCache w)) w).

(** The read of the element cache at the head of [getChartElement]: a
    fresh entry is returned when its element is still in the document
    and deleted when it is not. *)
Definition readElementCache (h : Host.t) (chartWidgetId : string)
  : M (option Element) :=
  let* cached := gets (fun w => World.chartElementCache w !! chartWidgetId) in
  match cached with
  | Some (element, timestamp) =>
      let* now := Date_now in
      if (now - timestamp <? ELEMENT_CACHE_TTL)%Z then
        if Host.documentContains h element then ret (Some element)
        else
          modify (fun w =>
            World.setElementCache
              (delete chartWidgetId (World.chartElementCache w)) w) ;;
          ret None
      else ret None
  | None => ret None
  end.

(** [getChartElement] *)
Definition getChartElement (h : Host.t) (chartWidgetId : string)
  : M (option Element) :=
  if String.eqb chartWidgetId EmptyString then ret None else
  let* cached := readElementCache h chartWidgetId in
  match cached with
  | Some element => ret (Some element)
  | None =>
      match firstMatch h (primarySelectors chartWidgetId) with
      | Some element =>
          cacheElement chartWidgetId element ;; ret (Some element)
      | None =>
          match firstMatch h (secondarySelectors chartWidgetId) with
          | Some element =>
              cacheElement chartWidgetId element ;; ret (Some element)
          | None =>
              match find (fun ew => String.eqb (snd ew) chartWidgetId)
                         (Host.widgetIdElements h) with
              | Some (element, _) =>
                  cacheElement chartWidgetId element ;; ret (Some element)
              | None => ret None
              end
          end
      end
  end.

(* ------------------------------------------------------------------- *)
(** *** The DOM-parsing extraction strategy *)

(** Méthode 1: one record per legend item whose label is not empty. *)
Definition legendRecord (h : Host.t) (item : LegendItem.t)
  : option ChartDataRecord.t :=
  let label :=
    orLit (orStr (trim <$> LegendItem.labelText item)
                 (trim <$> LegendItem.itemText item)) EmptyString in
  let color :=
    match LegendItem.swatchBackground item with
    | Some bg =>
        if negb (String.eqb bg EmptyString)
           && negb (String.eqb bg "rgba(0, 0, 0, 0)")
        then bg else "#5A9BD5"%string
    | None => "#5A9BD5"%string
    end in
  let valueText := orLit (trim <$> LegendItem.valueText item) EmptyString in
  let value := orZero (Host.parseFloat h (keepNumeric valueText)) in
  if String.eqb label EmptyString then None
  else Some (ChartDataRecord.mk (JStr label) value (Some label)
               (Some color)).

(** Méthode 2: legend nodes inside the shadow root; values unknown. *)
Definition shadowRecord (index : nat) (item : option string)
  : option ChartDataRecord.t :=
  let text := orLit (trim <$> item) EmptyString in
  if String.eqb text EmptyString then None
  else Some (ChartDataRecord.mk (JStr text) (Fin 0) (Some text)
               (paletteColor index)).

(** Méthode 3: [data-category], [data-label] or [aria-label]. *)
Definition attributeRecord (h : Host.t) (index : nat) (el : DataElement.t)
  : option ChartDataRecord.t :=
  let category :=
    orLit (orStr (orStr (DataElement.dataCategory el)
                        (DataElement.dataLabel el))
                 (DataElement.ariaLabel el)) EmptyString in
  let value := Host.parseFloat h (orLit (DataElement.dataValue el) "0") in
  if String.eqb category EmptyString then None
  else Some (ChartDataRecord.mk (JStr category) value (Some category)
               (paletteColor index)).

(** [l.forEach((item, index) => ...)] collecting what [f] pushes. *)
Definition collectIndexed {A B} (f : nat -> A -> option B) (l : list A)
  : list B :=
  omap (fun p => f (fst p) (snd p)) (zip (seq 0 (length l)) l).

Definition domRecords (h : Host.t) (chartElement : Element)
  : list ChartDataRecord.t :=
  let chartData1 := omap (legendRecord h) (Host.legendItems h chartElement) in
  let chartData2 :=
    match chartData1 with
    | [] =>
        match Host.shadowLegend h chartElement with
        | Some shadowLegend => collectIndexed shadowRecord shadowLegend
        | None => []
        end
    | _ => chartData1
    end in
  match chartData2 with
  | [] => collectIndexed (attributeRecord h) (Host.dataElements h chartElement)
  | _ => chartData2
  end.

(** [extractChartDataFromDOM] *)
Definition extractChartDataFromDOM (h : Host.t) (chartWidgetId : string)
  : M ChartDataExtractionResult.t :=
  try_catch
    (let* chartElement := getChartElement h chartWidgetId in
     match chartElement with
     | None =>
         ret (ChartDataExtractionResult.failure
                ("Élément Chart non trouvé dans le DOM: " +:+ chartWidgetId))
     | Some chartElement =>
         let* widgetInfo := lift (getChartWidgetInfo h chartWidgetId) in
         let webChart :=
           widgetInfo ?. Widget.config ?. WidgetConfig.webChart in
         let chartTitle :=
           orLit (orStr (webChart ?. ChartConfig.title)
                        (widgetInfo ?. Widget.label)) EmptyString in
         let chartType :=
           orLit (webChart ?. ChartConfig.series ?. head ?. Series.type)
                 "unknown" in
         match domRecords h chartElement with
         | [] =>
             ret (ChartDataExtractionResult.failure
                    "Impossible d'extraire les données depuis le DOM")
         | chartData =>
             ret (ChartDataExtractionResult.mk
                    true (Some chartData) (Some chartTitle) (Some chartType)
                    None None (Some (length chartData)) None)
         end
     end)
    (fun e =>
       ret (ChartDataExtractionResult.failure
              (messageOr e "Erreur inconnue"))).

(** [result.success && result.data && result.data.length > 0] *)
Definition hasData (result : ChartDataExtractionResult.t) : bool :=
  ChartDataExtractionResult.success result &&
  match ChartDataExtractionResult.data result with
  | Some (_ :: _) => true
  | _ => false
  end.

(** [extractChartDataComplete]: the strategies in order, the first that
    yields records wins. *)
Definition extractChartDataComplete (h : Host.t) (chartWidgetId : string)
  : M ChartDataExtractionResult.t :=
  let result := extractChartData h chartWidgetId in
  if hasData result then ret result else
  let* result := extractChartDataFromDOM h chartWidgetId in
  if hasData result then ret result else
  let* widgetInfo := lift (getChartWidgetInfo h chartWidgetId) in
  match widgetInfo with
  | Some widgetInfo =>
      ret (ChartDataExtractionResult.failure
        ("Impossible d'extraire les données. OutputDS: "
         +:+ orLit (Widget.outputDataSources widgetInfo ?. head) "aucun"
         +:+ ", UseDS: "
         +:+ orLit (firstUseDataSourceId (Widget.useDataSources widgetInfo))
                   "aucun"
         +:+ ". Vérifiez que le chart est correctement initialisé et que les données sont chargées."))
  | None =>
      ret (ChartDataExtractionResult.failure
             "Widget Chart non trouvé ou non configuré")
  end.

(* ------------------------------------------------------------------- *)
(** *** Capture *)

Definition htmlToCanvas := Engine.htmlToCanvas.

(** The read of the capture cache at the head of [captureChartAsImage]. *)
Definition readCaptureCache (chartWidgetId : string)
  : M (option ChartCaptureResult.t) :=
  let* cached := gets (fun w => World.captureCache w !! chartWidgetId) in
  match cached with
  | Some (result, timestamp) =>
      let* now := Date_now in
      if (now - timestamp <? CAPTURE_CACHE_TTL)%Z then ret (Some result)
      else ret None
  | None => ret None
  end.

(** [captureCache.set(id, {result, timestamp: Date.now()})] *)
Definition cacheCapture (chartWidgetId : string)
    (result : ChartCaptureResult.t) : M unit :=
  let* now := Date_now in
  modify (fun w =>
    World.setCaptureCache
      (<[chartWidgetId := (result, now)]> (World.captureCache w)) w).

(** [captureChartAsImage] *)
Definition captureChartAsImage (h : Host.t) (chartWidgetId : string)
    (options : option ChartPrintOptions.t) (forceRefresh : bool)
  : M ChartCaptureResult.t :=
  try_catch
    (let* cached :=
       if negb forceRefresh then readCaptureCache chartWidgetId
       else ret None in
     match cached with
     | Some result => ret result
     | None =>
         let* available := lift (isChartWidgetAvailable h chartWidgetId) in
         if negb available then
           ret (ChartCaptureResult.failure
                  ("Widget Chart non trouvé: " +:+ chartWidgetId))
         else
           let* chartElement := getChartElement h chartWidgetId in
           match chartElement with
           | None =>
               ret (ChartCaptureResult.failure
                      ("Élément DOM du Chart non trouvé: " +:+ chartWidgetId))
           | Some chartElement =>
               let* canvas := htmlToCanvas h chartElement options in
               match canvas with
               | None =>
                   ret (ChartCaptureResult.failure
                          "Échec de la capture du diagramme")
               | Some canvas =>
                   let* dataUrl := lift (Host.toDataURL h canvas) in
                   let result :=
                     ChartCaptureResult.mk true (Some dataUrl)
                       (Some (Canvas.width canvas))
                       (Some (Canvas.height canvas)) None in
                   cacheCapture chartWidgetId result ;;
                   ret result
               end
           end
     end)
    (fun e =>
       ret (ChartCaptureResult.failure
              (messageOr e "Erreur inconnue lors de la capture"))).

(* ------------------------------------------------------------------- *)
(** *** The professional layout *)

(** [Math.ceil(n / c)] for a number [c >= 1] of columns.  (With [c = 0]
    the source divides by zero and computes with [Infinity]; the layout
    is modelled for [c >= 1].) *)
Definition ceilCount (n c : nat) : nat := ((n + c - 1) / c)%nat.

(** The cell of legend item [i]: [Math.floor(i / itemsPerColumn)] and
    [i % itemsPerColumn]. *)
Definition columnIndex (itemsPerColumn i : nat) : nat :=
  (i / itemsPerColumn)%nat.
Definition rowIndex (itemsPerColumn i : nat) : nat :=
  (i mod itemsPerColumn)%nat.

(** The text drawn next to a swatch; truncation to the column width
    depends on font metrics and is left out. *)
Definition legendLabel (h : Host.t) (item : ChartDataRecord.t) : string :=
  default "undefined"%string (ChartDataRecord.label item) +:+
  match ChartDataRecord.value item with
  | NaN | Fin 0 => EmptyString
  | value => " (" +:+ Host.toLocaleString h value +:+ ")"
  end.

(** One iteration of the legend loop.  The position on the page is
    [margin + columnIndex * columnWidth] by [currentY + rowIndex *
    rowHeight]; the document keeps the two indices. *)
Definition legendEntry (h : Host.t) (itemsPerColumn i : nat)
    (item : ChartDataRecord.t) : Pdf.Op :=
  Pdf.LegendEntry (columnIndex itemsPerColumn i) (rowIndex itemsPerColumn i)
    (default (default EmptyString (paletteColor i))
             (if truthy (ChartDataRecord.color item)
              then ChartDataRecord.color item else None))
    (legendLabel h item).

Definition legendEntries (h : Host.t) (legendColumns : nat)
    (legendData : list ChartDataRecord.t) : list Pdf.Op :=
  let itemsPerColumn := ceilCount (length legendData) legendColumns in
  imap (legendEntry h itemsPerColumn) legendData.

(** [notifyProgress]: the callback, when supplied, then a yield. *)
Definition notifyProgress (options : ProfessionalPdfOptions.t)
    (stage : string) (pct : Z) (message : string) : M unit :=
  if ProfessionalPdfOptions.onProgress options
  then modify (World.report stage pct message)
  else ret tt.

(** The options the composer gives to [captureChartAsImage]. *)
Definition captureOptions (chartWidgetId : string)
  : option ChartPrintOptions.t :=
  Some (ChartPrintOptions.mk (Some chartWidgetId) (Some true) (Some BOTTOM)
          (Some (ChartSize.mk 1200 800)) None (Some "#ffffff"%string)
          (Some true) (Some true)).

(** The timer is armed with [setTimeout(..., timeout)] before the two
    initial [notifyProgress] yields, each of which resumes from a timer
    armed later: with a delay of [0] or less the timeout timer fires
    first, and with a positive delay the host tells. *)
Definition timerFiredBeforeRace (h : Host.t) (timeout : Z) : bool :=
  (timeout <=? 0)%Z || Host.yieldsOutlast h timeout.

(** [Promise.race([capturePromise, timeoutPromise])].  The capture is
    started in every case.  A capture that reaches its [return] without
    suspending (it suspends at [await htmlToCanvas]) hands the race a
    promise that is already fulfilled, and the race, which subscribes to
    the capture first, takes its result whatever the timer did.  A
    capture that suspended loses to a timer that has already fired, and
    otherwise wins when it settles before the timer; when the race
    rejects, the result of the capture is discarded. *)
Definition raceCapture (h : Host.t) (chartWidgetId : string)
    (timeout : Z) (forceRefresh : bool) : M ChartCaptureResult.t :=
  let* before := gets World.rasterisations in
  let* captureResult :=
    captureChartAsImage h chartWidgetId (captureOptions chartWidgetId)
      forceRefresh in
  let* after := gets World.rasterisations in
  let suspended := negb (length after =? length before)%nat in
  if negb suspended then ret captureResult
  else if timerFiredBeforeRace h timeout
          || negb (Host.captureSettlesWithin h timeout)
  then throw (ErrorObj ("Timeout: génération PDF dépassé "
                        +:+ String_of_number timeout +:+ "ms"))
  else ret captureResult.

Definition generateProfessionalChartPdf_body (h : Host.t)
    (chartWidgetId : string) (options : ProfessionalPdfOptions.t)
  : M Pdf.Blob :=
  let showDate := default true (ProfessionalPdfOptions.showDate options) in
  let showLegend := default true (ProfessionalPdfOptions.showLegend options) in
  let author := default EmptyString (ProfessionalPdfOptions.author options) in
  let organization :=
    default EmptyString (ProfessionalPdfOptions.organization options) in
  let orientation :=
    default "landscape"%string (ProfessionalPdfOptions.orientation options) in
  let format := default "a4"%string (ProfessionalPdfOptions.format options) in
  let legendColumns :=
    default 4%nat (ProfessionalPdfOptions.legendColumns options) in
  let footerText :=
    default EmptyString (ProfessionalPdfOptions.footerText options) in
  let timeout := default 30000%Z (ProfessionalPdfOptions.timeout options) in
  let forceRefresh :=
    default false (ProfessionalPdfOptions.forceRefresh options) in
  let pdfFormat :=
    if existsb (String.eqb format) PDF_FORMATS then format else "a4"%string in
  notifyProgress options "init" 0 "Initialisation de la génération PDF..." ;;
  notifyProgress options "capture" 10 "Capture du diagramme en cours..." ;;
  let* captureResult := raceCapture h chartWidgetId timeout forceRefresh in
  notifyProgress options "capture" 30 "Capture terminée" ;;
  notifyProgress options "data" 35 "Extraction des données..." ;;
  let* dataResult := extractChartDataComplete h chartWidgetId in
  let* widgetInfo := lift (getChartWidgetInfo h chartWidgetId) in
  let chartTitle :=
    orLit (orStr (orStr (ProfessionalPdfOptions.title options)
                        (ChartDataExtractionResult.chartTitle dataResult))
                 (widgetInfo ?. Widget.label)) "Diagramme" in
  notifyProgress options "pdf" 45 "Création du document PDF..." ;;
  let header :=
    [Pdf.Border; Pdf.Title chartTitle] ++
    (if truthy (ProfessionalPdfOptions.subtitle options)
     then [Pdf.Subtitle (default EmptyString
                           (ProfessionalPdfOptions.subtitle options))]
     else []) ++
    [Pdf.Separator] in
  notifyProgress options "image" 50 "Traitement de l'image..." ;;
  let imageData := ChartCaptureResult.dataUrl captureResult in
  let* graphic :=
    if ChartCaptureResult.success captureResult && truthy imageData then
      notifyProgress options "image" 60 "Ajout de l'image au PDF..." ;;
      ret [Pdf.Image (default EmptyString imageData)]
    else ret [Pdf.Placeholder "Graphique non disponible"] in
  let* legend :=
    if showLegend && hasData dataResult then
      notifyProgress options "legend" 70 "Génération de la légende..." ;;
      ret (Pdf.Separator ::
           legendEntries h legendColumns
             (default [] (ChartDataExtractionResult.data dataResult)))
    else ret [] in
  notifyProgress options "footer" 85 "Finalisation du document..." ;;
  let footer :=
    [Pdf.Separator] ++
    (if showDate then [Pdf.FooterDate] else []) ++
    (if negb (String.eqb author EmptyString)
        || negb (String.eqb organization EmptyString)
     then [Pdf.FooterCentre
             (if String.eqb author EmptyString then organization
              else if String.eqb organization EmptyString then author
              else author +:+ " - " +:+ organization)]
     else []) ++
    [Pdf.FooterRight
       (if String.eqb footerText EmptyString
        then "Généré par ArcGIS Experience Builder"%string else footerText)] in
  notifyProgress options "complete" 100 "PDF généré avec succès!" ;;
  ret (Pdf.mkBlob orientation pdfFormat (header ++ graphic ++ legend ++ footer)).

(** [generateProfessionalChartPdf]: the body inside [try]; the handler
    reports the error stage and returns [null]. *)
Definition generateProfessionalChartPdf (h : Host.t)
    (chartWidgetId : string) (options : ProfessionalPdfOptions.t)
  : M (option Pdf.Blob) :=
  try_catch
    (let* blob := generateProfessionalChartPdf_body h chartWidgetId options in
     ret (Some blob))
    (fun e =>
       let errorMessage := messageOr e "Erreur inconnue" in
       (if ProfessionalPdfOptions.onProgress options
        then modify (World.report "error" (-1) errorMessage)
        else ret tt) ;;
       ret None).

(* ------------------------------------------------------------------- *)
(** *** Download names *)

(** The name [downloadPdf] gives to the link; [filename] defaults to
    ["chart-export"]. *)
Definition downloadPdf (filename : option string) : M string :=
  let filename := default "chart-export"%string filename in
  let* now := Date_now in
  ret (replaceNonAlnum filename "_" +:+ "_" +:+ String_of_number now
       +:+ ".pdf").

(** The name [downloadChartAsImage] gives to the link. *)
Definition downloadChartAsImage (title : string) : M string :=
  let* now := Date_now in
  ret (replaceNonAlnum title "_" +:+ "_" +:+ String_of_number now
       +:+ ".png").

(* ------------------------------------------------------------------- *)
(** *** Colours *)

(** The value of a character matched by [[a-f\d]] under the [i] flag. *)
Definition hexDigit (c : ascii) : option Z :=
  let n := nat_of_ascii c in
  if (48 <=? n)%nat && (n <=? 57)%nat then Some (Z.of_nat (n - 48))
  else if (97 <=? n)%nat && (n <=? 102)%nat then Some (Z.of_nat (n - 87))
  else if (65 <=? n)%nat && (n <=? 70)%nat then Some (Z.of_nat (n - 55))
  else None.

(** [parseInt(group, 16)] on the two characters of a captured group. *)
Definition parseHexPair (hi lo : ascii) : option Z :=
  match hexDigit hi, hexDigit lo with
  | Some x, Some y => Some (16 * x + y)%Z
  | _, _ => None
  end.

(** [/^#?([a-f\d]{2})([a-f\d]{2})([a-f\d]{2})$/i.exec(hex)]: the three
    groups read in base 16, or [None] when the string does not match. *)
Definition hexGroups (hex : string) : option (Z * Z * Z) :=
  let digits :=
    match hex with
    | String "#"%char rest => rest
    | _ => hex
    end in
  match digits with
  | String c1 (String c2 (String c3 (String c4 (String c5 (String c6
      EmptyString))))) =>
      match parseHexPair c1 c2, parseHexPair c3 c4, parseHexPair c5 c6 with
      | Some r, Some g, Some b => Some (r, g, b)
      | _, _, _ => None
      end
  | _ => None
  end.

(** [hexToRgb] *)
Definition hexToRgb (hex : string) : Rgb.t :=
  match hexGroups hex with
  | Some (r, g, b) => Rgb.mk r g b
  | None => Rgb.mk 0 0 0
  end.

(* ------------------------------------------------------------------- *)
(** *** Work in chunks *)

(** What [executeInChunks] does, in order: it calls the processor on an
    item with its index, or it yields to the main loop. *)
Inductive ChunkStep (T : Type) : Type :=
| Processed (item : T) (index : nat)
| Yielded.
Arguments Processed {T} item index.
Arguments Yielded {T}.

(** The loop from index [i] on: after item [i] a yield when
    [(i + 1) % chunkSize === 0]. *)
Fixpoint executeInChunksFrom {T} (i : nat) (items : list T) (chunkSize : nat)
  : list (ChunkStep T) :=
  match items with
  | [] => []
  | item :: rest =>
      Processed item i ::
      (if (0 <? chunkSize)%nat && ((i + 1) mod chunkSize =? 0)%nat
       then [Yielded] else []) ++
      executeInChunksFrom (S i) rest chunkSize
  end.

(** [executeInChunks]; [chunkSize] defaults to 10. *)
Definition executeInChunks {T} (items : list T) (chunkSize : option nat)
  : list (ChunkStep T) :=
  executeInChunksFrom 0 items (default 10%nat chunkSize).

(* ------------------------------------------------------------------- *)
(** *** Validation and listing *)

(** [validateChartPrintOptions]; a missing width or height is
    [undefined], which compares as [NaN] does. *)
Definition validateChartPrintOptions (options : UncheckedOptions.t)
  : Validation.t :=
  let errors : list string := [] in
  let errors :=
    if negb (truthy (UncheckedOptions.chartWidgetId options))
    then errors ++ ["chartWidgetId est requis"%string] else errors in
  let errors :=
    match UncheckedOptions.chartSize options with
    | Some chartSize =>
        let errors :=
          if leZero (default NaN (UncheckedSize.width chartSize))
          then errors ++ ["La largeur du diagramme doit être positive"%string]
          else errors in
        if leZero (default NaN (UncheckedSize.height chartSize))
        then errors ++ ["La hauteur du diagramme doit être positive"%string]
        else errors
    | None => errors
    end in
  let errors :=
    if truthy (UncheckedOptions.chartPosition options)
       && negb (existsb
                  (String.eqb
                     (default EmptyString
                        (UncheckedOptions.chartPosition options)))
                  ChartPosition_values)
    then errors ++ ["Position du diagramme invalide"%string] else errors in
  Validation.mk (length errors =? 0)%nat errors.

(** [listAvailableChartWidgets]: the registered widgets whose [uri]
    contains ["chart"], in the order in which the registry enumerates its
    keys. *)
Definition listAvailableChartWidgets (h : Host.t)
  : Outcome (list ChartWidgetInfo.t) :=
  let! widgets := Host.widgets h in
  match widgets with
  | None => Returns []
  | Some ws =>
      Returns
        (omap (fun entry : string * Widget.t =>
                 let widgetId := fst entry in
                 let widget := snd entry in
                 match Widget.uri widget with
                 | Some uri =>
                     if includes uri "chart"
                     then Some (ChartWidgetInfo.mk widgetId
                                  (orLit (Widget.label widget) widgetId))
                     else None
                 | None => None
                 end)
              (map_to_list ws))
  end.

(* ------------------------------------------------------------------- *)
(** *** Print elements and templates *)

(** [createChartPrintElement] *)
Definition createChartPrintElement (h : Host.t) (chartWidgetId : string)
    (options : ChartPrintOptions.t) : M (option ChartPrintElement.t) :=
  let* captureResult :=
    captureChartAsImage h chartWidgetId (Some options) false in
  if negb (ChartCaptureResult.success captureResult)
     || negb (truthy (ChartCaptureResult.dataUrl captureResult))
  then ret None
  else ret (Some (ChartPrintElement.mk "chart"
                    (default EmptyString
                       (ChartCaptureResult.dataUrl captureResult))
                    (ChartPrintOptions.chartPosition options)
                    (ChartPrintOptions.chartSize options)
                    (ChartPrintOptions.chartTitle options))).

(** [addChartToTemplate]: the element is pushed onto the array of the
    template, or onto a new array when the template has none, and a copy
    of the template that refers to that array is returned. *)
Definition addChartToTemplate (printTemplateProperties : option Template.t)
    (chartElement : option ChartPrintElement.t) (arrays : Arrays)
  : option Template.t * Arrays :=
  match printTemplateProperties, chartElement with
  | Some properties, Some element =>
      let address :=
        match Template.extraElements properties with
        | Some existing => existing
        | None => fresh (dom arrays)
        end in
      let extraElements := default [] (arrays !! address) in
      (Some (Template.mk (Some address) (Template.others properties)),
       <[address := extraElements ++ [element]]> arrays)
  | _, _ => (printTemplateProperties, arrays)
  end.

(* ------------------------------------------------------------------- *)
(** *** Simple documents *)

(** [generateChartPdf]: one page with the title, when there is one, the
    image and the date. *)
Definition generateChartPdf (h : Host.t) (chartWidgetId : string)
    (options : ChartPrintOptions.t) : M (option Pdf.Blob) :=
  try_catch
    (let* captureResult :=
       captureChartAsImage h chartWidgetId (Some options) false in
     if negb (ChartCaptureResult.success captureResult)
        || negb (truthy (ChartCaptureResult.dataUrl captureResult))
     then ret None
     else
       let imgWidth :=
         orNum (default 0%Z (ChartCaptureResult.width captureResult)) 400 in
       let imgHeight :=
         orNum (default 0%Z (ChartCaptureResult.height captureResult)) 300 in
       let orientation :=
         if (imgHeight <? imgWidth)%Z then "landscape"%string
         else "portrait"%string in
       let title :=
         if truthy (ChartPrintOptions.chartTitle options)
         then [Pdf.Title (default EmptyString
                            (ChartPrintOptions.chartTitle options))]
         else [] in
       let* generated := Date_now in
       ret (Some (Pdf.mkBlob orientation "a4"
                    (title ++
                     [Pdf.Image (default EmptyString
                                   (ChartCaptureResult.dataUrl captureResult));
                      Pdf.FooterDate]))))
    (fun _ => ret None).

(** [generateAndDownloadChartPdf]; beside the boolean, the name given to
    the downloaded file. *)
Definition generateAndDownloadChartPdf (h : Host.t) (chartWidgetId : string)
    (options : ChartPrintOptions.t) (filename : option string)
  : M (bool * option string) :=
  try_catch
    (let* pdfBlob := generateChartPdf h chartWidgetId options in
     match pdfBlob with
     | None => ret (false, None)
     | Some _ =>
         let* chartInfo := lift (getChartWidgetInfo h chartWidgetId) in
         let defaultFilename :=
           orLit (orStr (chartInfo ?. Widget.label)
                        (ChartPrintOptions.chartTitle options))
                 "chart-export" in
         let* name := downloadPdf (Some (orLit filename defaultFilename)) in
         ret (true, Some name)
     end)
    (fun _ => ret (false, None)).

(** One iteration of the loop of [generateMultiChartPdf]: what is drawn
    on page [i + 1]. *)
Definition multiChartPage (h : Host.t) (options : option ChartPrintOptions.t)
    (includeTimestamp : bool) (total i : nat) (chartWidgetId : string)
  : M (list Pdf.Op) :=
  let* captureResult := captureChartAsImage h chartWidgetId options false in
  if negb (ChartCaptureResult.success captureResult)
     || negb (truthy (ChartCaptureResult.dataUrl captureResult))
  then ret []
  else
    let* chartInfo := lift (getChartWidgetInfo h chartWidgetId) in
    let title :=
      if truthy (chartInfo ?. Widget.label)
      then [Pdf.Title (default EmptyString (chartInfo ?. Widget.label))]
      else [] in
    let* timestamp :=
      if includeTimestamp
      then (let* generated := Date_now in ret [Pdf.FooterDate])
      else ret [] in
    ret (title ++
         [Pdf.Image (default EmptyString
                       (ChartCaptureResult.dataUrl captureResult));
          Pdf.FooterRight ("Page " +:+ String_of_number (Z.of_nat (i + 1))
                           +:+ " / " +:+ String_of_number (Z.of_nat total))]
         ++ timestamp).

Fixpoint multiChartPages (h : Host.t) (options : option ChartPrintOptions.t)
    (includeTimestamp : bool) (total i : nat) (chartWidgetIds : list string)
  : M (list (list Pdf.Op)) :=
  match chartWidgetIds with
  | [] => ret []
  | chartWidgetId :: rest =>
      let* page :=
        multiChartPage h options includeTimestamp total i chartWidgetId in
      let* pages :=
        multiChartPages h options includeTimestamp total (S i) rest in
      ret (page :: pages)
  end.

(** [generateMultiChartPdf]: one page per widget, left blank when the
    capture of the widget fails. *)
Definition generateMultiChartPdf (h : Host.t)
    (chartWidgetIds : option (list string))
    (options : option ChartPrintOptions.t)
    (pdfOptions : PdfGenerationOptions.t) : M (option MultiPdf.Blob) :=
  try_catch
    (match chartWidgetIds with
     | None | Some [] => ret None
     | Some ids =>
         let orientation :=
           default "portrait"%string
             (PdfGenerationOptions.orientation pdfOptions) in
         let format :=
           default "a4"%string (PdfGenerationOptions.format pdfOptions) in
         let includeTimestamp :=
           default true (PdfGenerationOptions.includeTimestamp pdfOptions) in
         let* pages :=
           multiChartPages h options includeTimestamp (length ids) 0 ids in
         ret (Some (MultiPdf.mkBlob orientation format pages))
     end)
    (fun _ => ret None).

(** [if (options.onProgress) options.onProgress(stage, progress, message)] *)
Definition reportProgress (options : ProfessionalPdfOptions.t)
    (stage : string) (pct : Z) (message : string) : M unit :=
  if ProfessionalPdfOptions.onProgress options
  then modify (World.report stage pct message)
  else ret tt.

(** [generateAndDownloadProfessionalChartPdf]; beside the boolean, the
    name given to the downloaded file.  [filename] defaults to
    ["chart-export"]. *)
Definition generateAndDownloadProfessionalChartPdf (h : Host.t)
    (chartWidgetId : string) (options : ProfessionalPdfOptions.t)
    (filename : option string) : M (bool * option string) :=
  let filename := default "chart-export"%string filename in
  try_catch
    (reportProgress options "download" 0 "Préparation du téléchargement..." ;;
     let* blob := generateProfessionalChartPdf h chartWidgetId options in
     match blob with
     | Some _ =>
         let* name := downloadPdf (Some filename) in
         reportProgress options "download" 100 "Téléchargement terminé!" ;;
         ret (true, Some name)
     | None =>
         reportProgress options "error" (-1) "Échec de la génération du PDF" ;;
         ret (false, None)
     end)
    (fun e =>
       let errorMessage := messageOr e "Erreur inconnue" in
       reportProgress options "error" (-1) errorMessage ;;
       ret (false, None)).

(* ------------------------------------------------------------------- *)
(** *** Printing a chart alone *)

(** The replacement, in the title of the print page, of the characters
    less-than, greater-than, ampersand, double quote and apostrophe by
    their entities. *)
Definition escapeHtml (s : string) : string :=
  mapChars (fun c =>
    let n := nat_of_ascii c in
    if (n =? 60)%nat then "&lt;"%string
    else if (n =? 62)%nat then "&gt;"%string
    else if (n =? 38)%nat then "&amp;"%string
    else if (n =? 34)%nat then "&quot;"%string
    else if (n =? 39)%nat then "&#39;"%string
    else String c EmptyString) s.

(** The body of [printChartOnly]; [fallback] is the call
    [printChartOnly(chartElement, title, "pdf")] made when the print
    window cannot be opened. *)
Definition printChartOnlyWith
    (fallback : M (PrintOutput.t * PrintEffect.t)) (b : Browser.t)
    (chartElement : option ChartPrintElement.t) (title : option string)
    (outputFormat : option OutputFormat)
  : M (PrintOutput.t * PrintEffect.t) :=
  let title := default "Chart Export"%string title in
  let outputFormat := default PDF outputFormat in
  match chartElement with
  | None => throw (ErrorObj "No chart element provided for printing")
  | Some chartElement =>
      if String.eqb (ChartPrintElement.content chartElement) EmptyString
      then throw (ErrorObj "No chart element provided for printing")
      else
        try_catch
          (let displayTitle :=
             orLit (ChartPrintElement.title chartElement) title in
           match outputFormat with
           | PDF =>
               match Browser.imageSize b
                       (ChartPrintElement.content chartElement) with
               | None => throw (ErrorObj "Échec du chargement de l'image")
               | Some (naturalWidth, naturalHeight) =>
                   let size (side : ChartSize.t -> Z) (natural : Z) : M Z :=
                     if (natural =? 0)%Z then
                       match ChartPrintElement.size chartElement with
                       | Some chartSize => ret (side chartSize)
                       | None =>
                           throw (ErrorObj
                                    "Cannot read properties of undefined")
                       end
                     else ret natural in
                   let* imgWidth := size ChartSize.width naturalWidth in
                   let* imgHeight := size ChartSize.height naturalHeight in
                   let orientation :=
                     if (imgHeight <? imgWidth)%Z then "landscape"%string
                     else "portrait"%string in
                   let* generated := Date_now in
                   let pdfBlob :=
                     Pdf.mkBlob orientation "a4"
                       [Pdf.Title displayTitle;
                        Pdf.Image (ChartPrintElement.content chartElement);
                        Pdf.FooterDate] in
                   let pdfUrl := Browser.createObjectURL b pdfBlob in
                   let* name := downloadPdf (Some displayTitle) in
                   ret (PrintOutput.mk pdfUrl (Some pdfBlob),
                        PrintEffect.mk (Some name) None)
               end
           | PNG =>
               let* name := downloadChartAsImage displayTitle in
               ret (PrintOutput.mk (ChartPrintElement.content chartElement)
                      None,
                    PrintEffect.mk (Some name) None)
           | PRINT =>
               let escapedTitle := escapeHtml displayTitle in
               let* generated := Date_now in
               if negb (Browser.popupAllowed b) then fallback
               else
                 ret (PrintOutput.mk (ChartPrintElement.content chartElement)
                        None,
                      PrintEffect.mk None
                        (Some (PrintPage.mk escapedTitle
                                 (ChartPrintElement.content chartElement))))
           end)
          (fun error => throw error)
  end.

(** [printChartOnly] *)
Definition printChartOnly (b : Browser.t)
    (chartElement : option ChartPrintElement.t) (title : option string)
    (outputFormat : option OutputFormat)
  : M (PrintOutput.t * PrintEffect.t) :=
  printChartOnlyWith
    (printChartOnlyWith
       (throw (ErrorObj "unreachable")) b chartElement title (Some PDF))
    b chartElement title outputFormat.

End Service.

(* ===================================================================== *)
(** ** [cache.ts], [widget-utils.ts], [capture.ts]: the modular pipeline *)
(* ===================================================================== *)

Module Modular.

Definition ELEMENT_CACHE_TTL : Z := 30000.
Definition CAPTURE_CACHE_TTL : Z := 5000.

(* ------------------------------------------------------------------- *)
(** *** [cache.ts] *)

(** [getCachedElement]: the entry when it is younger than the TTL. *)
Definition getCachedElement (chartWidgetId : string) : M (option Element) :=
  let* cached := gets (fun w => World.chartElementCache w !! chartWidgetId) in
  match cached with
  | Some (element, timestamp) =>
      let* now := Date_now in
      if (now - timestamp <? ELEMENT_CACHE_TTL)%Z then ret (Some element)
      else ret None
  | None => ret None
  end.

(** [setCachedElement] *)
Definition setCachedElement (chartWidgetId : string) (element : Element)
  : M unit :=
  let* now := Date_now in
  modify (fun w =>
    World.setElementCache
      (<[chartWidgetId := (element, now)]> (World.chartElementCache w)) w).

(** [getCachedCapture] *)
Definition getCachedCapture (chartWidgetId : string)
  : M (option ChartCaptureResult.t) :=
  let* cached := gets (fun w => World.captureCache w !! chartWidgetId) in
  match cached with
  | Some (result, timestamp) =>
      let* now := Date_now in
      if (now - timestamp <? CAPTURE_CACHE_TTL)%Z then ret (Some result)
      else ret None
  | None => ret None
  end.

(** [setCachedCapture] *)
Definition setCachedCapture (chartWidgetId : string)
    (result : ChartCaptureResult.t) : M unit :=
  let* now := Date_now in
  modify (fun w =>
    World.setCaptureCache
      (<[chartWidgetId := (result, now)]> (World.captureCache w)) w).

(** [cleanExpiredCache] *)
Definition cleanExpiredCache : M unit :=
  let* now := Date_now in
  modify (fun w =>
    World.setElementCache
      (filter (fun kv => ¬ (ELEMENT_CACHE_TTL < now - (kv.2).2)%Z)
              (World.chartElementCache w)) w) ;;
  modify (fun w =>
    World.setCaptureCache
      (filter (fun kv => ¬ (CAPTURE_CACHE_TTL < now - (kv.2).2)%Z)
              (World.captureCache w)) w).

(** [clearAllCaches] *)
Definition clearAllCaches : M unit :=
  modify (World.setElementCache ∅) ;;
  modify (World.setCaptureCache ∅) ;;
  modify (World.setCanvasPool []).

(* ------------------------------------------------------------------- *)
(** *** [widget-utils.ts] *)

(** The chart-type predicate on the lower-cased manifest name. *)
Definition isChartManifest (manifestName : string) : bool :=
  String.eqb manifestName "chart"
  || startsWith manifestName "chart"
  || includes manifestName "chartwidget".

(** [isChartWidgetAvailable]; an exception of the store is caught and
    answers [false]. *)
Definition isChartWidgetAvailable (h : Host.t) (chartWidgetId : string)
  : bool :=
  match Host.widgets h with
  | Returns (Some widgets) =>
      if String.eqb chartWidgetId EmptyString then false
      else
        let widget := widgets !! chartWidgetId in
        let manifestName :=
          orLit (toLowerCase <$> (widget ?. Widget.manifestName))
                EmptyString in
        isChartManifest manifestName
  | Returns None => false
  | Throws _ => false
  end.

(** [getChartWidgetInfo] *)
Definition getChartWidgetInfo (h : Host.t) (chartWidgetId : string)
  : option Widget.t :=
  match Host.widgets h with
  | Returns (Some widgets) =>
      if String.eqb chartWidgetId EmptyString then None
      else widgets !! chartWidgetId
  | _ => None
  end.

(** The container chosen inside the widget: the first of the structural
    heuristics that finds something, else the widget container. *)
Definition chooseContainer (h : Host.t) (widgetContainer : Element)
  : Element :=
  let q := Host.querySelector h widgetContainer in
  let chartContainerByClass := q ".chart-container"%string in
  let arcgisChartComponent :=
    q "arcgis-charts-web-component, arcgis-charts, [class*='arcgis-chart']"%string in
  let directCanvas := q "canvas"%string in
  let directSvg := q "svg"%string in
  let chartContainerByAttr := q ("[class*=" +:+ quote +:+ "chart" +:+ quote +:+ "]") in
  match chartContainerByClass, arcgisChartComponent, chartContainerByAttr with
  | Some e, _, _ => e
  | None, Some e, _ => e
  | None, None, Some e => e
  | None, None, None =>
      match directCanvas ?. Host.parentElement h with
      | Some e => e
      | None =>
          match directSvg ?. Host.parentElement h with
          | Some e => e
          | None => widgetContainer
          end
      end
  end.

(** [getChartElement] *)
Definition getChartElement (h : Host.t) (chartWidgetId : string)
  : M (option Element) :=
  let* cached := getCachedElement chartWidgetId in
  (* cached && document.body.contains(cached) *)
  match (if cached is Some element
         then if Host.bodyContains h element then cached else None
         else None) with
  | Some element => ret (Some element)
  | None =>
      let selector :=
        ("[data-widgetid=" +:+ quote +:+ chartWidgetId +:+ quote +:+ "]")%string in
      let* widgetContainer := lift (Host.documentQuerySelector h selector) in
      match widgetContainer with
      | None => ret None
      | Some widgetContainer =>
          let chartContainer := chooseContainer h widgetContainer in
          setCachedElement chartWidgetId chartContainer ;;
          ret (Some chartContainer)
      end
  end.

(* ------------------------------------------------------------------- *)
(** *** [capture.ts] *)

Definition htmlToCanvas := Engine.htmlToCanvas.

(** [captureChartAsImage] *)
Definition captureChartAsImage (h : Host.t) (chartWidgetId : string)
    (options : option ChartPrintOptions.t) (forceRefresh : bool)
  : M ChartCaptureResult.t :=
  try_catch
    (let* cached :=
       if negb forceRefresh then getCachedCapture chartWidgetId
       else ret None in
     match cached with
     | Some result => ret result
     | None =>
         let widgetAvailable := isChartWidgetAvailable h chartWidgetId in
         if negb widgetAvailable then
           ret (ChartCaptureResult.failure
                  ("Widget Chart non trouvé dans appConfig: "
                   +:+ chartWidgetId))
         else
           let* chartElement := getChartElement h chartWidgetId in
           match chartElement with
           | None =>
               ret (ChartCaptureResult.failure
                      ("Élément DOM du Chart non trouvé: " +:+ chartWidgetId))
           | Some chartElement =>
               let* canvas := htmlToCanvas h chartElement options in
               match canvas with
               | None =>
                   ret (ChartCaptureResult.failure
                          "Échec de la capture du diagramme - htmlToCanvas a retourné null")
               | Some canvas =>
                   let* dataUrl := lift (Host.toDataURL h canvas) in
                   let result :=
                     ChartCaptureResult.mk true (Some dataUrl)
                       (Some (Canvas.width canvas))
                       (Some (Canvas.height canvas)) None in
                   setCachedCapture chartWidgetId result ;;
                   ret result
               end
           end
     end)
    (fun e =>
       ret (ChartCaptureResult.failure
              (messageOr e "Erreur inconnue lors de la capture"))).

(** [listAvailableChartWidgets] of [widget-utils.ts]: the registered
    widgets whose manifest name is exactly ["chart"]; an exception of the
    store is caught and answers the empty list.  [idMember] reads the
    [id] member of a widget, which the registry record leaves out. *)
Definition listAvailableChartWidgets (h : Host.t)
    (idMember : Widget.t -> option string) : list ChartWidgetInfo.t :=
  match Host.widgets h with
  | Returns (Some widgets) =>
      omap (fun entry : string * Widget.t =>
              let widgetId := fst entry in
              let widget := snd entry in
              match Widget.manifestName widget with
              | Some name =>
                  if String.eqb name "chart"
                  then Some (ChartWidgetInfo.mk widgetId
                               (orLit (orStr (Widget.label widget)
                                             (idMember widget))
                                      widgetId))
                  else None
              | None => None
              end)
           (map_to_list widgets)
  | Returns None => []
  | Throws _ => []
  end.

(* ------------------------------------------------------------------- *)
(** *** [print.ts] *)

(** [createChartPrintElement] *)
Definition createChartPrintElement (h : Host.t) (chartWidgetId : string)
    (options : ChartPrintOptions.t) : M (option ChartPrintElement.t) :=
  let* captureResult :=
    captureChartAsImage h chartWidgetId (Some options) false in
  if negb (ChartCaptureResult.success captureResult)
     || negb (truthy (ChartCaptureResult.dataUrl captureResult))
  then ret None
  else ret (Some (ChartPrintElement.mk "chart"
                    (default EmptyString
                       (ChartCaptureResult.dataUrl captureResult))
                    (ChartPrintOptions.chartPosition options)
                    (ChartPrintOptions.chartSize options)
                    (ChartPrintOptions.chartTitle options))).

(** [addChartToTemplate] and [printChartOnly] have the text they have in
    [chart-print-service.ts]. *)
Definition addChartToTemplate := Service.addChartToTemplate.
Definition printChartOnly := Service.printChartOnly.

End Modular.

(* ===================================================================== *)
(** ** [chart-widget-selector.tsx]: the charts offered in the settings *)
(* ===================================================================== *)

Module Selector.

(** [availableCharts]: the widgets read from the store whose [uri], in
    lower case, contains ["chart"]. *)
Definition availableCharts (widgetsFromStore : option (gmap string Widget.t))
  : list ChartWidgetInfo.t :=
  match widgetsFromStore with
  | None => []
  | Some widgets =>
      omap (fun entry : string * Widget.t =>
              let widgetId := fst entry in
              let widget := snd entry in
              let uri :=
                toLowerCase (orLit (Widget.uri widget) EmptyString) in
              if includes uri "chart"
              then Some (ChartWidgetInfo.mk widgetId
                           (orLit (Widget.label widget)
                                  ("Chart (" +:+ widgetId +:+ ")")))
              else None)
           (map_to_list widgets)
  end.

End Selector.

(* ===================================================================== *)
(** ** Concrete hosts and worlds used by the examples *)
(* ===================================================================== *)

Module Fixtures.

(** Code-unit order, as a [localeCompare]. *)
Definition lexCompare (a b : string) : Z :=
  match String.compare a b with
  | Lt => (-1)%Z
  | Eq => 0%Z
  | Gt => 1%Z
  end.

(** [toLocaleString] without separators. *)
Definition localeString (x : Num) : string :=
  match x with
  | NaN => "NaN"
  | Fin n => String_of_number n
  | Inf false => "∞"
  | Inf true => "-∞"
  end.

(** A host in which nothing is mounted: the registry [ws], the data
    sources [ds], and the given answers of the DOM and the rasterisers. *)
Definition hostOf (ws : gmap string Widget.t)
    (ds : option string -> option DataSource.t)
    (docQuery : string -> Outcome (option Element))
    (attached : Element -> bool)
    (legend : Element -> list LegendItem.t)
    (canvases : Element -> list Canvas.t)
    (raster : Element -> Z -> Outcome Canvas.t)
    (toUrl : Canvas.t -> Outcome string)
    (settles : Z -> bool) : Host.t :=
  Host.mk (Returns (Some ws)) ds lexCompare (fun _ => NaN)
    attached attached docQuery [] (fun _ _ => None) (fun _ => None)
    legend (fun _ => None) (fun _ => [])
    (fun _ => 600%Z) (fun _ => 400%Z) canvases (fun _ => true)
    raster (fun _ => []) (fun _ => Throws (ErrorObj "Échec SVG"))
    toUrl localeString (fun _ => false) settles.

Definition noDataSource : option string -> option DataSource.t :=
  fun _ => None.
Definition nothingMounted : string -> Outcome (option Element) :=
  fun _ => Returns None.
Definition rasterFails : Element -> Z -> Outcome Canvas.t :=
  fun _ _ => Throws (ErrorObj "html2canvas").
Definition pngOf : Canvas.t -> Outcome string :=
  fun _ => Returns "data:image/png;base64,AAAA"%string.

(** The element [1] answers the selector [[data-widgetid="w1"]]. *)
Definition mountedW1 : string -> Outcome (option Element) :=
  fun selector =>
    if String.eqb selector
         ("[data-widgetid=" +:+ quote +:+ "w1" +:+ quote +:+ "]")
    then Returns (Some 1%nat) else Returns None.

Definition world0 : World.t :=
  World.mk ∅ ∅ [] (fun n => 1000 + Z.of_nat n)%Z 0 [] [].

(** Scenario 1: a bar chart of sales per year. *)
Definition salesSeries : Series.t :=
  Series.mk (Some "year") None (Some "sales") None None (Some "bar") false.

Definition chartWidget (manifest : string) : Widget.t :=
  Widget.mk (Some "widgets/common/chart/") (Some manifest) (Some "Sales")
    (Some (WidgetConfig.mk
             (Some (ChartConfig.mk (Some [salesSeries]) None None None None))
             (ChartConfig.mk None None None None None)))
    None (Some ["out1"]).

Definition registry (manifest : string) : gmap string Widget.t :=
  {[ "w1" := chartWidget manifest ]}.

Definition outputOf (records : list DataRecord)
  : option string -> option DataSource.t :=
  fun i =>
    if decide (i = Some "out1")
    then Some (DataSource.mk (Some (Returns (Some records))) None None)
    else None.

Definition salesRecords : list DataRecord :=
  [ [("year", JNum 2020); ("sales", JNum 10)];
    [("year", JNum 2020); ("sales", JNum 5)];
    [("year", JNum 2021); ("sales", JNum 7)] ]%string.

Definition salesHost : Host.t :=
  hostOf (registry "chart") (outputOf salesRecords) nothingMounted
    (fun _ => false) (fun _ => []) (fun _ => []) rasterFails pngOf
    (fun _ => true).

(** A record whose category is [null]. *)
Definition nullYearRecords : list DataRecord :=
  [ [("year", JNull); ("sales", JNum 10)];
    [("year", JNum 2020); ("sales", JNum 5)] ]%string.

Definition nullYearHost : Host.t :=
  hostOf (registry "chart") (outputOf nullYearRecords) nothingMounted
    (fun _ => false) (fun _ => []) (fun _ => []) rasterFails pngOf
    (fun _ => true).

(** A mounted chart whose legend shows the label ["A"] twice and whose
    data sources give nothing. *)
Definition legendA (v : string) : LegendItem.t :=
  LegendItem.mk (Some "A") (Some "A") None (Some v).

Definition dupLegendHost : Host.t :=
  hostOf (registry "chart") noDataSource mountedW1 (fun _ => true)
    (fun _ => [legendA "1"; legendA "2"]) (fun _ => []) rasterFails pngOf
    (fun _ => true).

(** A mounted chart on which the three capture techniques fail: no
    canvas, [html2canvas] raises, no [svg]. *)
Definition failingCaptureHost : Host.t :=
  hostOf (registry "chart") noDataSource mountedW1 (fun _ => true)
    (fun _ => []) (fun _ => []) rasterFails pngOf (fun _ => true).

(** A mounted chart with one canvas of the requested size. *)
Definition workingCaptureHost (settles : bool) : Host.t :=
  hostOf (registry "chart") noDataSource mountedW1 (fun _ => true)
    (fun _ => []) (fun _ => [Canvas.mk 1200 800 (Native 0)]) rasterFails
    pngOf (fun _ => settles).

(** A widget whose manifest name merely contains ["chartwidget"]. *)
Definition chartwidgetHost : Host.t :=
  hostOf (registry "my-chartwidget") noDataSource nothingMounted
    (fun _ => false) (fun _ => []) (fun _ => []) rasterFails pngOf
    (fun _ => true).

(** The element cache still holds element [7] for ["w1"], stored one
    second ago; the element has left the document and nothing is
    mounted. *)
Definition staleWorld : World.t :=
  World.mk {[ "w1" := (7%nat, 1000%Z) ]} ∅ []
    (fun n => 2000 + Z.of_nat n)%Z 0 [] [].

Definition detachedHost : Host.t :=
  hostOf (registry "chart") noDataSource nothingMounted (fun _ => false)
    (fun _ => []) (fun _ => []) rasterFails pngOf (fun _ => true).

(** Nothing is registered and nothing is mounted. *)
Definition emptyHost : Host.t :=
  hostOf ∅ noDataSource nothingMounted (fun _ => false) (fun _ => [])
    (fun _ => []) rasterFails pngOf (fun _ => true).

(** A mounted chart that only [html2canvas] can capture. *)
Definition slowCaptureHost (settles : bool) : Host.t :=
  hostOf (registry "chart") noDataSource mountedW1 (fun _ => true)
    (fun _ => []) (fun _ => [])
    (fun el scale => Returns (Canvas.mk 2400 1600 (Rasterised el scale)))
    pngOf (fun _ => settles).

Definition progressOptions (timeout : Z) : ProfessionalPdfOptions.t :=
  ProfessionalPdfOptions.mk None None None None None None None None None
    None None None None None true None (Some timeout) None None.

End Fixtures.

(* ===================================================================== *)
(** ** What the specification says, where it is compared with the code *)
(* ===================================================================== *)

Module Spec.

(** Sanitisation as the specification words it: the characters outside
    [a-z0-9] (case-insensitively) are stripped. *)
Definition sanitize (title : string) : string :=
  replaceNonAlnum title EmptyString.

(** [{sanitizedTitle}_{epochMillis}.{ext}] *)
Definition downloadName (title : string) (epochMillis : Z) (ext : string)
  : string :=
  sanitize title +:+ "_" +:+ String_of_number epochMillis +:+ "." +:+ ext.

(** The chart-type predicate as the specification words it: the manifest
    tag matches exactly or by prefix. *)
Definition exactOrPrefix (tag : string) : bool :=
  String.eqb tag "chart" || startsWith tag "chart".

End Spec.

(** Sums and totals used in the statements. *)
Definition sumZ (l : list Z) : Z := foldr Z.add 0%Z l.

(** The integer a finite number stands for; [NaN] and the infinities
    count as [0]. *)
Definition finiteValue (x : Num) : Z :=
  match x with
  | Fin n => n
  | _ => 0%Z
  end.

(** The total of the extracted values, as a sum of integers. *)
Definition totalValue (data : list ChartDataRecord.t) : Z :=
  sumZ (map (fun r => finiteValue (ChartDataRecord.value r)) data).

(** The raw number held by a field; a field that is not a number counts
    as [0]. *)
Definition rawNumber (v : JsValue) : Z :=
  match v with
  | JNum n => n
  | _ => 0%Z
  end.

(** The sum of the magnitudes of the raw values of field [valueField]
    over the records. *)
Definition rawMagnitude (valueField : string) (records : list DataRecord)
  : Z :=
  sumZ (map (fun r => Z.abs (rawNumber (lookupKey r valueField))) records).

(** The total of the raw values of field [valueField] over the records. *)
Definition rawTotal (valueField : string) (records : list DataRecord) : Z :=
  sumZ (map (fun r => rawNumber (lookupKey r valueField)) records).

(** The total of the raw values over the records of category [c]. *)
Definition rawTotalOf (categoryField valueField : string) (c : JsValue)
    (records : list DataRecord) : Z :=
  rawTotal valueField
    (filter (fun r => lookupKey r categoryField = c) records).

(** A comparator on strings that is a consistent order. *)
Definition consistentComparator (cmp : string -> string -> Z) : Prop :=
  (forall a b, (0 <= cmp a b)%Z -> (cmp b a <= 0)%Z) /\
  (forall a b c, (cmp a b <= 0)%Z -> (cmp b c <= 0)%Z -> (cmp a c <= 0)%Z).

(** The categories of the records are all numbers, or all strings compared
    by a consistent [localeCompare]. *)
Definition homogeneousCategories (h : Host.t) (categoryField : string)
    (records : list DataRecord) : Prop :=
  (forall record, record ∈ records ->
                  exists n, lookupKey record categoryField = JNum n) \/
  ((forall record, record ∈ records ->
                   exists s, lookupKey record categoryField = JStr s) /\
   consistentComparator (Host.localeCompare h)).

(** The order the comparator of [extractChartData] induces. *)
Definition categoryLe (h : Host.t) (a b : ChartDataRecord.t) : Prop :=
  (compareCategory h a b <= 0)%Z.

(** The column of a legend entry, and the number of entries of a document
    placed in a column. *)
Definition columnOf (op : Pdf.Op) : option nat :=
  match op with
  | Pdf.LegendEntry column _ _ _ => Some column
  | _ => None
  end.

Definition itemsInColumn (ops : list Pdf.Op) (column : nat) : nat :=
  length (filter (fun c => c = column) (omap columnOf ops)).

(** Every cached capture is a success. *)
Definition cacheHoldsSuccesses (w : World.t) : Prop :=
  forall id result timestamp,
    World.captureCache w !! id = Some (result, timestamp) ->
    ChartCaptureResult.success result = true.

(** The three techniques produce no canvas on [element]: the first two
    return nothing, the third returns nothing or throws. *)
Definition techniquesFail (h : Host.t) (element : Element)
    (options : option ChartPrintOptions.t) : Prop :=
  (forall w, fst (Engine.existingCanvasTechnique h element options w)
             = Returns None) /\
  (forall w, fst (Engine.html2canvasTechnique h element options w)
             = Returns None) /\
  (forall w canvas, fst (Engine.svgTechnique h element options w)
                    <> Returns (Some canvas)).

(** [w'] differs from [w] at most in the element cache, the canvas pool
    and the number of clock readings taken. *)
Definition quiet (w w' : World.t) : Prop :=
  World.captureCache w' = World.captureCache w /\
  World.progress w' = World.progress w /\
  World.clock w' = World.clock w /\
  World.rasterisations w' = World.rasterisations w.

(** [m] never touches the capture cache, the progress log or the
    rasterisation log. *)
Definition quietly {A} (m : M A) : Prop := forall w, quiet w (snd (m w)).

(** The ways a call of [captureChartAsImage] can go, for either module
    instance; [nullMessage] is the error reported when [htmlToCanvas]
    returns [null] and [ttl] the capture-cache TTL. *)
Inductive CaptureRun (h : Host.t) (chartWidgetId : string)
    (options : option ChartPrintOptions.t) (forceRefresh : bool)
    (nullMessage : string) (ttl : Z) (w : World.t)
  : ChartCaptureResult.t -> World.t -> Prop :=
| RunHit result timestamp :
    forceRefresh = false ->
    World.captureCache w !! chartWidgetId = Some (result, timestamp) ->
    (World.clock w (World.reads w) - timestamp < ttl)%Z ->
    CaptureRun h chartWidgetId options forceRefresh nullMessage ttl w
      result (World.tick w)
| RunNotCaptured result w' :
    ChartCaptureResult.success result = false ->
    quiet w w' ->
    CaptureRun h chartWidgetId options forceRefresh nullMessage ttl w
      result w'
| RunNoCanvas element w1 w2 :
    quiet w w1 ->
    Engine.htmlToCanvas h element options w1 = (Returns None, w2) ->
    CaptureRun h chartWidgetId options forceRefresh nullMessage ttl w
      (ChartCaptureResult.failure nullMessage) w2
| RunNoDataUrl element w1 w2 canvas e :
    quiet w w1 ->
    Engine.htmlToCanvas h element options w1 = (Returns (Some canvas), w2) ->
    Host.toDataURL h canvas = Throws e ->
    CaptureRun h chartWidgetId options forceRefresh nullMessage ttl w
      (ChartCaptureResult.failure
         (messageOr e "Erreur inconnue lors de la capture")) w2
| RunCaptured element w1 w2 canvas dataUrl :
    quiet w w1 ->
    Engine.htmlToCanvas h element options w1 = (Returns (Some canvas), w2) ->
    Host.toDataURL h canvas = Returns dataUrl ->
    let result :=
      ChartCaptureResult.mk true (Some dataUrl) (Some (Canvas.width canvas))
        (Some (Canvas.height canvas)) None in
    CaptureRun h chartWidgetId options forceRefresh nullMessage ttl w
      result
      (World.setCaptureCache
         (<[chartWidgetId := (result, World.clock w2 (World.reads w2))]>
            (World.captureCache w2))
         (World.tick w2)).

(* ===================================================================== *)
(** ** Notions used in the statements about the rest of the service *)
(* ===================================================================== *)

(** The area [findLargestCanvas] compares. *)
Definition canvasArea (canvas : Canvas.t) : Z :=
  (Canvas.width canvas * Canvas.height canvas)%Z.

(** A use of the canvas pool, and a sequence of uses. *)
Inductive PoolCall : Type :=
| TakeCanvas (width height : Z)
| GiveBack (canvas : Canvas.t).

Definition poolCall (h : Host.t) (call : PoolCall) : M unit :=
  match call with
  | TakeCanvas width height => Engine.getPooledCanvas width height ;; ret tt
  | GiveBack canvas => Engine.returnCanvasToPool h canvas
  end.

Fixpoint poolCalls (h : Host.t) (calls : list PoolCall) : M unit :=
  match calls with
  | [] => ret tt
  | call :: rest => poolCall h call ;; poolCalls h rest
  end.

(** The cell of a legend entry: its column and its row. *)
Definition cellOf (op : Pdf.Op) : option (nat * nat) :=
  match op with
  | Pdf.LegendEntry column row _ _ => Some (column, row)
  | _ => None
  end.

(** The percentages of a sequence of progress reports. *)
Definition percentages (reports : list (string * Z * string)) : list Z :=
  map (fun report => snd (fst report)) reports.

(** [m] keeps the relation [R] between the world it starts from and the
    world it ends in, whether it returns or throws. *)
Definition keeps {A} (R : World.t -> World.t -> Prop) (m : M A) : Prop :=
  forall w, R w (snd (m w)).

(** Canvases were taken from the pool, none was added. *)
Definition drained (w w' : World.t) : Prop :=
  World.canvasPool w' `suffix_of` World.canvasPool w.

(** The progress callback received nothing. *)
Definition sameProgress (w w' : World.t) : Prop :=
  World.progress w' = World.progress w.

(** What [m] adds to the progress log: the reports [rs] it makes satisfy
    [Q a rs] when it returns [a] and [E e rs] when it throws [e]. *)
Definition reporting {A} (m : M A)
    (Q : A -> list (string * Z * string) -> Prop)
    (E : Exn -> list (string * Z * string) -> Prop) : Prop :=
  forall w,
    match m w with
    | (Returns a, w') =>
        exists rs, World.progress w' = World.progress w ++ rs /\ Q a rs
    | (Throws e, w') =>
        exists rs, World.progress w' = World.progress w ++ rs /\ E e rs
    end.

(** The graphic of a document: the image of the chart, or the text drawn
    in its place. *)
Definition graphicOf (op : Pdf.Op) : option Pdf.Op :=
  match op with
  | Pdf.Image _ | Pdf.Placeholder _ => Some op
  | _ => None
  end.

(** The [#rrggbb] notation of a colour: two lower-case hexadecimal digits
    for each component below 256. *)
Definition hexChar (d : Z) : ascii :=
  if (d <? 10)%Z then ascii_of_nat (48 + Z.to_nat d)
  else ascii_of_nat (87 + Z.to_nat d).

Definition hexPair (n : Z) : string :=
  String (hexChar (n / 16)) (String (hexChar (n mod 16)) EmptyString).

Definition hexColour (r g b : Z) : string :=
  ("#" +:+ hexPair r +:+ hexPair g +:+ hexPair b)%string.

(** The item and index of a call of the processor, and whether a step is
    a yield. *)
Definition processedOf {T} (step : Service.ChunkStep T) : option (T * nat) :=
  match step with
  | Service.Processed item index => Some (item, index)
  | Service.Yielded => None
  end.

Definition isYield {T} (step : Service.ChunkStep T) : bool :=
  match step with
  | Service.Yielded => true
  | Service.Processed _ _ => false
  end.

(** A character that opens or closes markup or an attribute value. *)
Definition isMarkup (c : ascii) : bool :=
  let n := nat_of_ascii c in
  (n =? 60)%nat || (n =? 62)%nat || (n =? 34)%nat || (n =? 39)%nat.

(* ===================================================================== *)
(** ** Theorems *)
(* ===================================================================== *)

(** *** Strings *)

Lemma append_length (a b : string) :
  String.length (a +:+ b) = (String.length a + String.length b)%nat.
Proof. induction a as [|c a IH]; simpl; [reflexivity | now rewrite IH]. Qed.

Lemma replaceNonAlnum_length (s : string) :
  String.length (replaceNonAlnum s "_") = String.length s.
Proof.
  unfold replaceNonAlnum.
  induction s as [|c s IH]; [reflexivity |].
  cbn [mapChars]. rewrite append_length, IH.
  now destruct (isAlnum c).
Qed.

Lemma replaceNonAlnum_get (s : string) (i : nat) :
  String.get i (replaceNonAlnum s "_")
  = (fun c => if isAlnum c then c else "_"%char) <$> String.get i s.
Proof.
  unfold replaceNonAlnum. revert i.
  induction s as [|c s IH]; intros i; [reflexivity |].
  cbn [mapChars].
  destruct (isAlnum c) eqn:E, i as [|i];
    (match goal with
     | |- context [(String ?a EmptyString +:+ ?x)%string] =>
         change (String a EmptyString +:+ x)%string with (String a x)
     end);
    cbn; rewrite ?E; auto.
Qed.

(** C7 (amended).  [downloadPdf] and [downloadChartAsImage] name the
    artifact [{sanitized}_{epochMillis}.pdf] and [{sanitized}_{epochMillis}.png],
    where [epochMillis] is the clock reading of the call and [sanitized] is
    the name with every character outside [a-z0-9] (case-insensitively)
    replaced by an underscore: it has the length of the name and agrees
    with it on letters and digits. *)
Theorem download_names_replace_with_underscore (name : string) (w : World.t) :
  let now := World.clock w (World.reads w) in
  let sanitized := replaceNonAlnum name "_" in
  fst (Service.downloadPdf (Some name) w)
  = Returns (sanitized +:+ "_" +:+ String_of_number now +:+ ".pdf") /\
  fst (Service.downloadChartAsImage name w)
  = Returns (sanitized +:+ "_" +:+ String_of_number now +:+ ".png") /\
  String.length sanitized = String.length name /\
  forall i, String.get i sanitized
            = (fun c => if isAlnum c then c else "_"%char) <$> String.get i name.
Proof.
  cbv zeta. repeat split.
  - apply replaceNonAlnum_length.
  - apply replaceNonAlnum_get.
Qed.

(** C7 (counterexample).  For the title ["a b"] at clock reading [1000]
    the code names the file ["a_b_1000.pdf"]; stripping would give
    ["ab_1000.pdf"]. *)
Lemma download_name_not_stripped :
  fst (Service.downloadPdf (Some "a b"%string) Fixtures.world0)
  = Returns "a_b_1000.pdf"%string /\
  Spec.downloadName "a b" 1000 "pdf" = "ab_1000.pdf"%string /\
  fst (Service.downloadPdf (Some "a b"%string) Fixtures.world0)
  <> Returns (Spec.downloadName "a b" 1000 "pdf").
Proof. repeat split; vm_compute; congruence. Qed.

(** *** The widget locator *)

(** C8 (amended).  The modular [isChartWidgetAvailable] answers [true]
    only if the widget is registered and its lower-cased manifest name is
    ["chart"], starts with ["chart"], or contains ["chartwidget"]; the
    monolithic one answers [true] only if the widget is registered and its
    [uri] contains ["chart"]. *)
Theorem isChartWidgetAvailable_only_if (h : Host.t) (chartWidgetId : string) :
  (Modular.isChartWidgetAvailable h chartWidgetId = true ->
   exists widgets widget name,
     Host.widgets h = Returns (Some widgets) /\
     widgets !! chartWidgetId = Some widget /\
     Widget.manifestName widget = Some name /\
     (toLowerCase name = "chart"%string \/
      startsWith (toLowerCase name) "chart" = true \/
      includes (toLowerCase name) "chartwidget" = true)) /\
  (Service.isChartWidgetAvailable h chartWidgetId = Returns true ->
   exists widgets widget uri,
     Host.widgets h = Returns (Some widgets) /\
     widgets !! chartWidgetId = Some widget /\
     Widget.uri widget = Some uri /\
     includes uri "chart" = true).
Proof.
  split.
  - unfold Modular.isChartWidgetAvailable.
    destruct (Host.widgets h) as [[widgets|]|e] eqn:Hw; try discriminate.
    destruct (String.eqb chartWidgetId EmptyString); [discriminate |].
    destruct (widgets !! chartWidgetId) as [widget|] eqn:Hl;
      [| cbn; discriminate].
    cbn [optChain].
    destruct (Widget.manifestName widget) as [name|] eqn:Hn;
      [| cbn; discriminate].
    intros Hc. exists widgets, widget, name. repeat split; auto.
    cbn [fmap option_fmap option_map orLit] in Hc.
    destruct (String.eqb (toLowerCase name) EmptyString) eqn:He;
      [cbn in Hc; discriminate |].
    unfold Modular.isChartManifest in Hc.
    apply orb_prop in Hc as [Hc | Hc]; [| now right; right].
    apply orb_prop in Hc as [Hc | Hc]; [| now right; left].
    left. now apply String.eqb_eq.
  - unfold Service.isChartWidgetAvailable.
    destruct (String.eqb chartWidgetId EmptyString); [discriminate |].
    destruct (Host.widgets h) as [[widgets|]|e] eqn:Hw; cbn; try discriminate.
    destruct (widgets !! chartWidgetId) as [widget|] eqn:Hl; [| discriminate].
    destruct (Widget.uri widget) as [uri|] eqn:Hu; [| discriminate].
    intros [= Hc]. exists widgets, widget, uri. auto.
Qed.

Lemma isChartWidgetAvailable_only_if_witness :
  Modular.isChartWidgetAvailable Fixtures.salesHost "w1" = true /\
  Service.isChartWidgetAvailable Fixtures.salesHost "w1" = Returns true /\
  (exists widgets widget name,
      Host.widgets Fixtures.salesHost = Returns (Some widgets) /\
      widgets !! "w1"%string = Some widget /\
      Widget.manifestName widget = Some name /\
      (toLowerCase name = "chart"%string \/
       startsWith (toLowerCase name) "chart" = true \/
       includes (toLowerCase name) "chartwidget" = true)) /\
  (exists widgets widget uri,
      Host.widgets Fixtures.salesHost = Returns (Some widgets) /\
      widgets !! "w1"%string = Some widget /\
      Widget.uri widget = Some uri /\
      includes uri "chart" = true).
Proof.
  destruct (isChartWidgetAvailable_only_if Fixtures.salesHost "w1")
    as [Hmodular Hservice].
  split; [reflexivity |].
  split; [reflexivity |].
  split; [apply Hmodular | apply Hservice]; reflexivity.
Defined.

(** C8 (counterexample).  A registered widget whose manifest name is
    ["my-chartwidget"] is reported available although the name neither is
    ["chart"] nor starts with it. *)
Lemma isChartWidgetAvailable_substring_match :
  Modular.isChartWidgetAvailable Fixtures.chartwidgetHost "w1" = true /\
  (Modular.getChartWidgetInfo Fixtures.chartwidgetHost "w1"
     ?. Widget.manifestName) = Some "my-chartwidget"%string /\
  Spec.exactOrPrefix "my-chartwidget" = false.
Proof. repeat split; vm_compute; reflexivity. Qed.

(** The head of the monolithic [getChartElement] validates and evicts: a
    fresh entry whose element is attached is returned and kept; one whose
    element has left the document is deleted and not returned. *)
Lemma readElementCache_validates (h : Host.t) (chartWidgetId : string)
    (w : World.t) (element : Element) (timestamp : Z) :
  World.chartElementCache w !! chartWidgetId = Some (element, timestamp) ->
  (World.clock w (World.reads w) - timestamp < Service.ELEMENT_CACHE_TTL)%Z ->
  let '(r, w') := Service.readElementCache h chartWidgetId w in
  if Host.documentContains h element
  then r = Returns (Some element) /\
       World.chartElementCache w' = World.chartElementCache w
  else r = Returns None /\
       World.chartElementCache w' !! chartWidgetId = None.
Proof.
  intros Hc Ht.
  unfold Service.readElementCache, bind, gets. rewrite Hc.
  unfold Date_now.
  destruct (Z.ltb_spec (World.clock w (World.reads w) - timestamp)
              Service.ELEMENT_CACHE_TTL) as [_ | Hge]; [| lia].
  destruct (Host.documentContains h element); cbn.
  - split; reflexivity.
  - split; [reflexivity |]. apply lookup_delete_eq.
Qed.

(** C9 (the code at the failing input).  In the modular pipeline the
    cache still holds element [7] for ["w1"], stored one second ago, and
    the element has left the document.  [getCachedElement] returns it
    without looking at the document; [getChartElement] answers [null] and
    leaves the entry in the cache.  On the same input the monolithic
    [getChartElement] deletes the entry. *)
Theorem modular_element_cache_keeps_detached_entry :
  Host.bodyContains Fixtures.detachedHost 7%nat = false /\
  fst (Modular.getCachedElement "w1" Fixtures.staleWorld)
  = Returns (Some 7%nat) /\
  fst (Modular.getChartElement Fixtures.detachedHost "w1" Fixtures.staleWorld)
  = Returns None /\
  World.chartElementCache
    (snd (Modular.getChartElement Fixtures.detachedHost "w1"
            Fixtures.staleWorld)) !! "w1"%string
  = Some (7%nat, 1000%Z) /\
  World.chartElementCache
    (snd (Service.getChartElement Fixtures.detachedHost "w1"
            Fixtures.staleWorld)) !! "w1"%string
  = None.
Proof. repeat split; vm_compute; reflexivity. Qed.

(** *** The legend layout *)

Lemma columns_of_imap (g : nat -> ChartDataRecord.t -> Pdf.Op) (c : nat -> nat)
    (l : list ChartDataRecord.t) :
  (forall i x, columnOf (g i x) = Some (c i)) ->
  omap columnOf (imap g l) = c <$> seq 0 (length l).
Proof.
  revert g c. induction l as [|x l IH]; intros g c Hg; [reflexivity |].
  rewrite imap_cons. cbn [omap list_omap length seq fmap list_fmap].
  rewrite Hg. f_equal.
  rewrite (IH (g ∘ S) (c ∘ S)) by (intros; apply Hg).
  rewrite <- fmap_S_seq, <- list_fmap_compose. reflexivity.
Qed.

Lemma columns_of_legendEntries (h : Host.t) (legendColumns : nat)
    (legendData : list ChartDataRecord.t) :
  omap columnOf (Service.legendEntries h legendColumns legendData)
  = (fun i => i / Service.ceilCount (length legendData) legendColumns)%nat
      <$> seq 0 (length legendData).
Proof.
  unfold Service.legendEntries. cbv zeta.
  apply columns_of_imap. intros i x. reflexivity.
Qed.

Lemma div_eq_iff (n d q : nat) :
  (1 <= d)%nat -> (n / d = q)%nat <-> (q * d <= n < (q + 1) * d)%nat.
Proof.
  intros Hd.
  pose proof (Nat.div_mod_eq n d) as Hdm.
  pose proof (Nat.mod_upper_bound n d ltac:(lia)) as Hm.
  split; [intros <-; nia | intros [Hlo Hhi]; nia].
Qed.

(** The indices below [n] that fall in [column] are those of the interval
    [[column * d, (column + 1) * d)]. *)
Lemma count_in_column (d column n : nat) :
  (1 <= d)%nat ->
  length (filter (fun c => c = column) ((fun i => i / d)%nat <$> seq 0 n))
  = (Nat.min n ((column + 1) * d) - Nat.min n (column * d))%nat.
Proof.
  intros Hd. induction n as [|n IH]; [reflexivity |].
  rewrite seq_S, fmap_app, filter_app, length_app, IH.
  cbn [Nat.add fmap list_fmap].
  rewrite filter_cons, filter_nil.
  pose proof (div_eq_iff n d column Hd) as Hiff.
  destruct (decide (n / d = column)%nat) as [He | Hne]; cbn [length].
  - apply Hiff in He. lia.
  - assert (~ (column * d <= n < (column + 1) * d)%nat) by tauto. lia.
Qed.

Lemma ceilCount_covers (n c : nat) :
  (1 <= c)%nat -> (n <= c * Service.ceilCount n c)%nat.
Proof.
  intros Hc. unfold Service.ceilCount.
  pose proof (Nat.div_mod_eq (n + c - 1) c) as Hdm.
  pose proof (Nat.mod_upper_bound (n + c - 1) c ltac:(lia)) as Hm.
  nia.
Qed.

Lemma sum_list_append (l1 l2 : list nat) :
  sum_list (l1 ++ l2) = (sum_list l1 + sum_list l2)%nat.
Proof. induction l1 as [|x l1 IH]; cbn; lia. Qed.

Lemma telescope_columns (d n c : nat) :
  sum_list ((fun column =>
               (Nat.min n ((column + 1) * d) - Nat.min n (column * d))%nat)
            <$> seq 0 c)
  = Nat.min n (c * d).
Proof.
  induction c as [|c IH]; [cbn; lia |].
  rewrite seq_S, fmap_app, sum_list_append, IH.
  cbn [Nat.add fmap list_fmap sum_list sum_list_with].
  assert (E1 : ((c + 1) * d = c * d + d)%nat) by lia.
  assert (E2 : (S c * d = c * d + d)%nat) by lia.
  rewrite E1, E2. unfold id. lia.
Qed.

(** With [legendColumns >= 1], the legend entries, one per item, are
    spread over the columns [0 .. legendColumns-1]: no column holds more
    than [ceil(N / legendColumns)] entries, no entry falls outside these
    columns, and the column counts add up to [N]. *)
Lemma legendEntries_balanced (h : Host.t) (legendColumns : nat)
    (legendData : list ChartDataRecord.t) :
  (1 <= legendColumns)%nat ->
  let ops := Service.legendEntries h legendColumns legendData in
  let N := length legendData in
  length ops = N /\
  omap columnOf ops
  = (fun i => Service.columnIndex (Service.ceilCount N legendColumns) i)
      <$> seq 0 N /\
  (forall column,
      (itemsInColumn ops column <= Service.ceilCount N legendColumns)%nat) /\
  (forall column,
      (legendColumns <= column)%nat -> itemsInColumn ops column = 0%nat) /\
  sum_list (itemsInColumn ops <$> seq 0 legendColumns) = N.
Proof.
  intros HC ops N.
  assert (Hcols := columns_of_legendEntries h legendColumns legendData).
  fold ops N in Hcols.
  split; [apply length_imap |].
  split; [exact Hcols |].
  destruct (decide (N = 0%nat)) as [H0 | Hpos].
  { assert (Hnil : omap columnOf ops = []) by (rewrite Hcols, H0; reflexivity).
    unfold itemsInColumn. rewrite Hnil. cbn.
    repeat split; try (intros; lia).
    rewrite H0. clear. induction (seq 0 legendColumns); cbn; auto. }
  set (d := Service.ceilCount N legendColumns) in *.
  assert (Hcover : (N <= legendColumns * d)%nat)
    by (apply ceilCount_covers; assumption).
  assert (Hd : (1 <= d)%nat) by nia.
  assert (Hcount : forall column,
             itemsInColumn ops column
             = (Nat.min N ((column + 1) * d) - Nat.min N (column * d))%nat).
  { intros column. unfold itemsInColumn. rewrite Hcols.
    apply count_in_column. exact Hd. }
  repeat split.
  - intros column. rewrite Hcount. lia.
  - intros column Hge. rewrite Hcount. nia.
  - erewrite list_fmap_ext by (intros; apply Hcount).
    rewrite telescope_columns. lia.
Qed.


(** *** Computations that leave the capture cache alone *)

#[local] Instance quiet_refl : Reflexive quiet.
Proof. intros w. repeat split. Qed.

#[local] Instance quiet_trans : Transitive quiet.
Proof.
  intros a b c (H1 & H2 & H3 & H4) (G1 & G2 & G3 & G4).
  repeat split; congruence.
Qed.

Lemma quietly_ret {A} (a : A) : quietly (ret a).
Proof. intros w. reflexivity. Qed.

Lemma quietly_throw {A} (e : Exn) : quietly (@throw A e).
Proof. intros w. reflexivity. Qed.

Lemma quietly_lift {A} (o : Outcome A) : quietly (lift o).
Proof. intros w. reflexivity. Qed.

Lemma quietly_gets {A} (f : World.t -> A) : quietly (gets f).
Proof. intros w. reflexivity. Qed.

Lemma quietly_Date_now : quietly Date_now.
Proof. intros w. repeat split. Qed.

Lemma quietly_modify (f : World.t -> World.t) :
  (forall w, quiet w (f w)) -> quietly (modify f).
Proof. intros Hf w. apply Hf. Qed.

Lemma quietly_bind {A B} (m : M A) (k : A -> M B) :
  quietly m -> (forall a, quietly (k a)) -> quietly (bind m k).
Proof.
  intros Hm Hk w. unfold bind. specialize (Hm w).
  destruct (m w) as [[a | e] w1]; cbn in *; [| exact Hm].
  etransitivity; [exact Hm | apply Hk].
Qed.

Lemma quietly_try_catch {A} (m : M A) (handler : Exn -> M A) :
  quietly m -> (forall e, quietly (handler e)) -> quietly (try_catch m handler).
Proof.
  intros Hm Hh w. unfold try_catch. specialize (Hm w).
  destruct (m w) as [[a | e] w1]; cbn in *; [exact Hm |].
  etransitivity; [exact Hm | apply Hh].
Qed.

Lemma quiet_setElementCache c w : quiet w (World.setElementCache c w).
Proof. repeat split. Qed.

Lemma quiet_setCanvasPool p w : quiet w (World.setCanvasPool p w).
Proof. repeat split. Qed.

Create HintDb quiet.
#[local] Hint Resolve quietly_ret quietly_throw quietly_lift quietly_gets
  quietly_Date_now quiet_setElementCache quiet_setCanvasPool : quiet.

(** Walk through a computation built from the monad's operations. *)
Ltac quiet_steps :=
  repeat match goal with
    | |- quietly (bind _ _) => apply quietly_bind; [| intros ?]
    | |- quietly (try_catch _ _) => apply quietly_try_catch; [| intros ?]
    | |- quietly (modify _) => apply quietly_modify; intros ?
    | |- quietly (ret _) => apply quietly_ret
    | |- quietly (throw _) => apply quietly_throw
    | |- quietly (lift _) => apply quietly_lift
    | |- quietly (gets _) => apply quietly_gets
    | |- quietly Date_now => apply quietly_Date_now
    | |- quietly (match ?x with _ => _ end) => destruct x
    | |- quietly _ => solve [eauto with quiet]
    | |- quiet _ _ => solve [eauto with quiet]
    end.

Lemma quietly_cacheElement id element :
  quietly (Service.cacheElement id element).
Proof. unfold Service.cacheElement. quiet_steps. Qed.

Lemma quietly_setCachedElement id element :
  quietly (Modular.setCachedElement id element).
Proof. unfold Modular.setCachedElement. quiet_steps. Qed.

Lemma quietly_getCachedElement id : quietly (Modular.getCachedElement id).
Proof. unfold Modular.getCachedElement. quiet_steps. Qed.

#[local] Hint Resolve quietly_cacheElement quietly_setCachedElement
  quietly_getCachedElement : quiet.

Lemma quietly_Service_getChartElement h id :
  quietly (Service.getChartElement h id).
Proof.
  unfold Service.getChartElement, Service.readElementCache. quiet_steps.
Qed.

Lemma quietly_Modular_getChartElement h id :
  quietly (Modular.getChartElement h id).
Proof. unfold Modular.getChartElement. quiet_steps. Qed.

Lemma quietly_getPooledCanvas width height :
  quietly (Engine.getPooledCanvas width height).
Proof. unfold Engine.getPooledCanvas. quiet_steps. Qed.

#[local] Hint Resolve quietly_Service_getChartElement
  quietly_Modular_getChartElement quietly_getPooledCanvas : quiet.

Lemma quietly_techniques h element options :
  quietly (Engine.existingCanvasTechnique h element options) /\
  quietly (Engine.html2canvasTechnique h element options) /\
  quietly (Engine.svgTechnique h element options).
Proof.
  unfold Engine.existingCanvasTechnique, Engine.html2canvasTechnique,
    Engine.svgTechnique.
  split; [| split]; quiet_steps.
Qed.

(** [htmlToCanvas] always returns; it adds its element to the
    rasterisation log and leaves the capture cache, the progress log and
    the clock as they were. *)
Lemma htmlToCanvas_returns h element options w :
  exists canvas w',
    Engine.htmlToCanvas h element options w = (Returns canvas, w') /\
    World.captureCache w' = World.captureCache w /\
    World.progress w' = World.progress w /\
    World.clock w' = World.clock w /\
    World.rasterisations w' = World.rasterisations w ++ [element].
Proof.
  destruct (quietly_techniques h element options) as (Q1 & Q2 & Q3).
  unfold Engine.htmlToCanvas.
  set (body := bind (Engine.existingCanvasTechnique h element options) _).
  assert (Qb : quietly (try_catch body (fun _ => ret None))).
  { subst body. quiet_steps. }
  unfold bind at 1, modify.
  specialize (Qb (World.logRasterisation element w)).
  unfold try_catch in *.
  destruct (body (World.logRasterisation element w)) as [[c | e] w1];
    cbn in *; destruct Qb as (H1 & H2 & H3 & H4); eauto 10.
Qed.

(** When the three techniques fail, [htmlToCanvas] returns [null]. *)
Lemma htmlToCanvas_null h element options w :
  techniquesFail h element options ->
  fst (Engine.htmlToCanvas h element options w) = Returns None.
Proof.
  intros (F1 & F2 & F3).
  unfold Engine.htmlToCanvas, bind, modify, try_catch.
  set (w0 := World.logRasterisation element w).
  specialize (F1 w0).
  destruct (Engine.existingCanvasTechnique h element options w0)
    as [[c1 | e1] w1]; cbn in F1; [| discriminate].
  injection F1 as ->.
  specialize (F2 w1).
  destruct (Engine.html2canvasTechnique h element options w1)
    as [[c2 | e2] w2]; cbn in F2; [| discriminate].
  injection F2 as ->.
  specialize (F3 w2).
  destruct (Engine.svgTechnique h element options w2)
    as [[[c3 |] | e3] w3]; cbn in *; try reflexivity.
  now destruct (F3 c3).
Qed.

(** *** The runs of [captureChartAsImage] *)

Lemma quiet_tick w : quiet w (World.tick w).
Proof. repeat split. Qed.

(** The read of the capture cache either hits a fresh entry or finds
    nothing and leaves the cache alone. *)
Lemma readCaptureCache_cases (ttl : Z) (id : string) (w : World.t)
    (read : M (option ChartCaptureResult.t)) :
  read
  = (let* cached := gets (fun w => World.captureCache w !! id) in
     match cached with
     | Some (result, timestamp) =>
         let* now := Date_now in
         if (now - timestamp <? ttl)%Z then ret (Some result) else ret None
     | None => ret None
     end) ->
  (exists result timestamp,
      World.captureCache w !! id = Some (result, timestamp) /\
      (World.clock w (World.reads w) - timestamp < ttl)%Z /\
      read w = (Returns (Some result), World.tick w)) \/
  (exists w', read w = (Returns None, w') /\ quiet w w').
Proof.
  intros ->. unfold bind, gets, Date_now, ret.
  destruct (World.captureCache w !! id) as [[result timestamp] |] eqn:Hc.
  - destruct (Z.ltb_spec (World.clock w (World.reads w) - timestamp) ttl).
    + left. eauto.
    + right. eexists. split; [reflexivity | apply quiet_tick].
  - right. eexists. split; reflexivity.
Qed.

(** What follows a located element is the same in both modules. *)
Lemma capture_tail_run h id options forceRefresh nullMessage ttl w w1
    (chartElement : Element) (store : string -> ChartCaptureResult.t -> M unit) :
  quiet w w1 ->
  (forall result w2,
      store id result w2
      = (Returns tt,
         World.setCaptureCache
           (<[id := (result, World.clock w2 (World.reads w2))]>
              (World.captureCache w2))
           (World.tick w2))) ->
  exists r w',
    try_catch
      (let* canvas := Engine.htmlToCanvas h chartElement options in
       match canvas with
       | None => ret (ChartCaptureResult.failure nullMessage)
       | Some canvas =>
           let* dataUrl := lift (Host.toDataURL h canvas) in
           let result :=
             ChartCaptureResult.mk true (Some dataUrl)
               (Some (Canvas.width canvas)) (Some (Canvas.height canvas))
               None in
           store id result ;; ret result
       end)
      (fun e =>
         ret (ChartCaptureResult.failure
                (messageOr e "Erreur inconnue lors de la capture"))) w1
    = (Returns r, w') /\
    CaptureRun h id options forceRefresh nullMessage ttl w r w'.
Proof.
  intros Hq Hstore.
  destruct (htmlToCanvas_returns h chartElement options w1)
    as (canvas & w2 & Hrun & _).
  unfold try_catch, bind. rewrite Hrun.
  destruct canvas as [canvas |].
  - unfold lift. destruct (Host.toDataURL h canvas) as [dataUrl | e] eqn:Hurl.
    + rewrite Hstore. cbn. eexists _, _. split; [reflexivity |].
      eapply RunCaptured; eauto.
    + cbn. eexists _, _. split; [reflexivity |].
      eapply RunNoDataUrl; eauto.
  - cbn. eexists _, _. split; [reflexivity |].
    eapply RunNoCanvas; eauto.
Qed.

Lemma Service_capture_run h id options forceRefresh w :
  exists r w',
    Service.captureChartAsImage h id options forceRefresh w = (Returns r, w') /\
    CaptureRun h id options forceRefresh "Échec de la capture du diagramme"
      Service.CAPTURE_CACHE_TTL w r w'.
Proof.
  assert (Hread :
    (exists result timestamp,
        forceRefresh = false /\
        World.captureCache w !! id = Some (result, timestamp) /\
        (World.clock w (World.reads w) - timestamp
         < Service.CAPTURE_CACHE_TTL)%Z /\
        (if negb forceRefresh then Service.readCaptureCache id else ret None) w
        = (Returns (Some result), World.tick w)) \/
    (exists w0,
        (if negb forceRefresh then Service.readCaptureCache id else ret None) w
        = (Returns None, w0) /\ quiet w w0)).
  { destruct forceRefresh; cbn [negb].
    - right. exists w. split; reflexivity.
    - destruct (readCaptureCache_cases Service.CAPTURE_CACHE_TTL id w
                  (Service.readCaptureCache id) eq_refl)
        as [(r & ts & H1 & H2 & H3) | (w0 & H1 & H2)]; eauto 10. }
  unfold Service.captureChartAsImage.
  destruct Hread as [(r & ts & Hf & Hc & Ht & Hrun) | (w0 & Hrun & Hq0)].
  { unfold try_catch, bind at 1. rewrite Hrun. cbn.
    eexists _, _. split; [reflexivity |]. eapply RunHit; eauto. }
  unfold try_catch at 1, bind at 1. rewrite Hrun.
  unfold bind at 1, lift at 1.
  destruct (Service.isChartWidgetAvailable h id) as [[|] | e];
    cbn [negb];
    try (cbn; eexists _, _; split; [reflexivity |];
         apply RunNotCaptured; [reflexivity | assumption]).
  unfold bind at 1.
  pose proof (quietly_Service_getChartElement h id w0) as Hq1.
  destruct (Service.getChartElement h id w0) as [[[chartElement |] | e] w1];
    cbn in Hq1;
    try (cbn; eexists _, _; split; [reflexivity |];
         apply RunNotCaptured; [reflexivity | etransitivity; eassumption]).
  assert (Hq : quiet w w1) by (etransitivity; eassumption).
  destruct (capture_tail_run h id options forceRefresh
              "Échec de la capture du diagramme" Service.CAPTURE_CACHE_TTL
              w w1 chartElement Service.cacheCapture Hq
              ltac:(reflexivity))
    as (r & w' & Hrun' & HR).
  exists r, w'. split; [| exact HR].
  rewrite <- Hrun'. reflexivity.
Qed.

Lemma Modular_capture_run h id options forceRefresh w :
  exists r w',
    Modular.captureChartAsImage h id options forceRefresh w = (Returns r, w') /\
    CaptureRun h id options forceRefresh
      "Échec de la capture du diagramme - htmlToCanvas a retourné null"
      Modular.CAPTURE_CACHE_TTL w r w'.
Proof.
  assert (Hread :
    (exists result timestamp,
        forceRefresh = false /\
        World.captureCache w !! id = Some (result, timestamp) /\
        (World.clock w (World.reads w) - timestamp
         < Modular.CAPTURE_CACHE_TTL)%Z /\
        (if negb forceRefresh then Modular.getCachedCapture id else ret None) w
        = (Returns (Some result), World.tick w)) \/
    (exists w0,
        (if negb forceRefresh then Modular.getCachedCapture id else ret None) w
        = (Returns None, w0) /\ quiet w w0)).
  { destruct forceRefresh; cbn [negb].
    - right. exists w. split; reflexivity.
    - destruct (readCaptureCache_cases Modular.CAPTURE_CACHE_TTL id w
                  (Modular.getCachedCapture id) eq_refl)
        as [(r & ts & H1 & H2 & H3) | (w0 & H1 & H2)]; eauto 10. }
  unfold Modular.captureChartAsImage.
  destruct Hread as [(r & ts & Hf & Hc & Ht & Hrun) | (w0 & Hrun & Hq0)].
  { unfold try_catch, bind at 1. rewrite Hrun. cbn.
    eexists _, _. split; [reflexivity |]. eapply RunHit; eauto. }
  unfold try_catch at 1, bind at 1. rewrite Hrun.
  destruct (Modular.isChartWidgetAvailable h id); cbn [negb];
    try (cbn; eexists _, _; split; [reflexivity |];
         apply RunNotCaptured; [reflexivity | assumption]).
  unfold bind at 1.
  pose proof (quietly_Modular_getChartElement h id w0) as Hq1.
  destruct (Modular.getChartElement h id w0) as [[[chartElement |] | e] w1];
    cbn in Hq1;
    try (cbn; eexists _, _; split; [reflexivity |];
         apply RunNotCaptured; [reflexivity | etransitivity; eassumption]).
  assert (Hq : quiet w w1) by (etransitivity; eassumption).
  destruct (capture_tail_run h id options forceRefresh
              "Échec de la capture du diagramme - htmlToCanvas a retourné null"
              Modular.CAPTURE_CACHE_TTL
              w w1 chartElement Modular.setCachedCapture Hq
              ltac:(reflexivity))
    as (r & w' & Hrun' & HR).
  exists r, w'. split; [| exact HR].
  rewrite <- Hrun'. reflexivity.
Qed.

Lemma app_singleton_neq {A} (l : list A) (x : A) : l <> l ++ [x].
Proof.
  intros H. apply (f_equal length) in H. rewrite length_app in H. cbn in H. lia.
Qed.

(** What a run tells about the rasterisation log: it grew by exactly the
    element given to [htmlToCanvas], or not at all. *)
Lemma CaptureRun_log h id options forceRefresh nullMessage ttl w r w' :
  CaptureRun h id options forceRefresh nullMessage ttl w r w' ->
  World.rasterisations w' = World.rasterisations w \/
  exists element w1 canvas w2,
    quiet w w1 /\
    Engine.htmlToCanvas h element options w1 = (Returns canvas, w2) /\
    World.rasterisations w' = World.rasterisations w ++ [element] /\
    (canvas = None -> r = ChartCaptureResult.failure nullMessage).
Proof.
  intros HR.
  destruct HR as [result ts Hf Hc Ht | result w' Hs Hq
                 | element w1 w2 Hq Hrun
                 | element w1 w2 canvas e Hq Hrun Hurl
                 | element w1 w2 canvas dataUrl Hq Hrun Hurl].
  - left. reflexivity.
  - left. apply Hq.
  - right. exists element, w1, None, w2.
    destruct (htmlToCanvas_returns h element options w1)
      as (c & w3 & Hrun' & _ & _ & _ & Hlog).
    rewrite Hrun in Hrun'. injection Hrun' as <- <-.
    pose proof Hq as (_ & _ & _ & Hq'). rewrite Hlog, Hq'.
    repeat split; auto; apply Hq.
  - right. exists element, w1, (Some canvas), w2.
    destruct (htmlToCanvas_returns h element options w1)
      as (c & w3 & Hrun' & _ & _ & _ & Hlog).
    rewrite Hrun in Hrun'. injection Hrun' as <- <-.
    pose proof Hq as (_ & _ & _ & Hq'). rewrite Hlog, Hq'.
    repeat split; auto; try apply Hq; discriminate.
  - right. exists element, w1, (Some canvas), w2.
    destruct (htmlToCanvas_returns h element options w1)
      as (c & w3 & Hrun' & _ & _ & _ & Hlog).
    rewrite Hrun in Hrun'. injection Hrun' as <- <-.
    pose proof Hq as (_ & _ & _ & Hq'). cbn. rewrite Hlog, Hq'.
    repeat split; auto; try apply Hq; discriminate.
Qed.

Lemma CaptureRun_all_fail h id options forceRefresh nullMessage ttl w r w'
    (element : Element) :
  CaptureRun h id options forceRefresh nullMessage ttl w r w' ->
  World.rasterisations w' = World.rasterisations w ++ [element] ->
  techniquesFail h element options ->
  r = ChartCaptureResult.failure nullMessage.
Proof.
  intros HR Hlog Hfail.
  destruct (CaptureRun_log _ _ _ _ _ _ _ _ _ HR)
    as [Hsame | (e1 & w1 & canvas & w2 & Hq & Hrun & Hlog' & Hnull)].
  - rewrite Hsame in Hlog. now apply app_singleton_neq in Hlog.
  - rewrite Hlog' in Hlog. apply app_inj_tail in Hlog as [_ ->].
    apply Hnull.
    pose proof (htmlToCanvas_null h element options w1 Hfail) as Hn.
    rewrite Hrun in Hn. cbn in Hn. congruence.
Qed.

(** C2.  In both modules [captureChartAsImage] returns a result whatever
    the identifier, the options, the host and the state: it never throws.
    When the call rasterised an element (the log of [htmlToCanvas] grew by
    it) on which the three techniques fail, the result has [success:false]
    and a non-empty [error]. *)
Theorem captureChartAsImage_never_throws (h : Host.t) (chartWidgetId : string)
    (options : option ChartPrintOptions.t) (forceRefresh : bool)
    (w : World.t) :
  (exists r w',
      Service.captureChartAsImage h chartWidgetId options forceRefresh w
      = (Returns r, w') /\
      forall element,
        World.rasterisations w' = World.rasterisations w ++ [element] ->
        techniquesFail h element options ->
        ChartCaptureResult.success r = false /\
        exists message,
          ChartCaptureResult.error r = Some message /\
          message <> EmptyString) /\
  (exists r w',
      Modular.captureChartAsImage h chartWidgetId options forceRefresh w
      = (Returns r, w') /\
      forall element,
        World.rasterisations w' = World.rasterisations w ++ [element] ->
        techniquesFail h element options ->
        ChartCaptureResult.success r = false /\
        exists message,
          ChartCaptureResult.error r = Some message /\
          message <> EmptyString).
Proof.
  split.
  - destruct (Service_capture_run h chartWidgetId options forceRefresh w)
      as (r & w' & Hrun & HR).
    exists r, w'. split; [exact Hrun |].
    intros element Hlog Hfail.
    rewrite (CaptureRun_all_fail _ _ _ _ _ _ _ _ _ _ HR Hlog Hfail).
    split; [reflexivity |]. eexists. split; [reflexivity | discriminate].
  - destruct (Modular_capture_run h chartWidgetId options forceRefresh w)
      as (r & w' & Hrun & HR).
    exists r, w'. split; [exact Hrun |].
    intros element Hlog Hfail.
    rewrite (CaptureRun_all_fail _ _ _ _ _ _ _ _ _ _ HR Hlog Hfail).
    split; [reflexivity |]. eexists. split; [reflexivity | discriminate].
Qed.

(** On the host where no canvas exists, [html2canvas] raises and no [svg]
    is found, the three techniques fail on every element. *)
Lemma failingCaptureHost_techniquesFail element options :
  techniquesFail Fixtures.failingCaptureHost element options.
Proof.
  split; [| split].
  - intros w. reflexivity.
  - intros w. reflexivity.
  - intros w canvas. cbn. discriminate.
Qed.

Lemma captureChartAsImage_never_throws_witness :
  World.rasterisations
    (snd (Service.captureChartAsImage Fixtures.failingCaptureHost "w1" None
            false Fixtures.world0)) = [1%nat] /\
  techniquesFail Fixtures.failingCaptureHost 1%nat None /\
  exists r,
    fst (Service.captureChartAsImage Fixtures.failingCaptureHost "w1" None
           false Fixtures.world0) = Returns r /\
    ChartCaptureResult.success r = false /\
    exists message,
      ChartCaptureResult.error r = Some message /\ message <> EmptyString.
Proof.
  split; [reflexivity |].
  split; [apply failingCaptureHost_techniquesFail |].
  destruct (captureChartAsImage_never_throws Fixtures.failingCaptureHost "w1"
              None false Fixtures.world0)
    as [(r & w' & Hrun & Hfail) _].
  exists r. rewrite Hrun. split; [reflexivity |].
  apply (Hfail 1%nat).
  - change w' with
      (snd (Returns r, w')). rewrite <- Hrun. reflexivity.
  - apply failingCaptureHost_techniquesFail.
Defined.

(** *** The capture cache *)

(** A fresh entry is served as it is: no host query, no rasterisation;
    only the clock is read. *)
Lemma capture_hit (h : Host.t) (id : string)
    (options : option ChartPrintOptions.t) (w : World.t)
    (result : ChartCaptureResult.t) (timestamp : Z) :
  World.captureCache w !! id = Some (result, timestamp) ->
  (World.clock w (World.reads w) - timestamp < 5000)%Z ->
  Service.captureChartAsImage h id options false w
  = (Returns result, World.tick w) /\
  Modular.captureChartAsImage h id options false w
  = (Returns result, World.tick w).
Proof.
  intros Hc Ht.
  unfold Service.captureChartAsImage, Modular.captureChartAsImage,
    Service.readCaptureCache, Modular.getCachedCapture,
    try_catch, bind, gets, Date_now, ret.
  cbn [negb]. rewrite Hc.
  unfold Service.CAPTURE_CACHE_TTL, Modular.CAPTURE_CACHE_TTL.
  destruct (Z.ltb_spec (World.clock w (World.reads w) - timestamp) 5000);
    [split; reflexivity | lia].
Qed.

(** After a run that returned a success, the cache holds that very result
    for the identifier. *)
Lemma CaptureRun_success_cached h id options forceRefresh nullMessage ttl
    w r w' :
  CaptureRun h id options forceRefresh nullMessage ttl w r w' ->
  ChartCaptureResult.success r = true ->
  exists timestamp, World.captureCache w' !! id = Some (r, timestamp).
Proof.
  intros HR Hs.
  destruct HR as [result ts Hf Hc Ht | result w' Hs' Hq
                 | element w1 w2 Hq Hrun
                 | element w1 w2 canvas e Hq Hrun Hurl
                 | element w1 w2 canvas dataUrl Hq Hrun Hurl];
    try discriminate; try congruence.
  - exists ts. exact Hc.
  - eexists. cbn. apply lookup_insert_eq.
Qed.

(** A run that returned a failure wrote nothing to the capture cache. *)
Lemma CaptureRun_failure_cache h id options forceRefresh nullMessage ttl
    w r w' :
  CaptureRun h id options forceRefresh nullMessage ttl w r w' ->
  ChartCaptureResult.success r = false ->
  World.captureCache w' = World.captureCache w.
Proof.
  intros HR Hs.
  destruct HR as [result ts Hf Hc Ht | result w' Hs' Hq
                 | element w1 w2 Hq Hrun
                 | element w1 w2 canvas e Hq Hrun Hurl
                 | element w1 w2 canvas dataUrl Hq Hrun Hurl];
    try discriminate.
  - reflexivity.
  - apply Hq.
  - destruct (htmlToCanvas_returns h element options w1)
      as (c & w3 & Hrun' & Hcache & _).
    rewrite Hrun in Hrun'. injection Hrun' as <- <-.
    rewrite Hcache. apply Hq.
  - destruct (htmlToCanvas_returns h element options w1)
      as (c & w3 & Hrun' & Hcache & _).
    rewrite Hrun in Hrun'. injection Hrun' as <- <-.
    rewrite Hcache. apply Hq.
Qed.

(** Every run keeps the cache free of failures. *)
Lemma CaptureRun_keeps_successes h id options forceRefresh nullMessage ttl
    w r w' :
  CaptureRun h id options forceRefresh nullMessage ttl w r w' ->
  cacheHoldsSuccesses w -> cacheHoldsSuccesses w'.
Proof.
  intros HR Hinv.
  destruct (ChartCaptureResult.success r) eqn:Hs.
  - destruct HR as [result ts Hf Hc Ht | result w' Hs' Hq
                   | element w1 w2 Hq Hrun
                   | element w1 w2 canvas e Hq Hrun Hurl
                   | element w1 w2 canvas dataUrl Hq Hrun Hurl];
      try discriminate; try congruence.
    + exact Hinv.
    + destruct (htmlToCanvas_returns h element options w1)
        as (c & w3 & Hrun' & Hcache & _).
      rewrite Hrun in Hrun'. injection Hrun' as <- <-.
      intros id' r' ts'. cbn.
      destruct (decide (id = id')) as [<- | Hne].
      * rewrite lookup_insert_eq. intros [= <- <-]. reflexivity.
      * rewrite lookup_insert_ne by exact Hne.
        rewrite Hcache. destruct Hq as (Hq & _). rewrite Hq. apply Hinv.
  - intros id' r' ts'.
    rewrite (CaptureRun_failure_cache _ _ _ _ _ _ _ _ _ HR Hs). apply Hinv.
Qed.

(** The cache starts without failures and the maintenance operations keep
    it so. *)
Lemma empty_cache_holds_successes w :
  World.captureCache w = ∅ -> cacheHoldsSuccesses w.
Proof. intros He id r ts. rewrite He, lookup_empty. discriminate. Qed.

Lemma maintenance_keeps_successes w id :
  cacheHoldsSuccesses w ->
  cacheHoldsSuccesses (snd (Service.invalidateChartCache id w)) /\
  cacheHoldsSuccesses (snd (Service.cleanExpiredCache w)) /\
  cacheHoldsSuccesses (snd (Service.cleanupChartPrintResources w)) /\
  cacheHoldsSuccesses (snd (Modular.cleanExpiredCache w)) /\
  cacheHoldsSuccesses (snd (Modular.clearAllCaches w)).
Proof.
  intros Hinv. repeat split; intros id' r ts; cbn.
  - intros Hl. apply lookup_delete_Some in Hl as [_ Hl]. eapply Hinv, Hl.
  - intros Hl. apply map_lookup_filter_Some in Hl as [Hl _]. eapply Hinv, Hl.
  - rewrite lookup_empty. discriminate.
  - intros Hl. apply map_lookup_filter_Some in Hl as [Hl _]. eapply Hinv, Hl.
  - rewrite lookup_empty. discriminate.
Qed.

(** C4 (amended).  When a call of [captureChartAsImage] returned a
    successful capture, the capture cache holds that result for the
    identifier with some timestamp; a later call with the same identifier
    and [forceRefresh] false that reads the clock less than 5000 ms after
    that timestamp, the entry being still there, returns the same result
    value (hence the same [dataUrl]) and changes nothing but the count of
    clock readings: [htmlToCanvas] is not entered again.  This holds for
    both modules, whatever the host and the options of the second call. *)
Theorem capture_twice_within_ttl (h : Host.t) (chartWidgetId : string)
    (options : option ChartPrintOptions.t) (forceRefresh : bool)
    (w w1 : World.t) (r1 : ChartCaptureResult.t) :
  Service.captureChartAsImage h chartWidgetId options forceRefresh w
  = (Returns r1, w1) \/
  Modular.captureChartAsImage h chartWidgetId options forceRefresh w
  = (Returns r1, w1) ->
  ChartCaptureResult.success r1 = true ->
  exists timestamp,
    World.captureCache w1 !! chartWidgetId = Some (r1, timestamp) /\
    forall (h2 : Host.t) (options2 : option ChartPrintOptions.t)
           (w2 : World.t),
      World.captureCache w2 !! chartWidgetId = Some (r1, timestamp) ->
      (World.clock w2 (World.reads w2) - timestamp < 5000)%Z ->
      Service.captureChartAsImage h2 chartWidgetId options2 false w2
      = (Returns r1, World.tick w2) /\
      Modular.captureChartAsImage h2 chartWidgetId options2 false w2
      = (Returns r1, World.tick w2) /\
      World.rasterisations (World.tick w2) = World.rasterisations w2.
Proof.
  intros Hrun Hs.
  assert (Hcached : exists timestamp,
             World.captureCache w1 !! chartWidgetId = Some (r1, timestamp)).
  { destruct Hrun as [Hrun | Hrun].
    - destruct (Service_capture_run h chartWidgetId options forceRefresh w)
        as (r & w' & Hrun' & HR).
      rewrite Hrun in Hrun'. injection Hrun' as <- <-.
      eapply CaptureRun_success_cached; eauto.
    - destruct (Modular_capture_run h chartWidgetId options forceRefresh w)
        as (r & w' & Hrun' & HR).
      rewrite Hrun in Hrun'. injection Hrun' as <- <-.
      eapply CaptureRun_success_cached; eauto. }
  destruct Hcached as (timestamp & Hcached).
  exists timestamp. split; [exact Hcached |].
  intros h2 options2 w2 Hc2 Ht.
  destruct (capture_hit h2 chartWidgetId options2 w2 r1 timestamp Hc2 Ht)
    as [H1 H2].
  repeat split; assumption.
Qed.

Lemma capture_twice_within_ttl_witness :
  let run1 :=
    Service.captureChartAsImage (Fixtures.workingCaptureHost true) "w1" None
      false Fixtures.world0 in
  exists r1 timestamp,
    fst run1 = Returns r1 /\
    ChartCaptureResult.dataUrl r1 = Some "data:image/png;base64,AAAA"%string /\
    World.captureCache (snd run1) !! "w1"%string = Some (r1, timestamp) /\
    Service.captureChartAsImage Fixtures.failingCaptureHost "w1" None false
      (snd run1)
    = (Returns r1, World.tick (snd run1)).
Proof.
  cbv zeta.
  pose (run1 := Service.captureChartAsImage (Fixtures.workingCaptureHost true)
                  "w1" None false Fixtures.world0).
  destruct (capture_twice_within_ttl (Fixtures.workingCaptureHost true) "w1"
              None false Fixtures.world0 (snd run1)
              (ChartCaptureResult.mk true
                 (Some "data:image/png;base64,AAAA"%string)
                 (Some 600%Z) (Some 400%Z) None)
              ltac:(left; vm_compute; reflexivity) ltac:(reflexivity))
    as (timestamp & Hcached & Hagain).
  eexists _, timestamp.
  split; [vm_compute; reflexivity |].
  split; [reflexivity |].
  split; [exact Hcached |].
  apply (Hagain Fixtures.failingCaptureHost None (snd run1) Hcached).
  assert (timestamp = 1001%Z) as ->.
  { assert (Hl : World.captureCache (snd run1) !! "w1"%string
                 = Some (ChartCaptureResult.mk true
                           (Some "data:image/png;base64,AAAA"%string)
                           (Some 600%Z) (Some 400%Z) None, 1001%Z))
      by (vm_compute; reflexivity).
    rewrite Hl in Hcached. congruence. }
  vm_compute. reflexivity.
Defined.

(** C4 (counterexample).  The first call fails because the three
    techniques fail, so nothing is cached.  A second call two clock
    readings later, with [forceRefresh] false, enters [htmlToCanvas] again
    (the log holds the element twice); and should the chart have finished
    rendering in between, its [dataUrl] differs from that of the first
    call. *)
Lemma capture_twice_after_failure :
  let run1 :=
    Service.captureChartAsImage Fixtures.failingCaptureHost "w1" None false
      Fixtures.world0 in
  let run2 :=
    Service.captureChartAsImage Fixtures.failingCaptureHost "w1" None false
      (snd run1) in
  let run2' :=
    Service.captureChartAsImage (Fixtures.workingCaptureHost true) "w1" None
      false (snd run1) in
  (fst run1
   = Returns (ChartCaptureResult.failure "Échec de la capture du diagramme")
   /\ World.rasterisations (snd run1) = [1%nat]) /\
  (World.clock (snd run1) (World.reads (snd run1))
   - World.clock Fixtures.world0 (World.reads Fixtures.world0) < 5000)%Z /\
  World.rasterisations (snd run2) = [1%nat; 1%nat] /\
  fst run2'
  = Returns (ChartCaptureResult.mk true
               (Some "data:image/png;base64,AAAA"%string)
               (Some 600%Z) (Some 400%Z) None).
Proof. vm_compute. repeat split; intros [=]. Qed.

(** C10.  Whenever [captureChartAsImage] (of either module) returns a
    result with [success:false], the capture cache is exactly what it was
    before the call.  Failures are therefore never written: in a cache
    that held only successes the failed result is stored under no
    identifier, so no later call can be served it, and the cache still
    holds only successes. *)
Theorem failed_capture_not_cached (h : Host.t) (chartWidgetId : string)
    (options : option ChartPrintOptions.t) (forceRefresh : bool)
    (w w' : World.t) (r : ChartCaptureResult.t) :
  Service.captureChartAsImage h chartWidgetId options forceRefresh w
  = (Returns r, w') \/
  Modular.captureChartAsImage h chartWidgetId options forceRefresh w
  = (Returns r, w') ->
  ChartCaptureResult.success r = false ->
  World.captureCache w' = World.captureCache w /\
  (cacheHoldsSuccesses w ->
   cacheHoldsSuccesses w' /\
   forall id timestamp, World.captureCache w' !! id <> Some (r, timestamp)).
Proof.
  intros Hrun Hs.
  assert (Hsame : World.captureCache w' = World.captureCache w).
  { destruct Hrun as [Hrun | Hrun].
    - destruct (Service_capture_run h chartWidgetId options forceRefresh w)
        as (r0 & w0 & Hrun' & HR).
      rewrite Hrun in Hrun'. injection Hrun' as <- <-.
      eapply CaptureRun_failure_cache; eauto.
    - destruct (Modular_capture_run h chartWidgetId options forceRefresh w)
        as (r0 & w0 & Hrun' & HR).
      rewrite Hrun in Hrun'. injection Hrun' as <- <-.
      eapply CaptureRun_failure_cache; eauto. }
  split; [exact Hsame |].
  intros Hinv.
  assert (Hinv' : cacheHoldsSuccesses w').
  { intros id r' ts. rewrite Hsame. apply Hinv. }
  split; [exact Hinv' |].
  intros id ts Hl. apply Hinv' in Hl. congruence.
Qed.

Lemma failed_capture_not_cached_witness :
  let run :=
    Modular.captureChartAsImage Fixtures.failingCaptureHost "w1" None false
      Fixtures.world0 in
  fst run
  = Returns (ChartCaptureResult.failure
               "Échec de la capture du diagramme - htmlToCanvas a retourné null") /\
  World.captureCache (snd run) = World.captureCache Fixtures.world0 /\
  cacheHoldsSuccesses (snd run).
Proof.
  cbv zeta.
  pose (run := Modular.captureChartAsImage Fixtures.failingCaptureHost "w1"
                 None false Fixtures.world0).
  destruct (failed_capture_not_cached Fixtures.failingCaptureHost "w1" None
              false Fixtures.world0 (snd run)
              (ChartCaptureResult.failure
                 "Échec de la capture du diagramme - htmlToCanvas a retourné null")
              ltac:(right; vm_compute; reflexivity) ltac:(reflexivity))
    as [Hsame Hinv].
  split; [vm_compute; reflexivity |].
  split; [exact Hsame |].
  apply Hinv. apply empty_cache_holds_successes. reflexivity.
Defined.

(** Both modules keep the invariant on every run, successful or not. *)
Lemma capture_keeps_successes (h : Host.t) (chartWidgetId : string)
    (options : option ChartPrintOptions.t) (forceRefresh : bool)
    (w : World.t) :
  cacheHoldsSuccesses w ->
  cacheHoldsSuccesses
    (snd (Service.captureChartAsImage h chartWidgetId options forceRefresh w))
  /\
  cacheHoldsSuccesses
    (snd (Modular.captureChartAsImage h chartWidgetId options forceRefresh w)).
Proof.
  intros Hinv. split.
  - destruct (Service_capture_run h chartWidgetId options forceRefresh w)
      as (r0 & w0 & Hrun' & HR).
    rewrite Hrun'. eapply CaptureRun_keeps_successes; eauto.
  - destruct (Modular_capture_run h chartWidgetId options forceRefresh w)
      as (r0 & w0 & Hrun' & HR).
    rewrite Hrun'. eapply CaptureRun_keeps_successes; eauto.
Qed.

(** *** The timeout of the professional layout *)

(** When the capture suspends and the timer fires before it settles, the
    composition is abandoned: the result is [null], no stage after
    ["capture"] is reported, and a supplied callback receives the error
    stage with [-1] and the timeout message last. *)
Lemma timeout_aborts_suspended_capture (h : Host.t) (chartWidgetId : string)
    (options : ProfessionalPdfOptions.t) (w : World.t) :
  let timeout := default 30000%Z (ProfessionalPdfOptions.timeout options) in
  let forceRefresh :=
    default false (ProfessionalPdfOptions.forceRefresh options) in
  let w0 :=
    snd ((Service.notifyProgress options "init" 0
            "Initialisation de la génération PDF..." ;;
          Service.notifyProgress options "capture" 10
            "Capture du diagramme en cours...") w) in
  let run :=
    Service.captureChartAsImage h chartWidgetId
      (Service.captureOptions chartWidgetId) forceRefresh w0 in
  length (World.rasterisations (snd run))
  <> length (World.rasterisations w0) ->
  Service.timerFiredBeforeRace h timeout
  || negb (Host.captureSettlesWithin h timeout) = true ->
  let message :=
    ("Timeout: génération PDF dépassé " +:+ String_of_number timeout +:+ "ms")%string in
  Service.generateProfessionalChartPdf h chartWidgetId options w
  = (Returns None,
     if ProfessionalPdfOptions.onProgress options
     then World.report "error" (-1) message (snd run)
     else snd run).
Proof.
  intros timeout forceRefresh w0 run Hsusp Hlate message.
  destruct (Service_capture_run h chartWidgetId
              (Service.captureOptions chartWidgetId) forceRefresh w0)
    as (r & w1 & Hrun & _).
  assert (Hrun1 : run = (Returns r, w1)) by exact Hrun.
  rewrite Hrun1 in Hsusp |- *. cbn [snd] in Hsusp |- *.
  unfold Service.generateProfessionalChartPdf,
    Service.generateProfessionalChartPdf_body.
  fold timeout forceRefresh.
  unfold try_catch at 1. unfold bind at 1.
  change (bind (Service.notifyProgress options "init" 0
                  "Initialisation de la génération PDF...") ?k w)
    with (k tt w) in Hsusp.
  remember (Service.notifyProgress options "init" 0
              "Initialisation de la génération PDF...") as n1 eqn:Hn1.
  remember (Service.notifyProgress options "capture" 10
              "Capture du diagramme en cours...") as n2 eqn:Hn2.
  assert (Hw0 : forall A (k : M A),
             bind n1 (fun _ => bind n2 (fun _ => k)) w = k w0).
  { intros A k. subst w0 n1 n2. unfold Service.notifyProgress, bind.
    destruct (ProfessionalPdfOptions.onProgress options); reflexivity. }
  rewrite Hw0.
  unfold bind at 1.
  unfold Service.raceCapture, bind at 1, gets at 1.
  unfold bind at 1. fold (Service.captureOptions chartWidgetId).
  rewrite Hrun. unfold bind at 1, gets at 1.
  destruct (Nat.eqb_spec (length (World.rasterisations w1))
              (length (World.rasterisations w0))) as [He | _];
    [contradiction |].
  cbn [negb]. rewrite Hlate. unfold throw. cbn [messageOr].
  unfold bind, modify, ret.
  destruct (ProfessionalPdfOptions.onProgress options); reflexivity.
Qed.

(** C5 (the code at the failing input).  The composer is called with
    [timeout: 0] and a progress callback for an identifier that is not
    registered.  The timer has fired before the race is entered, the
    capture has settled without suspending, and the race takes its result:
    the composition runs to its end, a document is returned, and the
    callback receives ["complete"] with [100] and never the error stage. *)
Theorem timeout_zero_still_returns_document :
  let run :=
    Service.generateProfessionalChartPdf Fixtures.emptyHost "missing"
      (Fixtures.progressOptions 0) Fixtures.world0 in
  Service.timerFiredBeforeRace Fixtures.emptyHost 0 = true /\
  fst run
  = Returns (Some (Pdf.mkBlob "landscape" "a4"
                     [ Pdf.Border; Pdf.Title "Diagramme"; Pdf.Separator;
                       Pdf.Placeholder "Graphique non disponible";
                       Pdf.Separator; Pdf.FooterDate;
                       Pdf.FooterRight "Généré par ArcGIS Experience Builder" ]))
  /\
  last (World.progress (snd run))
  = Some ("complete"%string, 100%Z, "PDF généré avec succès!"%string) /\
  Forall (fun call => fst (fst call) <> "error"%string)
         (World.progress (snd run)).
Proof.
  cbv zeta. split; [reflexivity |].
  split; [vm_compute; reflexivity |].
  split; [vm_compute; reflexivity |].
  vm_compute. repeat constructor; discriminate.
Qed.

(** *** The aggregation of [extractChartData] *)

Lemma sumZ_app (l1 l2 : list Z) : sumZ (l1 ++ l2) = (sumZ l1 + sumZ l2)%Z.
Proof. unfold sumZ. induction l1 as [|x l1 IH]; cbn; lia. Qed.

Lemma sumZ_Permutation (l1 l2 : list Z) : l1 ≡ₚ l2 -> sumZ l1 = sumZ l2.
Proof.
  unfold sumZ. induction 1; cbn; lia.
Qed.

Lemma Map_get_None (m : JsMap) (k : JsValue) :
  Map_get m k = None <-> k ∉ map fst m.
Proof.
  induction m as [|[k' v'] m IH]; cbn.
  - split; [intros _; apply not_elem_of_nil | reflexivity].
  - destruct (decide (k' = k)) as [-> | Hne].
    + split; [discriminate | intros H; exfalso; apply H; left].
    + rewrite IH, not_elem_of_cons. split; [auto | tauto].
Qed.

Lemma Map_get_set_eq (m : JsMap) (k : JsValue) (v : Num) :
  Map_get (Map_set m k v) k = Some v.
Proof.
  induction m as [|[k' v'] m IH]; cbn.
  - now destruct (decide (k = k)).
  - destruct (decide (k' = k)) as [-> | Hne]; cbn.
    + now destruct (decide (k = k)).
    + now destruct (decide (k' = k)).
Qed.

Lemma Map_get_set_ne (m : JsMap) (k k' : JsValue) (v : Num) :
  k <> k' -> Map_get (Map_set m k v) k' = Map_get m k'.
Proof.
  intros Hne. induction m as [|[k0 v0] m IH]; cbn.
  - destruct (decide (k = k')); [contradiction | reflexivity].
  - destruct (decide (k0 = k)) as [-> | Hne0]; cbn.
    + destruct (decide (k = k')); [contradiction | reflexivity].
    + destruct (decide (k0 = k')); [reflexivity | exact IH].
Qed.

(** [set] keeps the keys of the map and appends a new key at the end. *)
Lemma Map_set_keys (m : JsMap) (k : JsValue) (v : Num) :
  map fst (Map_set m k v)
  = if Map_get m k is Some _ then map fst m else map fst m ++ [k].
Proof.
  induction m as [|[k' v'] m IH]; cbn; [reflexivity |].
  destruct (decide (k' = k)) as [-> | Hne]; cbn; [reflexivity |].
  rewrite IH. now destruct (Map_get m k).
Qed.

Lemma Map_set_NoDup (m : JsMap) (k : JsValue) (v : Num) :
  NoDup (map fst m) -> NoDup (map fst (Map_set m k v)).
Proof.
  intros Hnd. rewrite Map_set_keys.
  destruct (Map_get m k) eqn:Hg; [exact Hnd |].
  apply Map_get_None in Hg.
  apply NoDup_app. repeat split; auto.
  - intros x Hx Hin. apply list_elem_of_singleton in Hin as ->. contradiction.
  - apply NoDup_singleton.
Qed.

Lemma Map_set_sum (f : Num -> Z) (m : JsMap) (k : JsValue) (v : Num) :
  sumZ (map (fun entry => f (snd entry)) (Map_set m k v))
  = (sumZ (map (fun entry => f (snd entry)) m)
     - from_option f 0 (Map_get m k) + f v)%Z.
Proof.
  unfold sumZ. induction m as [|[k' v'] m IH]; cbn; [lia |].
  destruct (decide (k' = k)) as [-> | Hne]; cbn; [lia |].
  fold (map (fun entry : JsValue * Num => f (snd entry)) (Map_set m k v))
       (map (fun entry : JsValue * Num => f (snd entry)) m).
  lia.
Qed.

(** The value held under a key is one of the values of the map. *)
Lemma Map_get_elem (m : JsMap) (k : JsValue) (v : Num) :
  Map_get m k = Some v -> (k, v) ∈ m.
Proof.
  induction m as [|[k' v'] m IH]; cbn; [discriminate |].
  destruct (decide (k' = k)) as [-> | Hne].
  - intros [= ->]. left.
  - intros H. right. exact (IH H).
Qed.

(** *** Sums of doubles that are exact *)

(** An integer of magnitude at most [2 ^ 53] is a double. *)
Lemma roundDouble_exact (n : Z) :
  (Z.abs n <= 2 ^ 53)%Z -> roundDouble n = Fin n.
Proof.
  intros Hn. unfold roundDouble.
  now destruct (Z.leb_spec (Z.abs n) (2 ^ 53)) as [_ | Hc]; [| lia].
Qed.

(** The sum of the magnitudes of the values of a map. *)
Lemma magnitude_bounds (m : JsMap) (k : JsValue) :
  (0 <= from_option (fun v => Z.abs (finiteValue v)) 0 (Map_get m k)
   <= sumZ (map (fun entry => Z.abs (finiteValue (snd entry))) m))%Z.
Proof.
  unfold sumZ. induction m as [|[k' v'] m IH]; cbn; [lia |].
  destruct (decide (k' = k)) as [-> | Hne]; cbn.
  - assert (0 <= foldr Z.add 0
                   (map (fun entry : JsValue * Num =>
                           Z.abs (finiteValue (snd entry))) m))%Z; [| lia].
    clear. induction m as [|[k v] m IH]; cbn; lia.
  - lia.
Qed.

Section Aggregation.
Variable h : Host.t.
Variables categoryField valueField : option string.

(** What one record contributes. *)
Let categoryOf (record : DataRecord) : JsValue := prop record categoryField.
Let valueOf (record : DataRecord) : Num :=
  orZero (parseFloatValue h (prop record valueField)).

(** [aggregatedData.get(c) || 0] *)
Let existingOf (m : JsMap) (c : JsValue) : Num :=
  match Map_get m c with
  | Some existing => orZero existing
  | None => Fin 0
  end.

(** The integer held under [c], [0] when there is none. *)
Let heldOf (m : JsMap) (c : JsValue) : Z :=
  from_option finiteValue 0%Z (Map_get m c).

(** The sum of the values of the records of category [c]. *)
Let sumOf (c : JsValue) (records : list DataRecord) : Z :=
  sumZ (map (fun record => finiteValue (valueOf record))
            (filter (fun record => categoryOf record = c) records)).

Let counted (records : list DataRecord) : list DataRecord :=
  filter (fun record => is_nullish (categoryOf record) = false) records.

Let integral (m : JsMap) : Prop :=
  Forall (fun entry : JsValue * Num => exists z, snd entry = Fin z) m.

Let magnitude (m : JsMap) : Z :=
  sumZ (map (fun entry : JsValue * Num => Z.abs (finiteValue (snd entry)))
            m).

Let step := aggregateRecord h categoryField valueField.

Lemma aggregateRecord_cases (m : JsMap) (record : DataRecord) :
  (is_nullish (categoryOf record) = true /\ step m record = m) \/
  (is_nullish (categoryOf record) = false /\
   step m record
   = Map_set m (categoryOf record)
       (addNum (existingOf m (categoryOf record)) (valueOf record))).
Proof.
  unfold step, aggregateRecord.
  fold (categoryOf record) (valueOf record).
  fold (existingOf m (categoryOf record)).
  destruct (is_nullish (categoryOf record)); cbn; auto.
Qed.

Lemma Map_set_key_cases (m : JsMap) (k : JsValue) (v : Num) (c : JsValue) :
  c ∈ map fst (Map_set m k v) <-> c ∈ map fst m \/ c = k.
Proof.
  rewrite Map_set_keys. destruct (Map_get m k) eqn:Hg.
  - split; [auto |]. intros [H | ->]; [exact H |].
    destruct (decide (k ∈ map fst m)) as [Hin | Hnin]; [exact Hin |].
    apply Map_get_None in Hnin. congruence.
  - rewrite elem_of_app, list_elem_of_singleton. reflexivity.
Qed.

(** The keys of the map after the loop, whatever the values are. *)
Lemma aggregate_loop (records : list DataRecord) (m : JsMap) :
  NoDup (map fst m) ->
  let m' := fold_left step records m in
  NoDup (map fst m') /\
  (forall c, c ∈ map fst m' <->
             c ∈ map fst m \/
             exists record, record ∈ counted records /\ categoryOf record = c).
Proof.
  revert m. induction records as [|record records IH]; intros m Hnd.
  - cbn. split; [exact Hnd |]. intros c. split; [auto |].
    intros [H | (r & Hr & _)]; [exact H |]. now apply elem_of_nil in Hr.
  - cbn [fold_left]. cbv zeta.
    destruct (aggregateRecord_cases m record) as [[Hn Hs] | [Hn Hs]];
      rewrite Hs.
    + destruct (IH m Hnd) as (I1 & I2).
      split; [exact I1 |].
      intros c. rewrite I2. unfold counted. rewrite filter_cons.
      destruct (decide (is_nullish (categoryOf record) = false));
        [congruence | reflexivity].
    + remember (categoryOf record) as k eqn:Hk.
      set (m1 := Map_set m k (addNum (existingOf m k) (valueOf record))).
      assert (Hnd1 : NoDup (map fst m1)) by (apply Map_set_NoDup; exact Hnd).
      destruct (IH m1 Hnd1) as (I1 & I2).
      split; [exact I1 |].
      intros c. rewrite I2. unfold m1. rewrite Map_set_key_cases.
      unfold counted. rewrite filter_cons. rewrite <- Hk.
      destruct (decide (is_nullish k = false)); [| congruence].
      split.
      * intros [[H | ->] | (r & Hr & Hc)]; auto.
        -- right. exists record. split; [left | now symmetry].
        -- right. exists r. split; [now right | exact Hc].
      * intros [H | (r & Hr & Hc)]; auto.
        apply elem_of_cons in Hr as [-> | Hr];
          [left; right; congruence |].
        right. exists r. auto.
Qed.

(** What a map of integers gives for a key. *)
Lemma existingOf_integral (m : JsMap) (c : JsValue) :
  integral m -> existingOf m c = Fin (heldOf m c).
Proof.
  intros Hm. unfold existingOf, heldOf.
  destruct (Map_get m c) as [v |] eqn:Hg; [| reflexivity].
  apply Map_get_elem in Hg.
  unfold integral in Hm. rewrite Forall_forall in Hm.
  destruct (Hm _ Hg) as [z Hz]. cbn in Hz. now rewrite Hz.
Qed.

Lemma Map_set_integral (m : JsMap) (k : JsValue) (z : Z) :
  integral m -> integral (Map_set m k (Fin z)).
Proof.
  unfold integral. induction 1 as [| [k' v'] m Hv Hm IH]; cbn.
  - repeat constructor. now exists z.
  - destruct (decide (k' = k)); constructor; auto. now exists z.
Qed.

(** The values of the map after the loop, when every value added is an
    integer and their magnitudes, with those the map holds, add up to
    at most [2 ^ 53]: every addition of the loop is then exact. *)
Lemma aggregate_loop_sums (records : list DataRecord) (m : JsMap) :
  Forall (fun record => exists n, valueOf record = Fin n)
         (counted records) ->
  integral m ->
  (magnitude m
   + sumZ (map (fun record => Z.abs (finiteValue (valueOf record)))
               (counted records)) <= 2 ^ 53)%Z ->
  let m' := fold_left step records m in
  integral m' /\
  (forall c, is_nullish c = false ->
             heldOf m' c = (heldOf m c + sumOf c records)%Z) /\
  sumZ (map (fun entry => finiteValue (snd entry)) m')
  = (sumZ (map (fun entry => finiteValue (snd entry)) m)
     + sumZ (map (fun record => finiteValue (valueOf record))
                 (counted records)))%Z.
Proof.
  revert m. induction records as [|record records IH];
    intros m Hvalues Hm Hbound.
  - cbn. repeat split; auto.
    + intros c _. unfold sumOf, heldOf. cbn. lia.
    + unfold counted, sumZ. cbn. lia.
  - cbn [fold_left]. cbv zeta.
    destruct (aggregateRecord_cases m record) as [[Hn Hs] | [Hn Hs]];
      rewrite Hs.
    + unfold counted in Hvalues, Hbound |- *.
      rewrite filter_cons in Hvalues, Hbound |- *.
      destruct (decide (is_nullish (categoryOf record) = false));
        [congruence |].
      destruct (IH m Hvalues Hm Hbound) as (I1 & I2 & I3).
      split; [exact I1 |]. split; [| exact I3].
      intros c Hc. rewrite (I2 c Hc). unfold sumOf.
      rewrite filter_cons.
      destruct (decide (categoryOf record = c)); [congruence | reflexivity].
    + remember (categoryOf record) as k eqn:Hk.
      unfold counted in Hvalues, Hbound.
      rewrite filter_cons in Hvalues, Hbound. rewrite <- Hk in Hvalues, Hbound.
      destruct (decide (is_nullish k = false)); [| congruence].
      apply Forall_cons in Hvalues as [[v Hv] Hvalues].
      cbn [map] in Hbound. rewrite Hv in Hbound |- *.
      cbn [finiteValue] in Hbound.
      change (sumZ (?x :: ?l)) with (x + sumZ l)%Z in Hbound.
      fold (counted records) in Hvalues, Hbound.
      rewrite (existingOf_integral m k Hm). cbn [addNum].
      pose proof (magnitude_bounds m k) as Hheld.
      fold (magnitude m) in Hheld.
      assert (Habs : from_option (fun v => Z.abs (finiteValue v)) 0%Z
                       (Map_get m k) = Z.abs (heldOf m k)).
      { unfold heldOf. now destruct (Map_get m k). }
      rewrite Habs in Hheld.
      assert (Hrest : (0 <= sumZ (map (fun record =>
                                         Z.abs (finiteValue (valueOf record)))
                                      (counted records)))%Z).
      { clear. unfold sumZ.
        induction (counted records) as [| r l IHl]; cbn; lia. }
      rewrite roundDouble_exact by lia.
      set (m1 := Map_set m k (Fin (heldOf m k + v))).
      assert (Hm1 : integral m1) by now apply Map_set_integral.
      assert (Hmag1 : magnitude m1
                      = (magnitude m - Z.abs (heldOf m k)
                         + Z.abs (heldOf m k + v))%Z).
      { unfold magnitude, m1.
        rewrite (Map_set_sum (fun v => Z.abs (finiteValue v))).
        rewrite Habs. reflexivity. }
      destruct (IH m1 Hvalues Hm1 ltac:(lia)) as (I1 & I2 & I3).
      split; [exact I1 |]. split.
      * intros c Hc. rewrite (I2 c Hc). unfold sumOf.
        rewrite filter_cons. rewrite <- Hk.
        destruct (decide (k = c)) as [<- | Hne].
        -- unfold heldOf at 1, m1. rewrite Map_get_set_eq.
           cbn [from_option finiteValue map]. rewrite Hv.
           cbn [finiteValue].
           change (sumZ (?x :: ?l)) with (x + sumZ l)%Z. lia.
        -- unfold heldOf at 1, m1. rewrite Map_get_set_ne by exact Hne.
           reflexivity.
      * rewrite I3. unfold m1. rewrite (Map_set_sum finiteValue).
        fold (heldOf m k). unfold counted. rewrite filter_cons.
        rewrite <- Hk.
        destruct (decide (is_nullish k = false)); [| congruence].
        cbn [map finiteValue]. rewrite Hv. cbn [finiteValue].
        change (sumZ (?x :: ?l)) with (x + sumZ l)%Z. lia.
Qed.

End Aggregation.

(** *** [Array.prototype.sort] *)

Lemma sortInsert_Permutation {A} (cmp : A -> A -> Z) (x : A) (l : list A) :
  sortInsert cmp x l ≡ₚ x :: l.
Proof.
  induction l as [|y l IH]; cbn; [reflexivity |].
  destruct (cmp x y <? 0)%Z; [reflexivity |].
  rewrite IH. apply Permutation_swap.
Qed.

Lemma sort_loop_Permutation {A} (cmp : A -> A -> Z) (l acc : list A) :
  fold_left (fun acc x => sortInsert cmp x acc) l acc ≡ₚ acc ++ l.
Proof.
  revert acc. induction l as [|x l IH]; intros acc; cbn.
  - now rewrite app_nil_r.
  - rewrite IH, sortInsert_Permutation. cbn.
    apply Permutation_middle.
Qed.

(** The sorted array holds the elements of the array. *)
Lemma Array_sort_Permutation {A} (cmp : A -> A -> Z) (l : list A) :
  Array_sort cmp l ≡ₚ l.
Proof. unfold Array_sort. now rewrite sort_loop_Permutation. Qed.

Section SortedByComparator.
Context {A : Type}.
Variable cmp : A -> A -> Z.
Variable P : A -> Prop.

(** [cmp] is a consistent comparator on the elements that satisfy [P]. *)
Hypothesis cmp_total :
  forall a b, P a -> P b -> (0 <= cmp a b)%Z -> (cmp b a <= 0)%Z.
Hypothesis cmp_trans :
  forall a b c, P a -> P b -> P c ->
                (cmp a b <= 0)%Z -> (cmp b c <= 0)%Z -> (cmp a c <= 0)%Z.

Let le (a b : A) : Prop := (cmp a b <= 0)%Z.

Lemma sortInsert_sorted (x : A) (l : list A) :
  P x -> Forall P l -> StronglySorted le l ->
  StronglySorted le (sortInsert cmp x l).
Proof using cmp_total cmp_trans.
  intros Hx HP Hs. induction l as [|y l IH]; cbn.
  - repeat constructor.
  - apply Forall_cons in HP as [Hy HP].
    apply StronglySorted_inv in Hs as [Hs Hall].
    destruct (Z.ltb_spec (cmp x y) 0) as [Hlt | Hge].
    + constructor; [constructor; assumption |].
      constructor; [unfold le; lia |].
      rewrite Forall_forall in Hall, HP. apply Forall_forall.
      intros z Hz. unfold le.
      apply (cmp_trans x y z); auto; [lia | now apply Hall].
    + constructor; [now apply IH |].
      rewrite (sortInsert_Permutation cmp x l).
      constructor; [now apply cmp_total | exact Hall].
Qed.

Lemma sort_loop_sorted (l acc : list A) :
  Forall P l -> Forall P acc -> StronglySorted le acc ->
  StronglySorted le (fold_left (fun acc x => sortInsert cmp x acc) l acc).
Proof using cmp_total cmp_trans.
  revert acc. induction l as [|x l IH]; intros acc Hl Hacc Hs; cbn;
    [exact Hs |].
  apply Forall_cons in Hl as [Hx Hl].
  apply IH; [exact Hl | | now apply sortInsert_sorted].
  rewrite (sortInsert_Permutation cmp x acc). now constructor.
Qed.

(** With a consistent comparator the result of [sort] is in ascending
    order: no element compares greater than a later one. *)
Lemma Array_sort_sorted (l : list A) :
  Forall P l -> StronglySorted le (Array_sort cmp l).
Proof using cmp_total cmp_trans.
  intros Hl. unfold Array_sort.
  apply sort_loop_sorted; [exact Hl | constructor | constructor].
Qed.

End SortedByComparator.

(** *** What [extractChartData] returns *)

Lemma Map_get_of_NoDup (m : JsMap) (k : JsValue) (v : Num) :
  NoDup (map fst m) -> (k, v) ∈ m -> Map_get m k = Some v.
Proof.
  induction m as [|[k' v'] m IH]; intros Hnd Hin.
  - now apply elem_of_nil in Hin.
  - cbn in Hnd. apply NoDup_cons in Hnd as [Hnotin Hnd]. cbn.
    apply elem_of_cons in Hin as [[= -> ->] | Hin].
    + now destruct (decide (k' = k')).
    + destruct (decide (k' = k)) as [-> | Hne]; [| now apply IH].
      exfalso. apply Hnotin.
      apply list_elem_of_fmap. exists (k, v). auto.
Qed.

(** The aggregated data: one record per category that is neither [null]
    nor [undefined]. *)
Lemma aggregate_spec (h : Host.t) (categoryField valueField : option string)
    (records : list DataRecord) :
  let categoryOf := fun record : DataRecord => prop record categoryField in
  let counted :=
    filter (fun record => is_nullish (categoryOf record) = false) records in
  let data := aggregate h categoryField valueField records in
  NoDup (map ChartDataRecord.category data) /\
  (forall c, c ∈ map ChartDataRecord.category data <->
             exists record, record ∈ counted /\ categoryOf record = c).
Proof.
  intros categoryOf counted data.
  destruct (aggregate_loop h categoryField valueField records []
              (NoDup_nil_2)) as (I1 & I2).
  cbv zeta in I1, I2.
  set (m := fold_left (aggregateRecord h categoryField valueField) records [])
    in *.
  assert (Hperm : data ≡ₚ map recordOfEntry m).
  { unfold data, aggregate. apply Array_sort_Permutation. }
  assert (Hcat : map ChartDataRecord.category (map recordOfEntry m)
                 = map fst m).
  { rewrite map_map. apply map_ext. now intros [c v]. }
  split.
  - rewrite Hperm, Hcat. exact I1.
  - intros c. rewrite Hperm, Hcat, I2. split.
    + intros [Hc | H]; [now apply elem_of_nil in Hc | exact H].
    + auto.
Qed.

(** The values of the aggregated data, when the value of every record
    counted is an integer and the magnitudes of these values add up to at
    most [2 ^ 53]: no addition of the loop is rounded, and a record holds
    the sum of the values of the records of its category. *)
Lemma aggregate_sums (h : Host.t) (categoryField valueField : option string)
    (records : list DataRecord) :
  let categoryOf := fun record : DataRecord => prop record categoryField in
  let valueOf := fun record : DataRecord =>
                   orZero (parseFloatValue h (prop record valueField)) in
  let counted :=
    filter (fun record => is_nullish (categoryOf record) = false) records in
  let data := aggregate h categoryField valueField records in
  Forall (fun record => exists n, valueOf record = Fin n) counted ->
  (sumZ (map (fun record => Z.abs (finiteValue (valueOf record))) counted)
   <= 2 ^ 53)%Z ->
  (forall x, x ∈ data ->
             ChartDataRecord.value x
             = Fin (sumZ (map (fun record => finiteValue (valueOf record))
                            (filter (fun record =>
                                       categoryOf record
                                       = ChartDataRecord.category x)
                                    records)))) /\
  totalValue data
  = sumZ (map (fun record => finiteValue (valueOf record)) counted).
Proof.
  intros categoryOf valueOf counted data Hvalues Hbound.
  destruct (aggregate_loop h categoryField valueField records []
              (NoDup_nil_2)) as (I1 & I2).
  destruct (aggregate_loop_sums h categoryField valueField records []
              Hvalues (Forall_nil_2 _) Hbound) as (J1 & J2 & J3).
  cbv zeta in I1, I2, J1, J2, J3.
  set (m := fold_left (aggregateRecord h categoryField valueField) records [])
    in *.
  assert (Hperm : data ≡ₚ map recordOfEntry m).
  { unfold data, aggregate. apply Array_sort_Permutation. }
  assert (Hnn : forall c, c ∈ map fst m -> is_nullish c = false).
  { intros c Hc. apply I2 in Hc as [Hc | (r & Hr & <-)];
      [now apply elem_of_nil in Hc |].
    now apply list_elem_of_filter in Hr as [Hr _]. }
  split.
  - intros x Hx. rewrite Hperm in Hx.
    apply list_elem_of_fmap in Hx as ([c v] & -> & Hin). cbn.
    pose proof (Map_get_of_NoDup m c v I1 Hin) as Hget.
    assert (Hc : is_nullish c = false).
    { apply Hnn. apply list_elem_of_fmap. exists (c, v). auto. }
    rewrite Forall_forall in J1. destruct (J1 _ Hin) as [z Hz].
    cbn in Hz. subst v.
    specialize (J2 c Hc). rewrite Hget in J2. cbn in J2. now rewrite J2.
  - unfold totalValue.
    rewrite (sumZ_Permutation _ _
               (Permutation_map
                  (fun r => finiteValue (ChartDataRecord.value r)) Hperm)).
    rewrite map_map.
    transitivity (sumZ (map (fun entry : JsValue * Num =>
                               finiteValue (snd entry)) m)).
    + f_equal. apply map_ext. now intros [c v].
    + rewrite J3. cbn. reflexivity.
Qed.

(** A successful result of [extractChartData] is the aggregation of the
    retrieved records on the detected fields. *)
Lemma extractChartData_success (h : Host.t) (chartWidgetId : string) :
  ChartDataExtractionResult.success (Service.extractChartData h chartWidgetId)
  = true ->
  exists widget sample rest,
    Service.getChartWidgetInfo h chartWidgetId = Returns (Some widget) /\
    Service.retrieveRecords h widget = Returns (sample :: rest) /\
    let categoryField :=
      Service.detectCategoryField (map fst sample)
        (Service.configuredCategoryField widget) in
    let valueField :=
      Service.detectValueField h sample (map fst sample)
        (Service.configuredValueField widget) in
    let r := Service.extractChartData h chartWidgetId in
    ChartDataExtractionResult.data r
    = Some (aggregate h categoryField valueField (sample :: rest)) /\
    ChartDataExtractionResult.categoryField r = categoryField /\
    ChartDataExtractionResult.valueField r = valueField /\
    ChartDataExtractionResult.totalRecords r = Some (length (sample :: rest)).
Proof.
  unfold Service.extractChartData, Service.extractChartData_body.
  destruct (Service.getChartWidgetInfo h chartWidgetId)
    as [[widget |] | e]; cbn [obind]; try (cbn; discriminate).
  destruct (Service.retrieveRecords h widget) as [[| sample rest] | e] eqn:Hr;
    cbn [obind]; try (cbn; discriminate).
  intros _. exists widget, sample, rest. cbn. repeat split; assumption.
Qed.

Lemma filter_all {A} (P : A -> Prop) `{forall x, Decision (P x)} (l : list A) :
  (forall x, x ∈ l -> P x) -> filter P l = l.
Proof.
  induction l as [|x l IH]; intros Hall; [reflexivity |].
  rewrite filter_cons.
  destruct (decide (P x)) as [_ | Hn].
  - f_equal. apply IH. intros y Hy. apply Hall. now right.
  - exfalso. apply Hn, Hall. left.
Qed.

Lemma extractChartData_data_success (h : Host.t) (chartWidgetId : string)
    (data : list ChartDataRecord.t) :
  ChartDataExtractionResult.data (Service.extractChartData h chartWidgetId)
  = Some data ->
  ChartDataExtractionResult.success (Service.extractChartData h chartWidgetId)
  = true.
Proof.
  unfold Service.extractChartData, Service.extractChartData_body.
  destruct (Service.getChartWidgetInfo h chartWidgetId)
    as [[widget |] | e]; cbn [obind]; try (cbn; discriminate).
  destruct (Service.retrieveRecords h widget) as [[| sample rest] | e];
    cbn [obind]; try (cbn; discriminate).
  reflexivity.
Qed.

(** C3 (amended).  In every result of the query-engine strategy
    [extractChartData] the categories of the returned data are pairwise
    distinct; and whenever that strategy yields records,
    [extractChartDataComplete] returns its result unchanged, so the same
    holds there.  (The DOM-parsing strategy does no aggregation.) *)
Theorem query_engine_categories_distinct (h : Host.t)
    (chartWidgetId : string) :
  (forall data,
      ChartDataExtractionResult.data
        (Service.extractChartData h chartWidgetId) = Some data ->
      NoDup (map ChartDataRecord.category data)) /\
  (Service.hasData (Service.extractChartData h chartWidgetId) = true ->
   forall w,
     Service.extractChartDataComplete h chartWidgetId w
     = (Returns (Service.extractChartData h chartWidgetId), w)).
Proof.
  split.
  - intros data Hdata.
    pose proof (extractChartData_data_success h chartWidgetId data Hdata)
      as Hs.
    destruct (extractChartData_success h chartWidgetId Hs)
      as (widget & sample & rest & _ & _ & Hd & _).
    cbv zeta in Hd. rewrite Hd in Hdata. injection Hdata as <-.
    apply aggregate_spec.
  - intros Hhas w. unfold Service.extractChartDataComplete.
    rewrite Hhas. reflexivity.
Qed.

Lemma query_engine_categories_distinct_witness :
  exists data,
    ChartDataExtractionResult.data
      (Service.extractChartData Fixtures.salesHost "w1") = Some data /\
    map ChartDataRecord.category data = [JNum 2020; JNum 2021] /\
    NoDup (map ChartDataRecord.category data) /\
    fst (Service.extractChartDataComplete Fixtures.salesHost "w1"
           Fixtures.world0)
    = Returns (Service.extractChartData Fixtures.salesHost "w1").
Proof.
  destruct (query_engine_categories_distinct Fixtures.salesHost "w1")
    as [Hdistinct Hcomplete].
  eexists. split; [vm_compute; reflexivity |].
  split; [reflexivity |].
  split; [apply Hdistinct; vm_compute; reflexivity |].
  rewrite Hcomplete; [reflexivity | vm_compute; reflexivity].
Defined.

(** C3 (counterexample).  The data sources give nothing and the rendered
    legend shows the label ["A"] twice: the DOM strategy, and with it
    [extractChartDataComplete], succeeds with the category ["A"] twice. *)
Lemma dom_strategy_repeats_categories :
  exists r data,
    fst (Service.extractChartDataComplete Fixtures.dupLegendHost "w1"
           Fixtures.world0) = Returns r /\
    fst (Service.extractChartDataFromDOM Fixtures.dupLegendHost "w1"
           Fixtures.world0) = Returns r /\
    ChartDataExtractionResult.success r = true /\
    ChartDataExtractionResult.data r = Some data /\
    map ChartDataRecord.category data = [JStr "A"; JStr "A"] /\
    ~ NoDup (map ChartDataRecord.category data).
Proof.
  eexists _, _. split; [vm_compute; reflexivity |].
  split; [reflexivity |].
  split; [reflexivity |].
  split; [reflexivity |].
  split; [reflexivity |].
  cbn. intros Hnd. apply NoDup_cons in Hnd as [Hnotin _].
  apply Hnotin. left.
Qed.

(** On numbers the comparator is the difference; on strings it is
    [localeCompare]. *)
Lemma aggregate_sorted (h : Host.t) (categoryField valueField : string)
    (records : list DataRecord) :
  homogeneousCategories h categoryField records ->
  StronglySorted (categoryLe h)
    (aggregate h (Some categoryField) (Some valueField) records).
Proof.
  intros Hhom.
  destruct (aggregate_spec h (Some categoryField) (Some valueField) records)
    as (_ & Hcats).
  cbv zeta in Hcats.
  set (m := fold_left
              (aggregateRecord h (Some categoryField) (Some valueField))
              records []).
  assert (Hin : forall x, x ∈ map recordOfEntry m ->
                exists record, record ∈ records /\
                  lookupKey record categoryField = ChartDataRecord.category x).
  { intros x Hx.
    assert (Hc : ChartDataRecord.category x
                 ∈ map ChartDataRecord.category
                     (aggregate h (Some categoryField) (Some valueField)
                        records)).
    { unfold aggregate. fold m.
      rewrite (Array_sort_Permutation (compareCategory h)
                 (map recordOfEntry m)).
      apply list_elem_of_fmap. exists x. auto. }
    apply Hcats in Hc as (record & Hr & Hc).
    apply list_elem_of_filter in Hr as [_ Hr]. exists record. auto. }
  unfold aggregate. fold m.
  destruct Hhom as [Hnum | [Hstr [Htot Htrans]]].
  - apply (Array_sort_sorted (compareCategory h)
             (fun x => exists n, ChartDataRecord.category x = JNum n)).
    + intros a b [x Ha] [y Hb]. unfold compareCategory. rewrite Ha, Hb. lia.
    + intros a b c [x Ha] [y Hb] [z Hc]. unfold compareCategory.
      rewrite Ha, Hb, Hc. lia.
    + apply Forall_forall. intros x Hx.
      apply Hin in Hx as (record & Hr & Hc).
      destruct (Hnum record Hr) as [n Hn]. exists n. congruence.
  - apply (Array_sort_sorted (compareCategory h)
             (fun x => exists s, ChartDataRecord.category x = JStr s)).
    + intros a b [x Ha] [y Hb]. unfold compareCategory. rewrite Ha, Hb.
      apply Htot.
    + intros a b c [x Ha] [y Hb] [z Hc]. unfold compareCategory.
      rewrite Ha, Hb, Hc. apply Htrans.
    + apply Forall_forall. intros x Hx.
      apply Hin in Hx as (record & Hr & Hc).
      destruct (Hstr record Hr) as [s Hs]. exists s. congruence.
Qed.

Lemma fieldKnown_of_elem (fields : list string) (f : string) :
  f ∈ fields -> fieldKnown fields (Some f) = true.
Proof.
  intros Hin. cbn. apply existsb_exists. exists f.
  split; [now apply list_elem_of_In | apply String.eqb_refl].
Qed.

Lemma truthy_of_nonempty (s : string) :
  s <> EmptyString -> truthy (Some s) = true.
Proof. intros Hne. cbn. now apply String.eqb_neq in Hne as ->. Qed.

(** C1 (amended).  Let the widget be registered with category field
    [categoryField] and value field [valueField], both present in the
    first retrieved record, and let every retrieved record hold a category
    that is neither [null] nor [undefined], and of magnitude at most
    [2 ^ 53] when it is a number, and an integer as its value, the
    magnitudes of these values adding up to at most [2 ^ 53], so that no
    sum of doubles is rounded.  Then [extractChartData] succeeds and
    returns one record per distinct category; the value of a record is
    the sum of the raw values of the source records of its category; the
    total of the extracted values is the total of the raw values; and
    when the categories are all numbers, or all strings compared by a
    consistent [localeCompare], the data are in ascending order of the
    comparator (no record compares greater than a later one).  In
    particular Scenario 1 yields
    [[{category:2020, value:15}, {category:2021, value:7}]]. *)
Theorem extractChartData_aggregates :
  (forall (h : Host.t) (chartWidgetId : string) (widget : Widget.t)
          (records : list DataRecord) (categoryField valueField : string),
      Service.getChartWidgetInfo h chartWidgetId = Returns (Some widget) ->
      Service.retrieveRecords h widget = Returns records ->
      Service.configuredCategoryField widget = Some categoryField ->
      Service.configuredValueField widget = Some valueField ->
      categoryField <> EmptyString ->
      valueField <> EmptyString ->
      (exists sample,
          head records = Some sample /\
          categoryField ∈ map fst sample /\ valueField ∈ map fst sample) ->
      (forall record,
          record ∈ records ->
          is_nullish (lookupKey record categoryField) = false /\
          (forall c, lookupKey record categoryField = JNum c ->
                     (Z.abs c <= 2 ^ 53)%Z) /\
          exists n, lookupKey record valueField = JNum n) ->
      (rawMagnitude valueField records <= 2 ^ 53)%Z ->
      exists data,
        let r := Service.extractChartData h chartWidgetId in
        ChartDataExtractionResult.success r = true /\
        ChartDataExtractionResult.data r = Some data /\
        ChartDataExtractionResult.categoryField r = Some categoryField /\
        ChartDataExtractionResult.valueField r = Some valueField /\
        NoDup (map ChartDataRecord.category data) /\
        (forall c, c ∈ map ChartDataRecord.category data <->
                   exists record,
                     record ∈ records /\ lookupKey record categoryField = c) /\
        (forall x, x ∈ data ->
                   ChartDataRecord.value x
                   = Fin (rawTotalOf categoryField valueField
                            (ChartDataRecord.category x) records)) /\
        totalValue data = rawTotal valueField records /\
        (homogeneousCategories h categoryField records ->
         StronglySorted (categoryLe h) data)) /\
  ChartDataExtractionResult.data
    (Service.extractChartData Fixtures.salesHost "w1")
  = Some [ ChartDataRecord.mk (JNum 2020) (Fin 15) (Some "2020"%string) None;
           ChartDataRecord.mk (JNum 2021) (Fin 7) (Some "2021"%string) None ].
Proof.
  split; [| vm_compute; reflexivity].
  intros h chartWidgetId widget records categoryField valueField
    Hw Hr Hcf Hvf Hcne Hvne (sample & Hhead & Hkc & Hkv) Hrec Hbound.
  destruct records as [| sample' rest]; [discriminate |].
  injection Hhead as ->.
  assert (Hdc : Service.detectCategoryField (map fst sample)
                  (Some categoryField) = Some categoryField).
  { unfold Service.detectCategoryField.
    now rewrite truthy_of_nonempty, fieldKnown_of_elem. }
  assert (Hdv : Service.detectValueField h sample (map fst sample)
                  (Some valueField) = Some valueField).
  { unfold Service.detectValueField.
    now rewrite truthy_of_nonempty, fieldKnown_of_elem. }
  set (data := aggregate h (Some categoryField) (Some valueField)
                 (sample :: rest)).
  assert (Hres : Service.extractChartData h chartWidgetId
                 = ChartDataExtractionResult.mk true (Some data)
                     (Some (orLit (orStr (Service.chartConfigOf widget
                                            ?. ChartConfig.title)
                                         (Widget.label widget)) EmptyString))
                     (Some (orLit (orStr (Service.chartConfigOf widget
                                            ?. ChartConfig.type)
                                         (Service.firstSeries widget
                                            ?. Series.type)) "unknown"))
                     (Some categoryField) (Some valueField)
                     (Some (length (sample :: rest))) None).
  { unfold Service.extractChartData, Service.extractChartData_body.
    rewrite Hw. cbn [obind]. rewrite Hr. cbn [obind].
    rewrite Hcf, Hvf, Hdc, Hdv. reflexivity. }
  exists data. cbv zeta. rewrite Hres. cbn [ChartDataExtractionResult.success
    ChartDataExtractionResult.data ChartDataExtractionResult.categoryField
    ChartDataExtractionResult.valueField].
  clear Hres Hr. set (records := sample :: rest) in *.
  (* every record counts, and its value is the integer it holds *)
  assert (Hcounted :
    filter (fun record : DataRecord =>
              is_nullish (prop record (Some categoryField)) = false)
           records = records).
  { apply filter_all. intros record Hin. now apply Hrec. }
  assert (Hsmall : forall record,
             record ∈ records ->
             (Z.abs (rawNumber (lookupKey record valueField)) <= 2 ^ 53)%Z).
  { intros record Hin. revert Hbound. unfold rawMagnitude, sumZ. clear -Hin.
    induction records as [| r l IH]; [now apply elem_of_nil in Hin |].
    cbn. intros Hbound.
    assert (0 <= foldr Z.add 0
                   (map (fun r => Z.abs (rawNumber (lookupKey r valueField)))
                        l))%Z.
    { clear. induction l as [| r l IH]; cbn; lia. }
    apply elem_of_cons in Hin as [-> | Hin]; [lia |].
    apply IH; [exact Hin | lia]. }
  assert (Hvalue : forall record,
             record ∈ records ->
             orZero (parseFloatValue h (prop record (Some valueField)))
             = Fin (rawNumber (lookupKey record valueField))).
  { intros record Hin. pose proof (Hsmall record Hin) as Hs.
    destruct (Hrec record Hin) as (_ & _ & n & Hn).
    change (prop record (Some valueField))
      with (lookupKey record valueField).
    rewrite Hn in Hs |- *. cbn [parseFloatValue rawNumber] in Hs |- *.
    now rewrite roundDouble_exact. }
  assert (Hval : forall (f : Z -> Z) (l : list DataRecord),
             (forall record, record ∈ l -> record ∈ records) ->
             map (fun record =>
                    f (finiteValue
                         (orZero (parseFloatValue h
                                    (prop record (Some valueField))))))
                 l
             = map (fun record => f (rawNumber (lookupKey record valueField)))
                   l).
  { intros f l Hl. apply map_ext_in. intros record Hin.
    apply list_elem_of_In, Hl in Hin. now rewrite (Hvalue record Hin). }
  destruct (aggregate_spec h (Some categoryField) (Some valueField) records)
    as (S1 & S2).
  destruct (aggregate_sums h (Some categoryField) (Some valueField) records)
    as (S3 & S4).
  { rewrite Hcounted. apply Forall_forall. intros record Hin.
    eexists. now apply Hvalue. }
  { rewrite Hcounted. rewrite (Hval Z.abs records) by auto. exact Hbound. }
  cbv zeta in S2. fold data in S1, S2, S3, S4.
  rewrite Hcounted in S2, S4.
  repeat split; auto.
  - apply S2.
  - apply S2.
  - intros x Hx. rewrite (S3 x Hx). f_equal.
    unfold rawTotalOf, rawTotal. f_equal. apply (Hval (fun z => z)).
    intros record Hin. now apply list_elem_of_filter in Hin as [_ Hin].
  - rewrite S4. unfold rawTotal. f_equal. apply (Hval (fun z => z)). auto.
  - intros Hhom. now apply aggregate_sorted.
Qed.

Lemma extractChartData_aggregates_witness :
  exists data,
    ChartDataExtractionResult.data
      (Service.extractChartData Fixtures.salesHost "w1") = Some data /\
    NoDup (map ChartDataRecord.category data) /\
    totalValue data = rawTotal "sales" Fixtures.salesRecords /\
    rawTotal "sales" Fixtures.salesRecords = 22%Z /\
    StronglySorted (categoryLe Fixtures.salesHost) data.
Proof.
  destruct extractChartData_aggregates as [Hgeneral _].
  destruct (Hgeneral Fixtures.salesHost "w1"%string
              (Fixtures.chartWidget "chart") Fixtures.salesRecords
              "year"%string "sales"%string)
    as (data & _ & Hdata & _ & _ & Hdistinct & _ & _ & Htotal & Hsorted).
  - reflexivity.
  - reflexivity.
  - reflexivity.
  - reflexivity.
  - discriminate.
  - discriminate.
  - eexists. split; [reflexivity |]. split; cbn; set_solver.
  - intros record Hin. unfold Fixtures.salesRecords in Hin.
    repeat (apply elem_of_cons in Hin as [-> | Hin]);
      try (split; [reflexivity |];
           split; [intros c [= <-]; vm_compute; discriminate
                  | eexists; reflexivity]).
    now apply elem_of_nil in Hin.
  - vm_compute. discriminate.
  - exists data. repeat split; auto.
    apply Hsorted. left. intros record Hin.
    unfold Fixtures.salesRecords in Hin.
    repeat (apply elem_of_cons in Hin as [-> | Hin]);
      try (eexists; reflexivity).
    now apply elem_of_nil in Hin.
Defined.

(** C1 (counterexample).  Both records carry the fields ["year"] and
    ["sales"], which the chart declares; the first has the category
    [null].  The result is [[{category:2020, value:5}]]: the extracted
    total is [5] while the raw values add up to [15]. *)
Lemma null_category_dropped_from_total :
  let r := Service.extractChartData Fixtures.nullYearHost "w1" in
  Service.retrieveRecords Fixtures.nullYearHost (Fixtures.chartWidget "chart")
  = Returns Fixtures.nullYearRecords /\
  Forall (fun record : DataRecord =>
            map fst record = ["year"; "sales"]%string)
         Fixtures.nullYearRecords /\
  ChartDataExtractionResult.success r = true /\
  ChartDataExtractionResult.categoryField r = Some "year"%string /\
  ChartDataExtractionResult.valueField r = Some "sales"%string /\
  ChartDataExtractionResult.data r
  = Some [ChartDataRecord.mk (JNum 2020) (Fin 5) (Some "2020"%string) None] /\
  totalValue (default [] (ChartDataExtractionResult.data r)) = 5%Z /\
  rawTotal "sales" Fixtures.nullYearRecords = 15%Z.
Proof.
  cbv zeta. repeat split; try (vm_compute; reflexivity).
  repeat constructor.
Qed.

(** Beyond the bound the sums of the code are rounded: the values
    [2 ^ 53] and [1] of one category add up to [2 ^ 53], one less than
    the total of the raw values. *)
Remark sum_beyond_safe_range_is_rounded :
  let records : list DataRecord :=
    [ [("k", JStr "a"); ("v", JNum (2 ^ 53))];
      [("k", JStr "a"); ("v", JNum 1)] ]%string in
  aggregate Fixtures.salesHost (Some "k"%string) (Some "v"%string) records
  = [ChartDataRecord.mk (JStr "a") (Fin (2 ^ 53)) (Some "a"%string) None] /\
  rawTotal "v" records = (2 ^ 53 + 1)%Z.
Proof. cbv zeta. split; vm_compute; reflexivity. Qed.

(** On categories of mixed types the comparator is not an order: with
    code-unit comparison of strings, [2 <= 10] and [10 <= "1a"] but
    ["1a" < 2].  The order of the data is stated for categories of one
    type. *)
Remark compareCategory_mixed_types_cycle :
  let record c := ChartDataRecord.mk c (Fin 0) None None in
  categoryLe Fixtures.salesHost (record (JNum 2)) (record (JNum 10)) /\
  categoryLe Fixtures.salesHost (record (JNum 10)) (record (JStr "1a")) /\
  (compareCategory Fixtures.salesHost (record (JStr "1a")) (record (JNum 2))
   < 0)%Z.
Proof. cbv zeta. unfold categoryLe. repeat split; vm_compute; congruence. Qed.

(** [ceilCount n c] is the ceiling of [n / c]: the least [q] with
    [n <= q * c]. *)
Lemma ceilCount_is_ceiling (n c q : nat) :
  (1 <= c)%nat -> (Service.ceilCount n c <= q)%nat <-> (n <= q * c)%nat.
Proof.
  intros Hc. unfold Service.ceilCount.
  pose proof (Nat.div_mod_eq (n + c - 1) c) as Hdm.
  pose proof (Nat.mod_upper_bound (n + c - 1) c ltac:(lia)) as Hm.
  split; intros H; nia.
Qed.

(** Invert one step of a computation that returned. *)
Ltac bind_inv H :=
  match type of H with
  | bind ?m _ ?w = (Returns _, _) =>
      let a := fresh "a" in
      let w1 := fresh "w" in
      let E := fresh "E" in
      unfold bind at 1 in H;
      destruct (m w) as [[a | ?] w1] eqn:E; [| discriminate H]
  end.

(** The legend of the composed document is that of [legendEntries]: the
    entries of a document returned by the composer are the entries for the
    extracted data, laid out on the configured number of columns (4 when
    none is given), or there is no legend. *)
Lemma composer_legend (h : Host.t) (chartWidgetId : string)
    (options : ProfessionalPdfOptions.t) (w w' : World.t) (blob : Pdf.Blob) :
  Service.generateProfessionalChartPdf h chartWidgetId options w
  = (Returns (Some blob), w') ->
  exists legendData,
    omap columnOf (Pdf.ops blob)
    = omap columnOf
        (Service.legendEntries h
           (default 4%nat (ProfessionalPdfOptions.legendColumns options))
           legendData).
Proof.
  unfold Service.generateProfessionalChartPdf, try_catch.
  destruct (bind (Service.generateProfessionalChartPdf_body h chartWidgetId
                    options) _ w) as [[r | e] w0] eqn:Hbody;
    [| unfold bind, modify, ret;
       destruct (ProfessionalPdfOptions.onProgress options); discriminate].
  intros [= -> ->].
  bind_inv Hbody. injection Hbody as <- <-.
  unfold Service.generateProfessionalChartPdf_body in E.
  cbv zeta in E.
  repeat bind_inv E.
  injection E as <- <-. cbn [Pdf.ops].
  match goal with
  | Hg : (if ChartCaptureResult.success ?c && _ then _ else _) _
         = (Returns ?graphic, _),
    Hl : (if _ && Service.hasData ?d then _ else _) _
         = (Returns ?legend, _) |- _ =>
      assert (Hgraphic : omap columnOf graphic = []);
      [ destruct (ChartCaptureResult.success c
                  && truthy (ChartCaptureResult.dataUrl c));
        [ bind_inv Hg; now injection Hg as <- <-
        | now injection Hg as <- <- ]
      | assert (Hlegend :
          exists legendData,
            omap columnOf legend
            = omap columnOf
                (Service.legendEntries h
                   (default 4%nat
                      (ProfessionalPdfOptions.legendColumns options))
                   legendData));
        [ destruct (default true (ProfessionalPdfOptions.showLegend options)
                    && Service.hasData d);
          [ bind_inv Hl; injection Hl as <- <-;
            exists (default [] (ChartDataExtractionResult.data d));
            reflexivity
          | injection Hl as <- <-; exists []; reflexivity ]
        | ] ]
  end.
  destruct Hlegend as (legendData & Hlegend). exists legendData.
  change (?x :: ?y :: ?l) with ([x; y] ++ l).
  rewrite !omap_app, Hgraphic, Hlegend.
  destruct (truthy (ProfessionalPdfOptions.subtitle options));
    destruct (default true (ProfessionalPdfOptions.showDate options));
    destruct (negb _ || negb _); cbn; now rewrite app_nil_r.
Qed.

(** C6.  For a legend of [N] items laid out on [C >= 1] columns by the
    professional layout, one entry is drawn per item, no column receives
    more than [ceil(N / C)] entries, no entry falls outside the columns
    [0 .. C-1], and the counts of these columns add up to [N].  The same
    holds of every document the composer returns, [C] being the configured
    [legendColumns] (4 by default) and [N] the number of legend entries of
    the document. *)
Theorem legend_columns_balanced (h : Host.t) :
  (forall (legendColumns : nat) (legendData : list ChartDataRecord.t),
      (1 <= legendColumns)%nat ->
      let ops := Service.legendEntries h legendColumns legendData in
      let N := length legendData in
      length ops = N /\
      omap columnOf ops
      = (fun i => Service.columnIndex (Service.ceilCount N legendColumns) i)
          <$> seq 0 N /\
      (forall column,
          (itemsInColumn ops column
           <= Service.ceilCount N legendColumns)%nat) /\
      (forall column,
          (legendColumns <= column)%nat -> itemsInColumn ops column = 0%nat) /\
      sum_list (itemsInColumn ops <$> seq 0 legendColumns) = N) /\
  (forall (chartWidgetId : string) (options : ProfessionalPdfOptions.t)
          (w w' : World.t) (blob : Pdf.Blob),
      Service.generateProfessionalChartPdf h chartWidgetId options w
      = (Returns (Some blob), w') ->
      let C := default 4%nat (ProfessionalPdfOptions.legendColumns options) in
      (1 <= C)%nat ->
      let ops := Pdf.ops blob in
      let N := length (omap columnOf ops) in
      (forall column,
          (itemsInColumn ops column <= Service.ceilCount N C)%nat) /\
      (forall column, (C <= column)%nat -> itemsInColumn ops column = 0%nat) /\
      sum_list (itemsInColumn ops <$> seq 0 C) = N).
Proof.
  split.
  - intros legendColumns legendData HC.
    exact (legendEntries_balanced h legendColumns legendData HC).
  - intros chartWidgetId options w w' blob Hrun C HC ops N.
    destruct (composer_legend h chartWidgetId options w w' blob Hrun)
      as (legendData & Hops).
    fold C ops in Hops.
    destruct (legendEntries_balanced h C legendData HC)
      as (Hlen & Hcols & Hmax & Hout & Hsum).
    cbv zeta in Hlen, Hcols, Hmax, Hout, Hsum.
    assert (HN : N = length legendData).
    { unfold N. rewrite Hops, Hcols, length_fmap, length_seq. reflexivity. }
    assert (Hitems : forall column,
               itemsInColumn ops column
               = itemsInColumn (Service.legendEntries h C legendData) column).
    { intros column. unfold itemsInColumn. now rewrite Hops. }
    rewrite HN. repeat split.
    + intros column. rewrite Hitems. apply Hmax.
    + intros column Hge. rewrite Hitems. now apply Hout.
    + erewrite list_fmap_ext by (intros; apply Hitems). exact Hsum.
Qed.

Lemma legend_columns_balanced_witness :
  let ops :=
    Service.legendEntries Fixtures.salesHost 2
      (replicate 5 (ChartDataRecord.mk (JStr "A") (Fin 1) (Some "A"%string) None))
  in
  length ops = 5%nat /\
  omap columnOf ops = [0; 0; 0; 1; 1]%nat /\
  (forall column, (itemsInColumn ops column <= 3)%nat) /\
  (forall column, (2 <= column)%nat -> itemsInColumn ops column = 0%nat) /\
  sum_list (itemsInColumn ops <$> seq 0 2) = 5%nat.
Proof.
  exact (proj1 (legend_columns_balanced Fixtures.salesHost) 2%nat
           (replicate 5 (ChartDataRecord.mk (JStr "A") (Fin 1)
                           (Some "A"%string) None))
           ltac:(lia)).
Defined.

(* ===================================================================== *)
(** ** The rest of the service: caches, pool and engine *)
(* ===================================================================== *)

(** *** The canvas pool *)

Lemma poolCall_bounded (h : Host.t) (call : PoolCall) (w : World.t) :
  (length (World.canvasPool w) <= Engine.MAX_POOL_SIZE)%nat ->
  fst (poolCall h call w) = Returns tt /\
  (length (World.canvasPool (snd (poolCall h call w)))
   <= Engine.MAX_POOL_SIZE)%nat.
Proof.
  intros Hw. unfold Engine.MAX_POOL_SIZE in *.
  destruct call as [width height | canvas]; cbn [poolCall].
  - unfold Engine.getPooledCanvas, bind, gets, modify, ret; cbn.
    split; [reflexivity |].
    destruct (World.canvasPool w); cbn in *; lia.
  - unfold Engine.returnCanvasToPool, Engine.MAX_POOL_SIZE, bind, gets.
    destruct (Nat.ltb_spec (length (World.canvasPool w)) 3) as [E | E].
    + unfold modify; cbn. split; [reflexivity | lia].
    + split; [reflexivity | exact Hw].
Qed.

(** X1.  The canvas pool never holds more than [MAX_POOL_SIZE] canvases:
    whatever canvases are taken from the pool and given back to it, in
    whatever order, every call returns and a pool of at most three
    canvases still has at most three. *)
Theorem canvas_pool_bounded (h : Host.t) (calls : list PoolCall)
    (w : World.t) :
  (length (World.canvasPool w) <= Engine.MAX_POOL_SIZE)%nat ->
  fst (poolCalls h calls w) = Returns tt /\
  (length (World.canvasPool (snd (poolCalls h calls w)))
   <= Engine.MAX_POOL_SIZE)%nat.
Proof.
  revert w. induction calls as [| call rest IH]; intros w Hw.
  - split; [reflexivity | exact Hw].
  - cbn [poolCalls]. unfold bind.
    destruct (poolCall_bounded h call w Hw) as [Hr Hl].
    destruct (poolCall h call w) as [[[] | e] w1]; cbn in Hr, Hl;
      [| discriminate Hr].
    apply IH, Hl.
Qed.

Lemma canvas_pool_bounded_witness :
  let c := Canvas.mk 10 10 (Native 0) in
  let calls := [GiveBack c; GiveBack c; GiveBack c; GiveBack c;
                TakeCanvas 5 5; GiveBack c] in
  (length (World.canvasPool Fixtures.world0) <= Engine.MAX_POOL_SIZE)%nat /\
  fst (poolCalls Fixtures.salesHost calls Fixtures.world0) = Returns tt /\
  (length (World.canvasPool
             (snd (poolCalls Fixtures.salesHost calls Fixtures.world0)))
   <= Engine.MAX_POOL_SIZE)%nat.
Proof.
  intros c calls.
  split; [cbn; lia |].
  apply (canvas_pool_bounded Fixtures.salesHost calls Fixtures.world0).
  cbn; lia.
Defined.

(** *** The largest canvas *)

Lemma largestFrom_spec (allCanvases : list Canvas.t) (maxArea : Z)
    (largestCanvas : option Canvas.t) :
  match largestCanvas with
  | Some c0 => canvasArea c0 = maxArea /\ (0 < maxArea)%Z
  | None => maxArea = 0%Z
  end ->
  match Engine.largestFrom allCanvases maxArea largestCanvas with
  | Some canvas =>
      (largestCanvas = Some canvas \/ canvas ∈ allCanvases) /\
      (0 < canvasArea canvas)%Z /\
      (maxArea <= canvasArea canvas)%Z /\
      ((Engine.SUFFICIENT_AREA <= canvasArea canvas)%Z \/
       forall c, c ∈ allCanvases -> (canvasArea c <= canvasArea canvas)%Z)
  | None =>
      largestCanvas = None /\
      forall c, c ∈ allCanvases -> (canvasArea c <= 0)%Z
  end.
Proof.
  revert maxArea largestCanvas.
  induction allCanvases as [| canvas rest IH]; intros maxArea largestCanvas Hinv.
  - cbn. destruct largestCanvas as [c0 |].
    + destruct Hinv as [Ha Hp]. repeat split; auto; try lia.
      right. intros c Hc. inversion Hc.
    + split; [reflexivity |]. intros c Hc. inversion Hc.
  - cbn [Engine.largestFrom].
    fold (canvasArea canvas).
    destruct (maxArea <? canvasArea canvas)%Z eqn:Hlt.
    + apply Z.ltb_lt in Hlt.
      assert (0 < canvasArea canvas)%Z as Hpos
        by (destruct largestCanvas; [destruct Hinv |]; lia).
      destruct (Engine.SUFFICIENT_AREA <=? canvasArea canvas)%Z eqn:Hs.
      * apply Z.leb_le in Hs.
        repeat split; auto; try lia. right. left.
      * specialize (IH (canvasArea canvas) (Some canvas) (conj eq_refl Hpos)).
        destruct (Engine.largestFrom rest (canvasArea canvas) (Some canvas))
          as [r |].
        -- destruct IH as (Hin & Hp & Hge & Hmax).
           repeat split; auto; try lia.
           ++ right. destruct Hin as [Hin | Hin].
              ** inversion Hin; subst. left.
              ** right. exact Hin.
           ++ destruct Hmax as [Hmax | Hmax]; [left; exact Hmax | right].
              intros c Hc. apply elem_of_cons in Hc as [-> | Hc]; auto.
        -- destruct IH as [Hn _]. discriminate Hn.
    + apply Z.ltb_ge in Hlt.
      specialize (IH maxArea largestCanvas Hinv).
      destruct (Engine.largestFrom rest maxArea largestCanvas) as [r |].
      * destruct IH as (Hin & Hp & Hge & Hmax).
        repeat split; auto.
        -- destruct Hin as [Hin | Hin]; [left; exact Hin | right; right; exact Hin].
        -- destruct Hmax as [Hmax | Hmax]; [left; exact Hmax | right].
           intros c Hc. apply elem_of_cons in Hc as [-> | Hc]; auto; lia.
      * destruct IH as [Hn Hall]. split; [exact Hn |].
        subst largestCanvas.
        intros c Hc. apply elem_of_cons in Hc as [-> | Hc]; auto; lia.
Qed.

(** X2.  [findLargestCanvas] returns one of the canvases found under the
    element, of positive area; it is a canvas of the greatest area unless
    its area reaches [SUFFICIENT_AREA], in which case the search stopped
    at it; and nothing is returned exactly when no canvas has a positive
    area. *)
Theorem findLargestCanvas_result (h : Host.t) (element : Element) :
  match Engine.findLargestCanvas h element with
  | Some canvas =>
      canvas ∈ Host.findAllCanvases h element /\
      (0 < canvasArea canvas)%Z /\
      ((Engine.SUFFICIENT_AREA <= canvasArea canvas)%Z \/
       forall c, c ∈ Host.findAllCanvases h element ->
                 (canvasArea c <= canvasArea canvas)%Z)
  | None =>
      forall c, c ∈ Host.findAllCanvases h element -> (canvasArea c <= 0)%Z
  end.
Proof.
  unfold Engine.findLargestCanvas.
  pose proof (largestFrom_spec (Host.findAllCanvases h element) 0 None eq_refl)
    as H.
  destruct (Engine.largestFrom (Host.findAllCanvases h element) 0 None)
    as [canvas |].
  - destruct H as ([Hin | Hin] & Hp & _ & Hmax); [discriminate Hin |].
    auto.
  - apply H.
Qed.

(** *** The two caches *)

(** X3.  What is stored is served while it is younger than the TTL of its
    cache, by the two clock readings taken: [setCachedElement] followed by
    [getCachedElement] gives the element back exactly when less than
    [ELEMENT_CACHE_TTL] milliseconds passed between the two readings, and
    [setCachedCapture] followed by [getCachedCapture] the capture exactly
    when less than [CAPTURE_CACHE_TTL] passed, whatever the caches held
    before. *)
Theorem cache_round_trip (chartWidgetId : string) (element : Element)
    (result : ChartCaptureResult.t) (w : World.t) :
  let written := World.clock w (World.reads w) in
  let read := World.clock w (S (World.reads w)) in
  fst (Modular.getCachedElement chartWidgetId
         (snd (Modular.setCachedElement chartWidgetId element w)))
  = Returns (if (read - written <? Modular.ELEMENT_CACHE_TTL)%Z
             then Some element else None) /\
  fst (Modular.getCachedCapture chartWidgetId
         (snd (Modular.setCachedCapture chartWidgetId result w)))
  = Returns (if (read - written <? Modular.CAPTURE_CACHE_TTL)%Z
             then Some result else None).
Proof.
  intros written read. subst written read.
  unfold Modular.getCachedElement, Modular.setCachedElement,
    Modular.getCachedCapture, Modular.setCachedCapture,
    bind, gets, modify, Date_now, ret.
  cbn. rewrite !lookup_insert_eq. cbn.
  split.
  - now destruct (_ <? _)%Z.
  - now destruct (_ <? _)%Z.
Qed.

(** A read of a cache through its TTL, after the sweep and without it. *)
Lemma sweep_then_read {V} (ttl now later : Z) (m : gmap string (V * Z))
    (id : string) :
  (now <= later)%Z ->
  match filter (fun kv : string * (V * Z) => ¬ (ttl < now - (kv.2).2)%Z) m
        !! id with
  | Some (v, timestamp) =>
      if (later - timestamp <? ttl)%Z then Some v else None
  | None => None
  end
  = match m !! id with
    | Some (v, timestamp) =>
        if (later - timestamp <? ttl)%Z then Some v else None
    | None => None
    end.
Proof.
  intros Hmono.
  destruct (m !! id) as [[v timestamp] |] eqn:Hm.
  - destruct (decide (ttl < now - timestamp)%Z) as [Hold | Hfresh].
    + rewrite (proj2 (map_lookup_filter_None _ m id)).
      * destruct (Z.ltb_spec (later - timestamp) ttl); [lia | reflexivity].
      * right. intros x Hx. rewrite Hm in Hx. injection Hx as <-.
        cbn. tauto.
    + rewrite (proj2 (map_lookup_filter_Some _ m id (v, timestamp)));
        [reflexivity | split; [exact Hm | exact Hfresh]].
  - rewrite (proj2 (map_lookup_filter_None _ m id)); [reflexivity |].
    left. exact Hm.
Qed.

(** X4.  The periodic sweep is invisible to the readers of the two caches:
    when the clock does not go backwards, [getCachedCapture] and
    [getCachedElement] return after [cleanExpiredCache] what they would
    have returned at the same instant without it.  The sweep removes the
    entries older than the TTL, which the readers no longer serve. *)
Theorem sweep_is_invisible_to_readers (chartWidgetId : string) (w : World.t) :
  (World.clock w (World.reads w) <= World.clock w (S (World.reads w)))%Z ->
  fst (Modular.getCachedCapture chartWidgetId
         (snd (Modular.cleanExpiredCache w)))
  = fst (Modular.getCachedCapture chartWidgetId (World.tick w)) /\
  fst (Modular.getCachedElement chartWidgetId
         (snd (Modular.cleanExpiredCache w)))
  = fst (Modular.getCachedElement chartWidgetId (World.tick w)).
Proof.
  intros Hmono.
  unfold Modular.getCachedCapture, Modular.getCachedElement,
    Modular.cleanExpiredCache, bind, gets, modify, Date_now, ret.
  cbn.
  pose proof (sweep_then_read Modular.CAPTURE_CACHE_TTL _ _
                (World.captureCache w) chartWidgetId Hmono) as Hc.
  pose proof (sweep_then_read Modular.ELEMENT_CACHE_TTL _ _
                (World.chartElementCache w) chartWidgetId Hmono) as He.
  split.
  - destruct (filter _ (World.captureCache w) !! chartWidgetId)
      as [[r1 t1] |];
      destruct (World.captureCache w !! chartWidgetId) as [[r2 t2] |];
      cbn in *;
      repeat match goal with
        | |- context [(?a <? ?b)%Z] => destruct (a <? b)%Z
        end; cbn; congruence.
  - destruct (filter _ (World.chartElementCache w) !! chartWidgetId)
      as [[r1 t1] |];
      destruct (World.chartElementCache w !! chartWidgetId) as [[r2 t2] |];
      cbn in *;
      repeat match goal with
        | |- context [(?a <? ?b)%Z] => destruct (a <? b)%Z
        end; cbn; congruence.
Qed.

Lemma sweep_is_invisible_to_readers_witness :
  (World.clock Fixtures.staleWorld (World.reads Fixtures.staleWorld)
   <= World.clock Fixtures.staleWorld (S (World.reads Fixtures.staleWorld)))%Z
  /\
  fst (Modular.getCachedCapture "w1"
         (snd (Modular.cleanExpiredCache Fixtures.staleWorld)))
  = fst (Modular.getCachedCapture "w1" (World.tick Fixtures.staleWorld)) /\
  fst (Modular.getCachedElement "w1"
         (snd (Modular.cleanExpiredCache Fixtures.staleWorld)))
  = fst (Modular.getCachedElement "w1" (World.tick Fixtures.staleWorld)).
Proof.
  split; [cbn; lia |].
  apply (sweep_is_invisible_to_readers "w1" Fixtures.staleWorld).
  cbn; lia.
Defined.

Lemma readCaptureCache_miss (id : string) (w : World.t) :
  World.captureCache w !! id = None ->
  Service.readCaptureCache id w = (Returns None, w).
Proof.
  intros Hm. unfold Service.readCaptureCache, bind, gets. now rewrite Hm.
Qed.

Lemma getCachedCapture_miss (id : string) (w : World.t) :
  World.captureCache w !! id = None ->
  Modular.getCachedCapture id w = (Returns None, w).
Proof.
  intros Hm. unfold Modular.getCachedCapture, bind, gets. now rewrite Hm.
Qed.

Lemma Service_capture_without_entry h id options (w : World.t) :
  World.captureCache w !! id = None ->
  Service.captureChartAsImage h id options false w
  = Service.captureChartAsImage h id options true w.
Proof.
  intros Hm. unfold Service.captureChartAsImage, try_catch.
  cbn [negb]. unfold bind at 1 3.
  rewrite (readCaptureCache_miss id w Hm). reflexivity.
Qed.

Lemma Modular_capture_without_entry h id options (w : World.t) :
  World.captureCache w !! id = None ->
  Modular.captureChartAsImage h id options false w
  = Modular.captureChartAsImage h id options true w.
Proof.
  intros Hm. unfold Modular.captureChartAsImage, try_catch.
  cbn [negb]. unfold bind at 1 3.
  rewrite (getCachedCapture_miss id w Hm). reflexivity.
Qed.

(** X5.  Invalidation forces a new capture.  After [invalidateChartCache] for
    a widget, a capture of that widget without [forceRefresh] runs exactly
    as one with [forceRefresh], and the entries of the other widgets are
    where they were; after [cleanupChartPrintResources], and after
    [clearAllCaches] in the modular service, this holds of every
    widget. *)
Theorem invalidation_forces_recapture (h : Host.t) (chartWidgetId : string)
    (options : option ChartPrintOptions.t) (w : World.t) :
  (let w1 := snd (Service.invalidateChartCache chartWidgetId w) in
   Service.captureChartAsImage h chartWidgetId options false w1
   = Service.captureChartAsImage h chartWidgetId options true w1 /\
   forall other, other <> chartWidgetId ->
     World.captureCache w1 !! other = World.captureCache w !! other /\
     World.chartElementCache w1 !! other
     = World.chartElementCache w !! other) /\
  (let w2 := snd (Service.cleanupChartPrintResources w) in
   forall any,
     Service.captureChartAsImage h any options false w2
     = Service.captureChartAsImage h any options true w2) /\
  (let w3 := snd (Modular.clearAllCaches w) in
   forall any,
     Modular.captureChartAsImage h any options false w3
     = Modular.captureChartAsImage h any options true w3).
Proof.
  split; [| split].
  - cbn zeta. split.
    + apply Service_capture_without_entry. cbn. apply lookup_delete_eq.
    + intros other Hne. cbn.
      rewrite !lookup_delete_ne by congruence. split; reflexivity.
  - intros w2 any. apply Service_capture_without_entry. reflexivity.
  - intros w3 any. apply Modular_capture_without_entry. reflexivity.
Qed.

(** *** Frames: what a computation keeps *)

Section Keeps.
Context (R : World.t -> World.t -> Prop) `{!PreOrder R}.

Lemma keeps_ret {A} (a : A) : keeps R (ret a).
Proof using Type*. intros w. reflexivity. Qed.

Lemma keeps_throw {A} (e : Exn) : keeps R (@throw A e).
Proof using Type*. intros w. reflexivity. Qed.

Lemma keeps_lift {A} (o : Outcome A) : keeps R (lift o).
Proof using Type*. intros w. reflexivity. Qed.

Lemma keeps_gets {A} (f : World.t -> A) : keeps R (gets f).
Proof using Type*. intros w. reflexivity. Qed.

Lemma keeps_modify (f : World.t -> World.t) :
  (forall w, R w (f w)) -> keeps R (modify f).
Proof. intros Hf w. apply Hf. Qed.

Lemma keeps_Date_now : (forall w, R w (World.tick w)) -> keeps R Date_now.
Proof. intros Hf w. apply Hf. Qed.

Lemma keeps_bind {A B} (m : M A) (k : A -> M B) :
  keeps R m -> (forall a, keeps R (k a)) -> keeps R (bind m k).
Proof using Type*.
  intros Hm Hk w. unfold bind. specialize (Hm w).
  destruct (m w) as [[a | e] w1]; cbn in *; [| exact Hm].
  etransitivity; [exact Hm | apply Hk].
Qed.

Lemma keeps_try_catch {A} (m : M A) (handler : Exn -> M A) :
  keeps R m -> (forall e, keeps R (handler e)) ->
  keeps R (try_catch m handler).
Proof using Type*.
  intros Hm Hh w. unfold try_catch. specialize (Hm w).
  destruct (m w) as [[a | e] w1]; cbn in *; [exact Hm |].
  etransitivity; [exact Hm | apply Hh].
Qed.
End Keeps.

#[local] Instance drained_preorder : PreOrder drained.
Proof.
  split.
  - intros w. unfold drained. reflexivity.
  - intros a b c Hab Hbc. unfold drained in *. etransitivity; eassumption.
Qed.

#[local] Instance sameProgress_preorder : PreOrder sameProgress.
Proof.
  split.
  - intros w. reflexivity.
  - intros a b c Hab Hbc. unfold sameProgress in *. congruence.
Qed.

Lemma drained_tail w :
  drained w (World.setCanvasPool (tail (World.canvasPool w)) w).
Proof.
  unfold drained. cbn. destruct (World.canvasPool w) as [| c p]; cbn.
  - reflexivity.
  - apply suffix_cons_r. reflexivity.
Qed.

(** Walk through a computation built from the monad's operations, for a
    relation that every update of the caches and of the logs, and every
    reading of the clock, keeps. *)
Ltac keeps_steps :=
  repeat match goal with
    | |- keeps _ (bind _ _) => apply keeps_bind; [typeclasses eauto | | intros ?]
    | |- keeps _ (try_catch _ _) =>
        apply keeps_try_catch; [typeclasses eauto | | intros ?]
    | |- keeps _ (modify _) =>
        apply keeps_modify; intros ?;
        try (unfold drained, sameProgress; cbn; reflexivity)
    | |- keeps _ (ret _) => apply keeps_ret; typeclasses eauto
    | |- keeps _ (throw _) => apply keeps_throw; typeclasses eauto
    | |- keeps _ (lift _) => apply keeps_lift; typeclasses eauto
    | |- keeps _ (gets _) => apply keeps_gets; typeclasses eauto
    | |- keeps _ Date_now =>
        apply keeps_Date_now; intros ?;
        unfold drained, sameProgress; cbn; reflexivity
    | |- keeps _ (match ?x with _ => _ end) => destruct x
    | |- keeps _ (if ?x then _ else _) => destruct x
    | |- keeps _ _ => solve [eauto]
    end.

Lemma drains_getPooledCanvas width height :
  keeps drained (Engine.getPooledCanvas width height).
Proof.
  intros w. unfold Engine.getPooledCanvas, bind, gets, modify, ret. cbn.
  apply drained_tail.
Qed.

Lemma drains_htmlToCanvas h element options :
  keeps drained (Engine.htmlToCanvas h element options).
Proof.
  pose proof drains_getPooledCanvas as Hp.
  unfold Engine.htmlToCanvas, Engine.existingCanvasTechnique,
    Engine.html2canvasTechnique, Engine.svgTechnique.
  keeps_steps.
Qed.

Lemma drains_Service_getChartElement h id :
  keeps drained (Service.getChartElement h id).
Proof.
  unfold Service.getChartElement, Service.readElementCache,
    Service.cacheElement.
  keeps_steps.
Qed.

Lemma drains_Modular_getChartElement h id :
  keeps drained (Modular.getChartElement h id).
Proof.
  unfold Modular.getChartElement, Modular.getCachedElement,
    Modular.setCachedElement.
  keeps_steps.
Qed.

Lemma drains_Service_capture h id options forceRefresh :
  keeps drained (Service.captureChartAsImage h id options forceRefresh).
Proof.
  pose proof (drains_htmlToCanvas h) as Hc.
  pose proof (drains_Service_getChartElement h id) as He.
  unfold Service.captureChartAsImage, Service.readCaptureCache,
    Service.cacheCapture, Service.htmlToCanvas.
  keeps_steps.
Qed.

Lemma drains_Modular_capture h id options forceRefresh :
  keeps drained (Modular.captureChartAsImage h id options forceRefresh).
Proof.
  pose proof (drains_htmlToCanvas h) as Hc.
  pose proof (drains_Modular_getChartElement h id) as He.
  unfold Modular.captureChartAsImage, Modular.getCachedCapture,
    Modular.setCachedCapture, Modular.htmlToCanvas.
  keeps_steps.
Qed.

(** X6.  The capture pipeline only ever takes canvases from the pool: after
    [captureChartAsImage], in either service, the pool is a suffix of the
    pool before the call.  Nothing in the pipeline gives a canvas back, so
    a pool that is empty, as it is when the module is loaded, is empty
    after every capture. *)
Theorem capture_only_drains_the_pool (h : Host.t) (chartWidgetId : string)
    (options : option ChartPrintOptions.t) (forceRefresh : bool)
    (w : World.t) :
  let w1 :=
    snd (Service.captureChartAsImage h chartWidgetId options forceRefresh w) in
  let w2 :=
    snd (Modular.captureChartAsImage h chartWidgetId options forceRefresh w) in
  World.canvasPool w1 `suffix_of` World.canvasPool w /\
  World.canvasPool w2 `suffix_of` World.canvasPool w /\
  (World.canvasPool w = [] ->
   World.canvasPool w1 = [] /\ World.canvasPool w2 = []).
Proof.
  intros w1 w2.
  pose proof (drains_Service_capture h chartWidgetId options forceRefresh w)
    as H1.
  pose proof (drains_Modular_capture h chartWidgetId options forceRefresh w)
    as H2.
  unfold drained in H1, H2. fold w1 in H1. fold w2 in H2.
  split; [exact H1 | split; [exact H2 |]].
  intros Hempty. rewrite Hempty in H1, H2.
  split; now apply suffix_nil_inv.
Qed.

(* ===================================================================== *)
(** ** The rest of the service: extraction *)
(* ===================================================================== *)

Lemma aggregate_records (h : Host.t) (categoryField valueField : option string)
    (records : list DataRecord) (x : ChartDataRecord.t) :
  x ∈ aggregate h categoryField valueField records ->
  exists c v,
    (c, v) ∈ fold_left (aggregateRecord h categoryField valueField) records []
    /\ x = ChartDataRecord.mk c v (Some (toString c)) None.
Proof.
  unfold aggregate. rewrite Array_sort_Permutation.
  intros Hx. apply list_elem_of_fmap in Hx as ([c v] & -> & Hin).
  exists c, v. split; [exact Hin | reflexivity].
Qed.

Lemma aggregate_length (h : Host.t) (categoryField valueField : option string)
    (records : list DataRecord) :
  (length (aggregate h categoryField valueField records) <= length records)%nat.
Proof.
  destruct (aggregate_spec h categoryField valueField records)
    as (Hnd & Hcat).
  cbv zeta in Hcat.
  set (data := aggregate h categoryField valueField records) in *.
  set (counted :=
         filter (fun record =>
                   is_nullish (prop record categoryField) = false) records)
    in *.
  assert (Hsub : map ChartDataRecord.category data
                 ⊆+ map (fun record => prop record categoryField) counted).
  { apply NoDup_submseteq; [exact Hnd |].
    intros c Hc. apply Hcat in Hc as (record & Hr & <-).
    apply list_elem_of_fmap. exists record. auto. }
  apply submseteq_length in Hsub.
  rewrite !length_map in Hsub.
  pose proof (length_filter
                (fun record => is_nullish (prop record categoryField) = false)
                records) as Hf.
  fold counted in Hf. lia.
Qed.

(** A rounded integer is a number. *)
Lemma roundDouble_number (n : Z) : roundDouble n <> NaN.
Proof.
  unfold roundDouble. cbv zeta.
  destruct (Z.abs n <=? 2 ^ 53)%Z; [discriminate |].
  match goal with |- (if ?c then _ else _) <> _ => destruct c end;
    discriminate.
Qed.

Lemma Map_set_Forall (P : JsValue * Num -> Prop) (m : JsMap) (k : JsValue)
    (v : Num) :
  (forall k', P (k', v)) -> Forall P m -> Forall P (Map_set m k v).
Proof.
  intros Hv. induction 1 as [| [k' v'] m Hx Hm IH]; cbn.
  - repeat constructor. apply Hv.
  - destruct (decide (k' = k)); constructor; auto.
Qed.

(** The loop stores [NaN] only by adding infinities of opposite signs:
    when no value added is an infinity, no value of the map is [NaN]. *)
Lemma aggregate_loop_numbers (h : Host.t)
    (categoryField valueField : option string) (records : list DataRecord) :
  forall m : JsMap,
    Forall (fun record =>
              forall negative,
                parseFloatValue h (prop record valueField) <> Inf negative)
           records ->
    Forall (fun entry : JsValue * Num => snd entry <> NaN) m ->
    Forall (fun entry : JsValue * Num => snd entry <> NaN)
           (fold_left (aggregateRecord h categoryField valueField) records m).
Proof.
  induction records as [| record records IH]; intros m Hrecords Hm;
    [exact Hm |].
  apply Forall_cons in Hrecords as [Hrecord Hrecords].
  cbn [fold_left]. apply IH; [exact Hrecords |].
  unfold aggregateRecord.
  destruct (negb (is_nullish (prop record categoryField))); [| exact Hm].
  apply Map_set_Forall; [| exact Hm].
  intros k'. cbn [snd].
  destruct (parseFloatValue h (prop record valueField))
    as [| b | negative] eqn:Hv;
    [| | now destruct (Hrecord negative)]; cbn [orZero];
    (destruct (Map_get m (prop record categoryField)) as [[| a | s] |];
     cbn [orZero addNum]; try discriminate; apply roundDouble_number).
Qed.

(** X7.  The records of the query-engine strategy are well formed.  Whenever
    [extractChartData] reports data, it reports success and a positive
    number of source records that is at least the number of categories;
    no category is [null] or [undefined], every label is
    [String(category)] and no record carries a colour.  A value can be
    [NaN], which the sum of two infinities of opposite signs is; but when
    no retrieved record holds an infinity under the value field that the
    result names, no value is [NaN]. *)
Theorem extractChartData_records_well_formed (h : Host.t)
    (chartWidgetId : string) (data : list ChartDataRecord.t) :
  let r := Service.extractChartData h chartWidgetId in
  ChartDataExtractionResult.data r = Some data ->
  ChartDataExtractionResult.success r = true /\
  (exists n, ChartDataExtractionResult.totalRecords r = Some n /\
             (0 < n)%nat /\ (length data <= n)%nat) /\
  Forall (fun x =>
            is_nullish (ChartDataRecord.category x) = false /\
            ChartDataRecord.label x
            = Some (toString (ChartDataRecord.category x)) /\
            ChartDataRecord.color x = None) data /\
  exists widget records,
    Service.getChartWidgetInfo h chartWidgetId = Returns (Some widget) /\
    Service.retrieveRecords h widget = Returns records /\
    ((forall record negative,
         record ∈ records ->
         parseFloatValue h
           (prop record (ChartDataExtractionResult.valueField r))
         <> Inf negative) ->
     Forall (fun x => ChartDataRecord.value x <> NaN) data).
Proof.
  intros r Hdata. subst r.
  pose proof (extractChartData_data_success h chartWidgetId data Hdata) as Hs.
  split; [exact Hs |].
  destruct (extractChartData_success h chartWidgetId Hs)
    as (widget & sample & rest & Hw & Hr & Hd & _ & Hvf & Hn).
  cbv zeta in Hd, Hvf, Hn. rewrite Hd in Hdata. injection Hdata as <-.
  split; [| split].
  - exists (length (sample :: rest)). split; [exact Hn |].
    split; [cbn; lia | apply aggregate_length].
  - apply Forall_forall. intros x Hx.
    destruct (aggregate_spec h
                (Service.detectCategoryField (map fst sample)
                   (Service.configuredCategoryField widget))
                (Service.detectValueField h sample (map fst sample)
                   (Service.configuredValueField widget))
                (sample :: rest)) as (_ & Hcat).
    cbv zeta in Hcat.
    assert (Hc : ChartDataRecord.category x
                 ∈ map ChartDataRecord.category
                     (aggregate h
                        (Service.detectCategoryField (map fst sample)
                           (Service.configuredCategoryField widget))
                        (Service.detectValueField h sample (map fst sample)
                           (Service.configuredValueField widget))
                        (sample :: rest))).
    { apply list_elem_of_fmap. exists x. auto. }
    apply Hcat in Hc as (record & Hr' & Hrc).
    apply list_elem_of_filter in Hr' as [Hnn _].
    rewrite Hrc in Hnn.
    destruct (aggregate_records _ _ _ _ _ Hx) as (c & v & _ & ->).
    cbn in *. auto.
  - exists widget, (sample :: rest).
    split; [exact Hw |]. split; [exact Hr |].
    rewrite Hvf. intros Hfinite.
    apply Forall_forall. intros x Hx.
    destruct (aggregate_records _ _ _ _ _ Hx) as (c & v & Hin & ->).
    cbn [ChartDataRecord.value].
    assert (Hrecords :
      Forall (fun record =>
                forall negative,
                  parseFloatValue h
                    (prop record
                       (Service.detectValueField h sample (map fst sample)
                          (Service.configuredValueField widget)))
                  <> Inf negative) (sample :: rest)).
    { apply Forall_forall. intros record Hrec negative.
      now apply Hfinite. }
    pose proof (aggregate_loop_numbers h
                  (Service.detectCategoryField (map fst sample)
                     (Service.configuredCategoryField widget))
                  (Service.detectValueField h sample (map fst sample)
                     (Service.configuredValueField widget))
                  (sample :: rest) [] Hrecords (Forall_nil_2 _)) as Hloop.
    rewrite Forall_forall in Hloop. exact (Hloop (c, v) Hin).
Qed.

Lemma extractChartData_records_well_formed_witness :
  let r := Service.extractChartData Fixtures.nullYearHost "w1" in
  let data :=
    [ChartDataRecord.mk (JNum 2020) (Fin 5) (Some "2020"%string) None] in
  ChartDataExtractionResult.data r = Some data /\
  ChartDataExtractionResult.success r = true /\
  (exists n, ChartDataExtractionResult.totalRecords r = Some n /\
             (0 < n)%nat /\ (length data <= n)%nat) /\
  Forall (fun x =>
            is_nullish (ChartDataRecord.category x) = false /\
            ChartDataRecord.label x
            = Some (toString (ChartDataRecord.category x)) /\
            ChartDataRecord.color x = None) data /\
  exists widget records,
    Service.getChartWidgetInfo Fixtures.nullYearHost "w1"
    = Returns (Some widget) /\
    Service.retrieveRecords Fixtures.nullYearHost widget = Returns records /\
    ((forall record negative,
         record ∈ records ->
         parseFloatValue Fixtures.nullYearHost
           (prop record (ChartDataExtractionResult.valueField r))
         <> Inf negative) ->
     Forall (fun x => ChartDataRecord.value x <> NaN) data).
Proof.
  cbv zeta. split; [vm_compute; reflexivity |].
  exact (extractChartData_records_well_formed Fixtures.nullYearHost "w1"
           [ChartDataRecord.mk (JNum 2020) (Fin 5) (Some "2020"%string) None]
           ltac:(vm_compute; reflexivity)).
Defined.

(** The value is [NaN] when the records of a category hold infinities of
    opposite signs: here [1e400] and [-1e400], which are read as
    [Infinity] and [-Infinity]. *)
Remark opposite_infinities_add_up_to_NaN :
  aggregate Fixtures.salesHost (Some "k"%string) (Some "v"%string)
    [ [("k", JStr "a"); ("v", JNum (10 ^ 400))];
      [("k", JStr "a"); ("v", JNum (- 10 ^ 400))] ]%string
  = [ChartDataRecord.mk (JStr "a") NaN (Some "a"%string) None].
Proof. vm_compute. reflexivity. Qed.

Lemma fieldKnown_elem (fields : list string) (f : string) :
  fieldKnown fields (Some f) = true -> f ∈ fields.
Proof.
  cbn. intros H. apply existsb_exists in H as (x & Hin & Heq).
  apply String.eqb_eq in Heq as ->. now apply list_elem_of_In.
Qed.

Lemma find_elem {A} (p : A -> bool) (l : list A) (x : A) :
  find p l = Some x -> x ∈ l.
Proof.
  intros H. apply find_some in H as [Hin _]. now apply list_elem_of_In.
Qed.

Lemma detectCategoryField_in_sample (sampleFields : list string)
    (categoryField : option string) :
  sampleFields <> [] ->
  exists f, Service.detectCategoryField sampleFields categoryField = Some f /\
            f ∈ sampleFields.
Proof.
  intros Hne. unfold Service.detectCategoryField.
  destruct (truthy categoryField) eqn:Ht; cbn [negb orb].
  - destruct (fieldKnown sampleFields categoryField) eqn:Hk; cbn [negb].
    + destruct categoryField as [f |]; [| discriminate Ht].
      exists f. split; [reflexivity | now apply fieldKnown_elem].
    + unfold orStr.
      destruct (find looksLikeCategory sampleFields) as [f |] eqn:Hf.
      * destruct (truthy (Some f)).
        -- exists f. split; [reflexivity | now apply find_elem in Hf].
        -- destruct sampleFields as [| f0 rest]; [contradiction |].
           exists f0. split; [reflexivity | left].
      * cbn. destruct sampleFields as [| f0 rest]; [contradiction |].
        exists f0. split; [reflexivity | left].
  - unfold orStr.
    destruct (find looksLikeCategory sampleFields) as [f |] eqn:Hf.
    + destruct (truthy (Some f)).
      * exists f. split; [reflexivity | now apply find_elem in Hf].
      * destruct sampleFields as [| f0 rest]; [contradiction |].
        exists f0. split; [reflexivity | left].
    + cbn. destruct sampleFields as [| f0 rest]; [contradiction |].
      exists f0. split; [reflexivity | left].
Qed.

Lemma detectValueField_in_sample (h : Host.t) (sampleData : DataRecord)
    (sampleFields : list string) (valueField : option string) (f : string) :
  Service.detectValueField h sampleData sampleFields valueField = Some f ->
  f ∈ sampleFields.
Proof.
  unfold Service.detectValueField.
  set (numeric := fun f0 : string => _).
  assert (Hauto : orStr (find numeric sampleFields) (sampleFields !! 1%nat)
                  = Some f -> f ∈ sampleFields).
  { unfold orStr.
    destruct (find numeric sampleFields) as [g |] eqn:Hg.
    - destruct (truthy (Some g)).
      + intros [= <-]. now apply find_elem in Hg.
      + intros Hl. now apply list_elem_of_lookup_2 in Hl.
    - cbn. intros Hl. now apply list_elem_of_lookup_2 in Hl. }
  destruct (truthy valueField) eqn:Ht; cbn [negb orb]; [| exact Hauto].
  destruct (fieldKnown sampleFields valueField) eqn:Hk; cbn [negb];
    [| exact Hauto].
  intros ->. now apply fieldKnown_elem.
Qed.

(** X8.  The fields a successful extraction names are fields of the first
    retrieved record, whether they were configured or detected: the
    category field always, as soon as that record has a field at all, and
    the value field whenever one is named (none is when the record has a
    single field that is not numeric). *)
Theorem extracted_fields_belong_to_first_record (h : Host.t)
    (chartWidgetId : string) :
  let r := Service.extractChartData h chartWidgetId in
  ChartDataExtractionResult.success r = true ->
  exists widget sample rest,
    Service.getChartWidgetInfo h chartWidgetId = Returns (Some widget) /\
    Service.retrieveRecords h widget = Returns (sample :: rest) /\
    (sample <> [] ->
     exists f, ChartDataExtractionResult.categoryField r = Some f /\
               f ∈ map fst sample) /\
    (forall g, ChartDataExtractionResult.valueField r = Some g ->
               g ∈ map fst sample).
Proof.
  intros r Hs. subst r.
  destruct (extractChartData_success h chartWidgetId Hs)
    as (widget & sample & rest & Hw & Hr & _ & Hc & Hv & _).
  cbv zeta in Hc, Hv.
  exists widget, sample, rest. split; [exact Hw |]. split; [exact Hr |].
  split.
  - intros Hne. rewrite Hc. apply detectCategoryField_in_sample.
    now destruct sample.
  - intros g Hg. rewrite Hv in Hg.
    now apply detectValueField_in_sample in Hg.
Qed.

Lemma extracted_fields_belong_to_first_record_witness :
  ChartDataExtractionResult.success
    (Service.extractChartData Fixtures.salesHost "w1") = true /\
  exists widget sample rest,
    Service.getChartWidgetInfo Fixtures.salesHost "w1"
    = Returns (Some widget) /\
    Service.retrieveRecords Fixtures.salesHost widget
    = Returns (sample :: rest) /\
    (sample <> [] ->
     exists f,
       ChartDataExtractionResult.categoryField
         (Service.extractChartData Fixtures.salesHost "w1") = Some f /\
       f ∈ map fst sample) /\
    (forall g,
        ChartDataExtractionResult.valueField
          (Service.extractChartData Fixtures.salesHost "w1") = Some g ->
        g ∈ map fst sample).
Proof.
  split; [vm_compute; reflexivity |].
  apply (extracted_fields_belong_to_first_record Fixtures.salesHost "w1").
  vm_compute; reflexivity.
Defined.

(** *** The DOM-parsing strategy and the combined extraction *)

Lemma Forall_omap {A B} (f : A -> option B) (P : B -> Prop) (l : list A) :
  (forall a b, f a = Some b -> P b) -> Forall P (omap f l).
Proof.
  intros Hf. induction l as [| a l IH]; cbn; [constructor |].
  destruct (f a) as [b |] eqn:E; [constructor; eauto | exact IH].
Qed.

Lemma paletteColor_some (index : nat) :
  exists c, paletteColor index = Some c /\ c <> EmptyString.
Proof.
  unfold paletteColor.
  assert (Hlt : (index mod length CHART_COLORS < length CHART_COLORS)%nat)
    by (apply Nat.mod_upper_bound; cbn; lia).
  destruct (lookup_lt_is_Some_2 _ _ Hlt) as [c Hc].
  exists c. split; [exact Hc |].
  assert (Hall : Forall (fun c => c <> EmptyString) CHART_COLORS)
    by (repeat constructor; discriminate).
  rewrite Forall_lookup in Hall. exact (Hall _ _ Hc).
Qed.

(** The shape of a record read from the DOM. *)
Lemma domRecords_shape (h : Host.t) (chartElement : Element) :
  Forall (fun x =>
            exists s color,
              ChartDataRecord.category x = JStr s /\ s <> EmptyString /\
              ChartDataRecord.label x = Some s /\
              ChartDataRecord.color x = Some color /\
              color <> EmptyString)
    (Service.domRecords h chartElement).
Proof.
  set (P := fun x : ChartDataRecord.t => _).
  assert (H1 : Forall P (omap (Service.legendRecord h)
                           (Host.legendItems h chartElement))).
  { apply Forall_omap. intros item x. unfold Service.legendRecord.
    set (label := orLit _ EmptyString).
    destruct (String.eqb_spec label EmptyString) as [| Hne]; [discriminate |].
    intros [= <-]. subst P. cbn.
    eexists label, _. repeat split; auto.
    destruct (LegendItem.swatchBackground item) as [bg |]; [| discriminate].
    destruct (String.eqb_spec bg EmptyString) as [| Hbg]; cbn;
      [discriminate |].
    destruct (String.eqb bg "rgba(0, 0, 0, 0)"); cbn;
      [discriminate | exact Hbg]. }
  assert (H2 : forall l, Forall P (Service.collectIndexed
                                     Service.shadowRecord l)).
  { intros l. apply Forall_omap. intros [index item] x.
    unfold Service.shadowRecord. cbn [fst snd].
    set (text := orLit _ EmptyString).
    destruct (String.eqb_spec text EmptyString) as [| Hne]; [discriminate |].
    intros [= <-]. subst P. cbn.
    destruct (paletteColor_some index) as (c & -> & Hc).
    exists text, c. auto. }
  assert (H3 : forall l, Forall P (Service.collectIndexed
                                     (Service.attributeRecord h) l)).
  { intros l. apply Forall_omap. intros [index el] x.
    unfold Service.attributeRecord. cbn [fst snd].
    set (category := orLit _ EmptyString).
    destruct (String.eqb_spec category EmptyString) as [| Hne];
      [discriminate |].
    intros [= <-]. subst P. cbn.
    destruct (paletteColor_some index) as (c & -> & Hc).
    exists category, c. auto. }
  unfold Service.domRecords.
  destruct (omap (Service.legendRecord h) (Host.legendItems h chartElement))
    as [| x1 l1]; [| exact H1].
  destruct (Host.shadowLegend h chartElement) as [shadowLegend |].
  - specialize (H2 shadowLegend).
    destruct (Service.collectIndexed Service.shadowRecord shadowLegend);
      [apply H3 | exact H2].
  - apply H3.
Qed.

(** The ways [extractChartDataFromDOM] ends. *)
Lemma extractChartDataFromDOM_cases (h : Host.t) (chartWidgetId : string)
    (w : World.t) :
  exists r w',
    Service.extractChartDataFromDOM h chartWidgetId w = (Returns r, w') /\
    ((exists msg, r = ChartDataExtractionResult.failure msg) \/
     (exists chartElement widgetInfo title type x data,
         Service.getChartWidgetInfo h chartWidgetId = Returns widgetInfo /\
         Service.domRecords h chartElement = x :: data /\
         r = ChartDataExtractionResult.mk true (Some (x :: data))
               (Some title) (Some type) None None
               (Some (length (x :: data))) None)).
Proof.
  unfold Service.extractChartDataFromDOM, try_catch, bind.
  destruct (Service.getChartElement h chartWidgetId w)
    as [[[chartElement |] | e] w1]; cbn.
  - unfold lift.
    destruct (Service.getChartWidgetInfo h chartWidgetId)
      as [widgetInfo | e] eqn:Hw; cbn.
    + destruct (Service.domRecords h chartElement) as [| x data] eqn:Hd; cbn.
      * eexists _, _. split; [reflexivity |]. left. eauto.
      * eexists _, _. split; [reflexivity |]. right.
        exists chartElement, widgetInfo. eauto 10.
    + eexists _, _. split; [reflexivity |]. left. eauto.
  - eexists _, _. split; [reflexivity |]. left. eauto.
  - eexists _, _. split; [reflexivity |]. left. eauto.
Qed.

(** X9.  [extractChartDataFromDOM] never throws, and a result it reports as a
    success carries at least one record, counts exactly the records it
    carries, names no field, and holds only records whose category is a
    non-empty string, repeated as the label, with a non-empty colour; a
    failure carries no data and an error message. *)
Theorem dom_extraction_shape (h : Host.t) (chartWidgetId : string)
    (w : World.t) :
  exists r w',
    Service.extractChartDataFromDOM h chartWidgetId w = (Returns r, w') /\
    if ChartDataExtractionResult.success r then
      exists data,
        ChartDataExtractionResult.data r = Some data /\
        data <> [] /\
        ChartDataExtractionResult.totalRecords r = Some (length data) /\
        ChartDataExtractionResult.categoryField r = None /\
        ChartDataExtractionResult.valueField r = None /\
        Forall (fun x =>
                  exists s color,
                    ChartDataRecord.category x = JStr s /\
                    s <> EmptyString /\
                    ChartDataRecord.label x = Some s /\
                    ChartDataRecord.color x = Some color /\
                    color <> EmptyString) data
    else
      ChartDataExtractionResult.data r = None /\
      exists msg, ChartDataExtractionResult.error r = Some msg.
Proof.
  destruct (extractChartDataFromDOM_cases h chartWidgetId w)
    as (r & w' & Hrun & [(msg & ->) | Hok]).
  - eexists _, w'. split; [exact Hrun |]. cbn. eauto.
  - destruct Hok as (chartElement & widgetInfo & title & type & x & data
                     & _ & Hd & ->).
    eexists _, w'. split; [exact Hrun |]. cbn.
    exists (x :: data).
    split; [reflexivity |]. split; [discriminate |].
    split; [reflexivity |]. split; [reflexivity |]. split; [reflexivity |].
    rewrite <- Hd. apply domRecords_shape.
Qed.

Lemma hasData_failure (msg : string) :
  Service.hasData (ChartDataExtractionResult.failure msg) = false.
Proof. reflexivity. Qed.

Lemma getChartWidgetInfo_throws (h : Host.t) (chartWidgetId : string)
    (e : Exn) :
  Service.getChartWidgetInfo h chartWidgetId = Throws e <->
  chartWidgetId <> EmptyString /\ Host.widgets h = Throws e.
Proof.
  unfold Service.getChartWidgetInfo.
  destruct (String.eqb_spec chartWidgetId EmptyString) as [-> | Hne].
  - split; [discriminate | intros [Hc _]; now destruct Hc].
  - destruct (Host.widgets h) as [[ws |] | e0]; cbn.
    + split; [discriminate | intros [_ Hc]; discriminate Hc].
    + split; [discriminate | intros [_ Hc]; discriminate Hc].
    + split; [intros [= ->]; auto | intros [_ [= ->]]; reflexivity].
Qed.

(** X10.  The combined extraction.  A result [extractChartDataComplete] reports
    as a success always carries at least one record (which
    [extractChartData] alone does not guarantee).  And although each of
    its two strategies catches every exception, the combined function can
    throw: it does exactly when the identifier is not empty and reading
    the widgets of the application store throws, with that exception. *)
Theorem extractChartDataComplete_outcome (h : Host.t)
    (chartWidgetId : string) (w : World.t) :
  (forall r w',
      Service.extractChartDataComplete h chartWidgetId w = (Returns r, w') ->
      ChartDataExtractionResult.success r = true ->
      exists x data, ChartDataExtractionResult.data r = Some (x :: data)) /\
  (forall e,
      fst (Service.extractChartDataComplete h chartWidgetId w) = Throws e <->
      chartWidgetId <> EmptyString /\ Host.widgets h = Throws e).
Proof.
  assert (Hhas : forall r, Service.hasData r = true ->
                           exists x data,
                             ChartDataExtractionResult.data r
                             = Some (x :: data)).
  { intros r. unfold Service.hasData.
    destruct (ChartDataExtractionResult.success r); [| discriminate].
    destruct (ChartDataExtractionResult.data r) as [[| x data] |];
      try discriminate. eauto. }
  unfold Service.extractChartDataComplete.
  destruct (Service.hasData (Service.extractChartData h chartWidgetId))
    eqn:H1.
  - unfold ret. split.
    + intros r w' [= <- <-] _. now apply Hhas.
    + intros e. cbn. split; [discriminate |].
      intros [Hne Hw]. exfalso.
      assert (Hf : Service.extractChartData h chartWidgetId
                   = ChartDataExtractionResult.failure
                       (messageOr e "Erreur inconnue")).
      { unfold Service.extractChartData, Service.extractChartData_body.
        rewrite (proj2 (getChartWidgetInfo_throws h chartWidgetId e)
                   (conj Hne Hw)). reflexivity. }
      rewrite Hf, hasData_failure in H1. discriminate H1.
  - unfold bind, lift, ret.
    destruct (extractChartDataFromDOM_cases h chartWidgetId w)
      as (r2 & w2 & Hrun & Hcases).
    rewrite !Hrun.
    destruct (Service.hasData r2) eqn:H2.
    + split.
      * intros r w' [= <- <-] _. now apply Hhas.
      * intros e. cbn. split; [discriminate |].
        intros Hw. apply getChartWidgetInfo_throws in Hw.
        destruct Hcases as [(msg & ->) | Hok];
          [rewrite hasData_failure in H2; discriminate H2 |].
        destruct Hok as (? & widgetInfo & ? & ? & ? & ? & Hwi & _).
        rewrite Hwi in Hw. discriminate Hw.
    + destruct (Service.getChartWidgetInfo h chartWidgetId)
        as [[widgetInfo |] | e0] eqn:Hwi; cbn.
      * split; [intros r w' [= <- <-]; discriminate |].
        intros e. split; [discriminate |].
        intros Hw. apply getChartWidgetInfo_throws in Hw.
        rewrite Hwi in Hw. discriminate Hw.
      * split; [intros r w' [= <- <-]; discriminate |].
        intros e. split; [discriminate |].
        intros Hw. apply getChartWidgetInfo_throws in Hw.
        rewrite Hwi in Hw. discriminate Hw.
      * split; [intros r w'; discriminate |].
        intros e. rewrite <- getChartWidgetInfo_throws, Hwi.
        split; [intros [= ->]; reflexivity | intros [= ->]; reflexivity].
Qed.

(* ===================================================================== *)
(** ** The rest of the service: the professional layout *)
(* ===================================================================== *)

Lemma cells_of_imap (g : nat -> ChartDataRecord.t -> Pdf.Op)
    (c : nat -> nat * nat) (l : list ChartDataRecord.t) :
  (forall i x, cellOf (g i x) = Some (c i)) ->
  omap cellOf (imap g l) = c <$> seq 0 (length l).
Proof.
  revert g c. induction l as [|x l IH]; intros g c Hg; [reflexivity |].
  rewrite imap_cons. cbn [omap list_omap length seq fmap list_fmap].
  rewrite Hg. f_equal.
  rewrite (IH (g ∘ S) (c ∘ S)) by (intros; apply Hg).
  rewrite <- fmap_S_seq, <- list_fmap_compose. reflexivity.
Qed.

Lemma ceilCount_positive (n c : nat) :
  (1 <= c)%nat -> (1 <= n)%nat -> (1 <= Service.ceilCount n c)%nat.
Proof.
  intros Hc Hn.
  destruct (Service.ceilCount n c) as [| d] eqn:E; [| lia].
  pose proof (ceilCount_covers n c Hc) as H. rewrite E in H. lia.
Qed.

(** X11.  The legend is laid out on a grid.  With at least one column, every
    item of the legend gets a cell of its own: no two entries have the
    same column and row, every column index is below [legendColumns] and
    every row index below [ceil(N / legendColumns)]. *)
Theorem legend_cells_distinct (h : Host.t) (legendColumns : nat)
    (legendData : list ChartDataRecord.t) :
  (0 < legendColumns)%nat ->
  let cells :=
    omap cellOf (Service.legendEntries h legendColumns legendData) in
  length cells = length legendData /\
  NoDup cells /\
  Forall (fun cell =>
            (fst cell < legendColumns)%nat /\
            (snd cell
             < Service.ceilCount (length legendData) legendColumns)%nat)
    cells.
Proof.
  intros Hc cells. subst cells.
  unfold Service.legendEntries. cbv zeta.
  set (d := Service.ceilCount (length legendData) legendColumns).
  rewrite (cells_of_imap _ (fun i => (i / d, i mod d)%nat))
    by (intros; reflexivity).
  split; [now rewrite length_fmap, length_seq |].
  destruct (decide (length legendData = 0)%nat) as [Hz | Hnz].
  { rewrite Hz. cbn. split; constructor. }
  assert (Hd : (1 <= d)%nat) by (apply ceilCount_positive; lia).
  pose proof (ceilCount_covers (length legendData) legendColumns Hc) as Hcov.
  fold d in Hcov.
  split.
  - apply NoDup_fmap_2_strong; [| apply NoDup_seq].
    intros i j _ _ [= Hq Hr].
    rewrite (Nat.div_mod_eq i d), (Nat.div_mod_eq j d). congruence.
  - apply Forall_fmap, Forall_forall. intros i Hi.
    apply elem_of_seq in Hi. cbn [fst snd].
    split.
    + apply Nat.Div0.div_lt_upper_bound. lia.
    + apply Nat.mod_upper_bound. lia.
Qed.

Lemma legend_cells_distinct_witness :
  (0 < 2)%nat /\
  length (omap cellOf
            (Service.legendEntries Fixtures.salesHost 2
               (replicate 5 (ChartDataRecord.mk (JStr "a") (Fin 1)
                               (Some "a"%string) None))))
  = 5%nat /\
  NoDup (omap cellOf
           (Service.legendEntries Fixtures.salesHost 2
              (replicate 5 (ChartDataRecord.mk (JStr "a") (Fin 1)
                              (Some "a"%string) None)))) /\
  Forall (fun cell => (fst cell < 2)%nat /\ (snd cell < 3)%nat)
    (omap cellOf
       (Service.legendEntries Fixtures.salesHost 2
          (replicate 5 (ChartDataRecord.mk (JStr "a") (Fin 1)
                          (Some "a"%string) None)))).
Proof.
  split; [lia |].
  exact (legend_cells_distinct Fixtures.salesHost 2
           (replicate 5 (ChartDataRecord.mk (JStr "a") (Fin 1)
                           (Some "a"%string) None)) ltac:(lia)).
Defined.

(** *** What the progress callback receives *)

Lemma silent_htmlToCanvas h element options :
  keeps sameProgress (Engine.htmlToCanvas h element options).
Proof.
  unfold Engine.htmlToCanvas, Engine.existingCanvasTechnique,
    Engine.html2canvasTechnique, Engine.svgTechnique, Engine.getPooledCanvas.
  keeps_steps.
Qed.

Lemma silent_getChartElement h id :
  keeps sameProgress (Service.getChartElement h id).
Proof.
  unfold Service.getChartElement, Service.readElementCache,
    Service.cacheElement.
  keeps_steps.
Qed.

Lemma silent_capture h id options forceRefresh :
  keeps sameProgress (Service.captureChartAsImage h id options forceRefresh).
Proof.
  pose proof (silent_htmlToCanvas h) as Hc.
  pose proof (silent_getChartElement h id) as He.
  unfold Service.captureChartAsImage, Service.readCaptureCache,
    Service.cacheCapture, Service.htmlToCanvas.
  keeps_steps.
Qed.

Lemma silent_raceCapture h id timeout forceRefresh :
  keeps sameProgress (Service.raceCapture h id timeout forceRefresh).
Proof.
  pose proof (silent_capture h id) as Hc.
  unfold Service.raceCapture.
  keeps_steps.
Qed.

Lemma silent_extractChartDataComplete h id :
  keeps sameProgress (Service.extractChartDataComplete h id).
Proof.
  pose proof (silent_getChartElement h id) as He.
  unfold Service.extractChartDataComplete, Service.extractChartDataFromDOM.
  keeps_steps.
Qed.

Section Reporting.
Context {A : Type}.
Implicit Types (Q : A -> list (string * Z * string) -> Prop)
               (E : Exn -> list (string * Z * string) -> Prop).

Lemma reporting_ret (a : A) Q E : Q a [] -> reporting (ret a) Q E.
Proof. intros HQ w. exists []. now rewrite app_nil_r. Qed.

Lemma reporting_throw (e : Exn) Q E : E e [] -> reporting (@throw A e) Q E.
Proof. intros HE w. exists []. now rewrite app_nil_r. Qed.

(** A report, then the rest. *)
Lemma reporting_after_report (stage : string) (pct : Z) (msg : string)
    (k : M A) Q E :
  reporting k (fun a rs => Q a ((stage, pct, msg) :: rs))
              (fun e rs => E e ((stage, pct, msg) :: rs)) ->
  reporting (modify (World.report stage pct msg) ;; k) Q E.
Proof.
  intros Hk w. unfold bind, modify.
  specialize (Hk (World.report stage pct msg w)).
  destruct (k (World.report stage pct msg w)) as [[a | e] w'];
    destruct Hk as (rs & Hp & H); exists ((stage, pct, msg) :: rs);
    (split; [| exact H]); rewrite Hp; cbn; now rewrite <- app_assoc.
Qed.

(** A silent computation, then the rest. *)
Lemma reporting_after_silent {B} (m : M B) (k : B -> M A) Q E :
  keeps sameProgress m ->
  (forall e, E e []) ->
  (forall b, reporting (k b) Q E) ->
  reporting (bind m k) Q E.
Proof.
  intros Hm HE Hk w. unfold bind. specialize (Hm w).
  destruct (m w) as [[b | e] w1]; unfold sameProgress in Hm; cbn in Hm.
  - specialize (Hk b w1). rewrite Hm in Hk. exact Hk.
  - exists []. rewrite app_nil_r. auto.
Qed.

Lemma reporting_assoc {B C} (m : M B) (f : B -> M C) (k : C -> M A) Q E :
  reporting (bind m (fun b => bind (f b) k)) Q E ->
  reporting (bind (bind m f) k) Q E.
Proof.
  intros H w. specialize (H w). unfold bind in *.
  destruct (m w) as [[b | e] w1]; exact H.
Qed.

Lemma reporting_ret_bind {B} (b : B) (k : B -> M A) Q E :
  reporting (k b) Q E -> reporting (bind (ret b) k) Q E.
Proof. intros H w. exact (H w). Qed.
End Reporting.

Lemma reporting_try_catch {A} (m : M A) (handler : Exn -> M A)
    (Q : A -> list (string * Z * string) -> Prop)
    (E E1 : Exn -> list (string * Z * string) -> Prop) :
  reporting m Q E1 ->
  (forall e rs1, E1 e rs1 ->
     reporting (handler e) (fun a rs2 => Q a (rs1 ++ rs2))
                           (fun e' rs2 => E e' (rs1 ++ rs2))) ->
  reporting (try_catch m handler) Q E.
Proof.
  intros Hm Hh w. unfold try_catch. specialize (Hm w).
  destruct (m w) as [[a | e] w1]; [exact Hm |].
  destruct Hm as (rs1 & Hp1 & HE1).
  specialize (Hh e rs1 HE1 w1).
  destruct (handler e w1) as [[a | e'] w2];
    destruct Hh as (rs2 & Hp2 & H); exists (rs1 ++ rs2);
    (split; [| exact H]); rewrite Hp2, Hp1; now rewrite app_assoc.
Qed.

(** Walk through a computation that reports its progress. *)
Ltac report_steps :=
  repeat match goal with
    | |- reporting (bind (modify (World.report _ _ _)) _) _ _ =>
        apply reporting_after_report
    | |- reporting (bind (bind _ _) _) _ _ => apply reporting_assoc
    | |- reporting (bind (ret _) _) _ _ => apply reporting_ret_bind
    | |- reporting (bind (if ?c then _ else _) _) _ _ => destruct c
    | |- reporting (ret _) _ _ => apply reporting_ret
    end.

Lemma body_reports (h : Host.t) (chartWidgetId : string)
    (options : ProfessionalPdfOptions.t) :
  ProfessionalPdfOptions.onProgress options = true ->
  reporting (Service.generateProfessionalChartPdf_body h chartWidgetId options)
    (fun _ rs => StronglySorted Z.lt (percentages rs) /\
                 head (percentages rs) = Some 0%Z /\
                 last (percentages rs) = Some 100%Z)
    (fun _ rs => StronglySorted Z.lt (percentages rs) /\
                 head (percentages rs) = Some 0%Z).
Proof.
  intros Hcb.
  unfold Service.generateProfessionalChartPdf_body, Service.notifyProgress.
  rewrite Hcb. cbv zeta.
  report_steps.
  apply reporting_after_silent;
    [apply silent_raceCapture
    | intros e; cbn; split; [repeat constructor; lia | reflexivity]
    | intros captureResult].
  report_steps.
  apply reporting_after_silent;
    [apply silent_extractChartDataComplete
    | intros e; cbn; split; [repeat constructor; lia | reflexivity]
    | intros dataResult].
  apply reporting_after_silent;
    [intros w; reflexivity
    | intros e; cbn; split; [repeat constructor; lia | reflexivity]
    | intros widgetInfo].
  report_steps;
    cbn; (split; [repeat constructor; lia | split; reflexivity]).
Qed.

Lemma reporting_bind {A B} (m : M A) (k : A -> M B)
    (Q1 : A -> list (string * Z * string) -> Prop)
    (Q : B -> list (string * Z * string) -> Prop)
    (E E1 : Exn -> list (string * Z * string) -> Prop) :
  reporting m Q1 E1 ->
  (forall e rs, E1 e rs -> E e rs) ->
  (forall a rs1, Q1 a rs1 ->
     reporting (k a) (fun b rs2 => Q b (rs1 ++ rs2))
                     (fun e rs2 => E e (rs1 ++ rs2))) ->
  reporting (bind m k) Q E.
Proof.
  intros Hm HE Hk w. unfold bind. specialize (Hm w).
  destruct (m w) as [[a | e] w1].
  - destruct Hm as (rs1 & Hp1 & HQ1).
    specialize (Hk a rs1 HQ1 w1).
    destruct (k a w1) as [[b | e'] w2];
      destruct Hk as (rs2 & Hp2 & H); exists (rs1 ++ rs2);
      (split; [| exact H]); rewrite Hp2, Hp1; now rewrite app_assoc.
  - destruct Hm as (rs1 & Hp1 & HE1). exists rs1. auto.
Qed.

Lemma composer_reports (h : Host.t) (chartWidgetId : string)
    (options : ProfessionalPdfOptions.t) :
  ProfessionalPdfOptions.onProgress options = true ->
  reporting (Service.generateProfessionalChartPdf h chartWidgetId options)
    (fun result rs =>
       head (percentages rs) = Some 0%Z /\
       match result with
       | Some _ =>
           StronglySorted Z.lt (percentages rs) /\
           last (percentages rs) = Some 100%Z
       | None =>
           exists before message,
             rs = before ++ [("error"%string, (-1)%Z, message)] /\
             StronglySorted Z.lt (percentages before)
       end)
    (fun _ _ => False).
Proof.
  intros Hcb. unfold Service.generateProfessionalChartPdf.
  rewrite Hcb. cbv zeta.
  eapply reporting_try_catch.
  - eapply reporting_bind.
    + apply (body_reports h chartWidgetId options Hcb).
    + intros e rs H. exact H.
    + intros blob rs1 (Hs & Hh & Hl). apply reporting_ret.
      rewrite app_nil_r. auto.
  - intros e rs1 (Hs & Hh). cbn beta.
    apply reporting_after_report, reporting_ret.
    split.
    + unfold percentages in *. rewrite map_app.
      destruct (map _ rs1); [discriminate Hh | exact Hh].
    + exists rs1, (messageOr e "Erreur inconnue"). auto.
Qed.

(** X12.  The progress callback of [generateProfessionalChartPdf], for a
    callback that does not throw.  The composer never throws.  Without a callback nothing is reported.  With
    one, the first report is at 0 percent; when a document is returned
    the percentages reported are strictly increasing and end at 100; and
    when [null] is returned, the last report is the error stage at -1,
    after reports whose percentages are strictly increasing. *)
Theorem composer_progress_reports (h : Host.t) (chartWidgetId : string)
    (options : ProfessionalPdfOptions.t) (w : World.t) :
  exists result w' reports,
    Service.generateProfessionalChartPdf h chartWidgetId options w
    = (Returns result, w') /\
    World.progress w' = World.progress w ++ reports /\
    if ProfessionalPdfOptions.onProgress options then
      head (percentages reports) = Some 0%Z /\
      match result with
      | Some _ =>
          StronglySorted Z.lt (percentages reports) /\
          last (percentages reports) = Some 100%Z
      | None =>
          exists before message,
            reports = before ++ [("error"%string, (-1)%Z, message)] /\
            StronglySorted Z.lt (percentages before)
      end
    else reports = [].
Proof.
  destruct (ProfessionalPdfOptions.onProgress options) eqn:Hcb.
  - pose proof (composer_reports h chartWidgetId options Hcb w) as H.
    destruct (Service.generateProfessionalChartPdf h chartWidgetId options w)
      as [[result | e] w'].
    + destruct H as (rs & Hp & HQ). exists result, w', rs. auto.
    + destruct H as (rs & _ & []).
  - assert (Hsilent : keeps sameProgress
                        (Service.generateProfessionalChartPdf h chartWidgetId
                           options)).
    { pose proof (silent_raceCapture h chartWidgetId) as H1.
      pose proof (silent_extractChartDataComplete h chartWidgetId) as H2.
      unfold Service.generateProfessionalChartPdf,
        Service.generateProfessionalChartPdf_body, Service.notifyProgress.
      rewrite Hcb. cbv zeta. keeps_steps. }
    specialize (Hsilent w). unfold sameProgress in Hsilent.
    unfold Service.generateProfessionalChartPdf, try_catch in *.
    rewrite Hcb in *. cbv zeta in *. unfold bind at 1 in Hsilent.
    unfold bind at 1.
    destruct (Service.generateProfessionalChartPdf_body h chartWidgetId
                options w) as [[blob | e] w1]; cbn in *.
    + exists (Some blob), w1, []. now rewrite app_nil_r.
    + exists None, w1, []. now rewrite app_nil_r.
Qed.

(** *** The composed document *)

Lemma orLit_nonempty (a : option string) (d : string) :
  d <> EmptyString -> orLit a d <> EmptyString.
Proof.
  intros Hd. unfold orLit. destruct a as [s |]; [| exact Hd].
  destruct (String.eqb_spec s EmptyString); assumption.
Qed.

Lemma truthy_default (a : option string) :
  truthy a = true -> default EmptyString a <> EmptyString.
Proof.
  destruct a as [s |]; cbn; [| discriminate].
  destruct (String.eqb_spec s EmptyString); [discriminate | auto].
Qed.

Lemma graphics_of_imap (g : nat -> ChartDataRecord.t -> Pdf.Op)
    (l : list ChartDataRecord.t) :
  (forall i x, graphicOf (g i x) = None) -> omap graphicOf (imap g l) = [].
Proof.
  revert g. induction l as [|x l IH]; intros g Hg; [reflexivity |].
  rewrite imap_cons. cbn [omap list_omap]. rewrite Hg.
  apply IH. intros; apply Hg.
Qed.

Lemma graphics_of_legendEntries (h : Host.t) (legendColumns : nat)
    (legendData : list ChartDataRecord.t) :
  omap graphicOf (Service.legendEntries h legendColumns legendData) = [].
Proof.
  unfold Service.legendEntries. cbv zeta.
  apply graphics_of_imap. reflexivity.
Qed.

(** X13.  Every document [generateProfessionalChartPdf] returns is complete.
    Its page format is one of the supported formats (an unknown format
    falls back to a4); it starts with the border and a title that is
    never empty; it holds exactly one graphic, which is the image of the
    chart, with a non-empty data URL, or the text that says the graphic
    is not available; and it ends with a right-hand footer text that is
    never empty. *)
Theorem composed_document_is_complete (h : Host.t) (chartWidgetId : string)
    (options : ProfessionalPdfOptions.t) (w w' : World.t) (blob : Pdf.Blob) :
  Service.generateProfessionalChartPdf h chartWidgetId options w
  = (Returns (Some blob), w') ->
  Pdf.format blob ∈ PDF_FORMATS /\
  (exists title rest,
      Pdf.ops blob = Pdf.Border :: Pdf.Title title :: rest /\
      title <> EmptyString) /\
  (exists graphic,
      omap graphicOf (Pdf.ops blob) = [graphic] /\
      (graphic = Pdf.Placeholder "Graphique non disponible" \/
       exists dataUrl, graphic = Pdf.Image dataUrl /\
                       dataUrl <> EmptyString)) /\
  (exists before text,
      Pdf.ops blob = before ++ [Pdf.FooterRight text] /\
      text <> EmptyString).
Proof.
  unfold Service.generateProfessionalChartPdf, try_catch.
  destruct (bind (Service.generateProfessionalChartPdf_body h chartWidgetId
                    options) _ w) as [[r | e] w0] eqn:Hbody;
    [| unfold bind, modify, ret;
       destruct (ProfessionalPdfOptions.onProgress options); discriminate].
  intros [= -> ->].
  bind_inv Hbody. injection Hbody as <- <-.
  unfold Service.generateProfessionalChartPdf_body in E.
  cbv zeta in E.
  repeat bind_inv E.
  injection E as <- <-. cbn [Pdf.ops Pdf.format].
  match goal with
  | Hg : (if ChartCaptureResult.success ?c && _ then _ else _) _
         = (Returns ?graphic, _),
    Hl : (if _ && Service.hasData ?d then _ else _) _
         = (Returns ?legend, _) |- _ =>
      assert (Hgraphic :
        exists g, graphic = [g] /\ graphicOf g = Some g /\
          (g = Pdf.Placeholder "Graphique non disponible" \/
           exists dataUrl, g = Pdf.Image dataUrl /\ dataUrl <> EmptyString));
      [ destruct (ChartCaptureResult.success c) eqn:Hsucc; cbn [andb] in Hg;
        [ destruct (truthy (ChartCaptureResult.dataUrl c)) eqn:Hurl;
          [ bind_inv Hg; injection Hg as <- <-;
            eexists; split; [reflexivity |]; split; [reflexivity |];
            right; eexists; split; [reflexivity |];
            now apply truthy_default
          | injection Hg as <- <-;
            eexists; split; [reflexivity |]; split; [reflexivity |];
            now left ]
        | injection Hg as <- <-;
          eexists; split; [reflexivity |]; split; [reflexivity |];
          now left ]
      | assert (Hlegend : omap graphicOf legend = []);
        [ destruct (default true (ProfessionalPdfOptions.showLegend options)
                    && Service.hasData d);
          [ bind_inv Hl; injection Hl as <- <-; cbn [omap list_omap graphicOf];
            apply graphics_of_legendEntries
          | injection Hl as <- <-; reflexivity ]
        | ] ]
  end.
  destruct Hgraphic as (g & -> & Hg1 & Hg2).
  split; [| split; [| split]].
  - set (f := default "a4"%string (ProfessionalPdfOptions.format options)).
    match goal with
    | |- (if ?c then _ else _) ∈ _ =>
        change c with (existsb (String.eqb f) PDF_FORMATS)
    end.
    destruct (existsb (String.eqb f) PDF_FORMATS) eqn:Hf.
    + apply existsb_exists in Hf as (x & Hin & Heq).
      apply String.eqb_eq in Heq as ->. now apply list_elem_of_In.
    + left.
  - eexists _, _. split; [reflexivity |].
    apply orLit_nonempty. discriminate.
  - exists g. split; [| exact Hg2].
    change (?x :: ?y :: ?l) with ([x; y] ++ l).
    rewrite !omap_app, Hlegend. cbn [omap list_omap]. rewrite Hg1.
    destruct (truthy (ProfessionalPdfOptions.subtitle options));
      destruct (default true (ProfessionalPdfOptions.showDate options));
      destruct (negb _ || negb _); reflexivity.
  - match goal with
    | |- exists before text,
           ?b :: ?t :: ?sub ++ [g] ++ ?legend ++ ?s :: ?date ++ ?centre ++ [_]
           = _ /\ _ =>
        exists (b :: t :: sub ++ [g] ++ legend ++ s :: date ++ centre)
    end.
    eexists. split.
    + cbn [app]. do 2 f_equal.
      repeat (rewrite <- app_assoc; cbn [app]). reflexivity.
    + destruct (String.eqb_spec
                  (default EmptyString
                     (ProfessionalPdfOptions.footerText options))
                  EmptyString); [discriminate | assumption].
Qed.

Lemma composed_document_is_complete_witness :
  exists w' blob,
    Service.generateProfessionalChartPdf Fixtures.emptyHost "missing"
      (Fixtures.progressOptions 30000) Fixtures.world0
    = (Returns (Some blob), w') /\
    Pdf.format blob ∈ PDF_FORMATS /\
    (exists title rest,
        Pdf.ops blob = Pdf.Border :: Pdf.Title title :: rest /\
        title <> EmptyString) /\
    (exists graphic,
        omap graphicOf (Pdf.ops blob) = [graphic] /\
        (graphic = Pdf.Placeholder "Graphique non disponible" \/
         exists dataUrl, graphic = Pdf.Image dataUrl /\
                         dataUrl <> EmptyString)) /\
    (exists before text,
        Pdf.ops blob = before ++ [Pdf.FooterRight text] /\
        text <> EmptyString).
Proof.
  eexists _, _. split; [vm_compute; reflexivity |].
  eapply (composed_document_is_complete Fixtures.emptyHost "missing"
            (Fixtures.progressOptions 30000) Fixtures.world0).
  vm_compute; reflexivity.
Defined.

(* ===================================================================== *)
(** ** The rest of the service: the size of a capture, the element cache *)
(* ===================================================================== *)

Section CaptureSize.
Variable h : Host.t.
Variable element : Element.
Variable options : option ChartPrintOptions.t.

Let tw := Engine.targetWidth h element options.
Let th := Engine.targetHeight h element options.
Let s := Engine.scale h element options.

(** The canvas has the target size, up to [d] pixels, at scale [k]. *)
Let sized (canvas : Canvas.t) (k d : Z) : Prop :=
  (Z.abs (Canvas.width canvas - tw * k) <= d)%Z /\
  (Z.abs (Canvas.height canvas - th * k) <= d)%Z.

(** The canvas has the size a canvas keeps of the target size. *)
Let pooled (canvas : Canvas.t) : Prop :=
  Canvas.width canvas = Engine.canvasDimension tw 300 /\
  Canvas.height canvas = Engine.canvasDimension th 150.

Lemma getPooledCanvas_run width height w :
  Engine.getPooledCanvas width height w
  = (Returns (Canvas.mk (Engine.canvasDimension width 300)
                (Engine.canvasDimension height 150) Blank),
     World.setCanvasPool (tail (World.canvasPool w)) w).
Proof. reflexivity. Qed.

Lemma existingCanvasTechnique_size w canvas w' :
  Engine.existingCanvasTechnique h element options w
  = (Returns (Some canvas), w') ->
  sized canvas 1 49 \/ pooled canvas.
Proof.
  unfold Engine.existingCanvasTechnique, sized, pooled. fold tw th.
  destruct (Engine.findLargestCanvas h element) as [existing |];
    [| discriminate].
  destruct ((100 <? Canvas.width existing)%Z
            && (100 <? Canvas.height existing)%Z); [| discriminate].
  destruct ((Z.abs (Canvas.width existing - tw) <? 50)%Z
            && (Z.abs (Canvas.height existing - th) <? 50)%Z) eqn:Hnear.
  - intros [= <- <-]. left.
    apply andb_true_iff in Hnear as [H1 H2].
    apply Z.ltb_lt in H1, H2. lia.
  - unfold bind. rewrite getPooledCanvas_run.
    destruct (Host.hasContext h _); [| discriminate].
    intros [= <- <-]. right. cbn. auto.
Qed.

Lemma html2canvasTechnique_size w canvas w' :
  (forall c, Host.hasContext h c = true) ->
  Engine.html2canvasTechnique h element options w
  = (Returns (Some canvas), w') ->
  pooled canvas \/ sized canvas s 10.
Proof.
  intros Hctx.
  unfold Engine.html2canvasTechnique, sized, pooled, try_catch, bind, lift.
  fold tw th s.
  destruct (Host.html2canvas h _ _) as [raw | e]; [| discriminate].
  destruct ((10 <? Z.abs (Canvas.width raw - tw * s))%Z
            || (10 <? Z.abs (Canvas.height raw - th * s))%Z) eqn:Hfar.
  - rewrite getPooledCanvas_run, Hctx.
    intros [= <- <-]. left. cbn. auto.
  - intros [= <- <-]. right.
    apply orb_false_iff in Hfar as [H1 H2].
    apply Z.ltb_ge in H1, H2. lia.
Qed.

Lemma svgTechnique_size w canvas w' :
  Engine.svgTechnique h element options w = (Returns (Some canvas), w') ->
  pooled canvas.
Proof.
  unfold Engine.svgTechnique, pooled, bind, lift. fold tw th.
  destruct (Engine.largestSvg _ _ _) as [svg |]; [| discriminate].
  destruct (Host.loadSvgImage h svg); [| discriminate].
  rewrite getPooledCanvas_run.
  destruct (Host.hasContext h _); [| discriminate].
  intros [= <- <-]. cbn. auto.
Qed.

Lemma htmlToCanvas_sized w canvas w' :
  (forall c, Host.hasContext h c = true) ->
  Engine.htmlToCanvas h element options w = (Returns (Some canvas), w') ->
  sized canvas 1 49 \/ sized canvas s 10 \/ pooled canvas.
Proof.
  intros Hctx.
  unfold Engine.htmlToCanvas, try_catch. unfold bind at 1. unfold modify.
  unfold bind at 1.
  destruct (Engine.existingCanvasTechnique h element options _)
    as [[[c1 |] | e1] w1] eqn:E1.
  - intros [= <- <-].
    destruct (existingCanvasTechnique_size _ _ _ E1); auto.
  - unfold bind at 1.
    destruct (Engine.html2canvasTechnique h element options w1)
      as [[[c2 |] | e2] w2] eqn:E2.
    + intros [= <- <-].
      destruct (html2canvasTechnique_size _ _ _ Hctx E2); auto.
    + destruct (Engine.svgTechnique h element options w2)
        as [[[c3 |] | e3] w3] eqn:E3; try discriminate.
      intros [= <- <-]. right. right.
      exact (svgTechnique_size _ _ _ E3).
    + discriminate.
  - discriminate.
Qed.
End CaptureSize.

(** A size from 0 to 2147483647 is the size the canvas keeps. *)
Lemma canvasDimension_in_range (v fallback : Z) :
  (0 <= v <= 2147483647)%Z -> Engine.canvasDimension v fallback = v.
Proof.
  intros Hv. unfold Engine.canvasDimension. cbv zeta.
  rewrite Z.mod_small by lia.
  now destruct (Z.leb_spec v 2147483647) as [_ | Hc]; [| lia].
Qed.

(** X14.  The size of what [htmlToCanvas] returns.  In a browser that gives
    every canvas a 2d context, a canvas returned for the target size
    [targetWidth] by [targetHeight] (the requested [chartSize], or the
    size of the container) is within 50 pixels of that size in both
    directions, or within 10 pixels of that size times [scale], or has
    the size a canvas keeps when it is given the target size, which is
    the target size when it lies between 0 and 2147483647 and the default
    of 300 by 150 otherwise.  So for a target size in that range the
    canvas is within 50 pixels of it or within 10 pixels of it times
    [scale]; and [scale] is 1 or 2. *)
Theorem htmlToCanvas_size (h : Host.t) (element : Element)
    (options : option ChartPrintOptions.t) (w w' : World.t)
    (canvas : Canvas.t) :
  (forall c, Host.hasContext h c = true) ->
  Engine.htmlToCanvas h element options w = (Returns (Some canvas), w') ->
  let targetWidth := Engine.targetWidth h element options in
  let targetHeight := Engine.targetHeight h element options in
  let scale := Engine.scale h element options in
  let near :=
    ((Z.abs (Canvas.width canvas - targetWidth) < 50)%Z /\
     (Z.abs (Canvas.height canvas - targetHeight) < 50)%Z) \/
    ((Z.abs (Canvas.width canvas - targetWidth * scale) <= 10)%Z /\
     (Z.abs (Canvas.height canvas - targetHeight * scale) <= 10)%Z) in
  (scale = 1 \/ scale = 2)%Z /\
  (near \/
   (Canvas.width canvas = Engine.canvasDimension targetWidth 300 /\
    Canvas.height canvas = Engine.canvasDimension targetHeight 150)) /\
  ((0 <= targetWidth <= 2147483647)%Z ->
   (0 <= targetHeight <= 2147483647)%Z -> near).
Proof.
  intros Hctx Hrun targetWidth targetHeight scale near.
  pose proof (htmlToCanvas_sized h element options w canvas w' Hctx Hrun)
    as Hsized.
  fold targetWidth targetHeight scale in Hsized.
  split; [subst scale; unfold Engine.scale; lia |].
  split.
  - destruct Hsized as [[H1 H2] | [[H1 H2] | H]];
      [left; left | left; right | right; exact H]; lia.
  - intros Hw Hh.
    destruct Hsized as [[H1 H2] | [[H1 H2] | [H1 H2]]];
      [left; lia | right; lia | left].
    rewrite canvasDimension_in_range in H1, H2 by assumption. lia.
Qed.

Lemma htmlToCanvas_size_witness :
  let h := Fixtures.slowCaptureHost true in
  let options := Service.captureOptions "w1" in
  (forall c, Host.hasContext h c = true) /\
  exists canvas w',
    Engine.htmlToCanvas h 1%nat options Fixtures.world0
    = (Returns (Some canvas), w') /\
    (((Z.abs (Canvas.width canvas - Engine.targetWidth h 1%nat options)
       < 50)%Z /\
      (Z.abs (Canvas.height canvas - Engine.targetHeight h 1%nat options)
       < 50)%Z) \/
     ((Z.abs (Canvas.width canvas
              - Engine.targetWidth h 1%nat options
                * Engine.scale h 1%nat options) <= 10)%Z /\
      (Z.abs (Canvas.height canvas
              - Engine.targetHeight h 1%nat options
                * Engine.scale h 1%nat options) <= 10)%Z)).
Proof.
  cbv zeta. split; [reflexivity |].
  eexists _, _. split; [vm_compute; reflexivity |].
  refine (proj2 (proj2 (htmlToCanvas_size (Fixtures.slowCaptureHost true)
                          1%nat (Service.captureOptions "w1")
                          Fixtures.world0 _ _ _ _)) _ _).
  - reflexivity.
  - vm_compute; reflexivity.
  - vm_compute. split; discriminate.
  - vm_compute. split; discriminate.
Defined.

(** *** The element cache of [getChartElement] *)

Lemma cacheElement_run (id : string) (element : Element) (w : World.t) :
  Service.cacheElement id element w
  = (Returns tt,
     World.setElementCache
       (<[id := (element, World.clock w (World.reads w))]>
          (World.chartElementCache w))
       (World.tick w)).
Proof. reflexivity. Qed.

Lemma Service_getChartElement_cached (h : Host.t) (id : string) (w w1 : World.t)
    (element : Element) :
  Service.getChartElement h id w = (Returns (Some element), w1) ->
  id <> EmptyString /\
  exists timestamp,
    World.chartElementCache w1 !! id = Some (element, timestamp).
Proof.
  unfold Service.getChartElement.
  destruct (String.eqb_spec id EmptyString) as [| Hne]; [discriminate |].
  intros Hrun. split; [exact Hne |]. revert Hrun.
  unfold bind at 1. unfold Service.readElementCache.
  unfold bind at 1. unfold gets.
  destruct (World.chartElementCache w !! id) as [[cached timestamp] |] eqn:Hc.
  - unfold bind at 1, Date_now.
    destruct (_ - timestamp <? Service.ELEMENT_CACHE_TTL)%Z.
    + destruct (Host.documentContains h cached).
      * intros [= <- <-]. exists timestamp. exact Hc.
      * unfold bind at 1. unfold modify, ret.
        repeat match goal with
          | |- context [Service.firstMatch h ?l] =>
              destruct (Service.firstMatch h l)
          | |- context [find ?f ?l] => destruct (find f l) as [[? ?] |]
          end; try discriminate;
          unfold bind; rewrite cacheElement_run;
          intros [= <- <-]; cbn; rewrite lookup_insert_eq; eauto.
    + unfold ret.
      repeat match goal with
        | |- context [Service.firstMatch h ?l] =>
            destruct (Service.firstMatch h l)
        | |- context [find ?f ?l] => destruct (find f l) as [[? ?] |]
        end; try discriminate;
        unfold bind; rewrite cacheElement_run;
        intros [= <- <-]; cbn; rewrite lookup_insert_eq; eauto.
  - unfold ret.
    repeat match goal with
      | |- context [Service.firstMatch h ?l] =>
          destruct (Service.firstMatch h l)
      | |- context [find ?f ?l] => destruct (find f l) as [[? ?] |]
      end; try discriminate;
      unfold bind; rewrite cacheElement_run;
      intros [= <- <-]; cbn; rewrite lookup_insert_eq; eauto.
Qed.

(** X15.  [getChartElement] caches what it finds and then answers from the
    cache.  When a call returns an element, the element cache holds that
    element for the widget; and while the element stays in the document
    and the entry is younger than [ELEMENT_CACHE_TTL], the next call
    returns the same element and changes nothing except that it takes one
    reading of the clock. *)
Theorem getChartElement_twice (h : Host.t) (chartWidgetId : string)
    (w w1 : World.t) (element : Element) :
  Service.getChartElement h chartWidgetId w = (Returns (Some element), w1) ->
  (exists timestamp,
      World.chartElementCache w1 !! chartWidgetId
      = Some (element, timestamp)) /\
  (Host.documentContains h element = true ->
   (forall timestamp,
       World.chartElementCache w1 !! chartWidgetId
       = Some (element, timestamp) ->
       (World.clock w1 (World.reads w1) - timestamp
        < Service.ELEMENT_CACHE_TTL)%Z) ->
   Service.getChartElement h chartWidgetId w1
   = (Returns (Some element), World.tick w1)).
Proof.
  intros Hrun.
  destruct (Service_getChartElement_cached h chartWidgetId w w1 element Hrun)
    as (Hne & timestamp & Hc).
  split; [eauto |].
  intros Hin Hfresh. specialize (Hfresh timestamp Hc).
  unfold Service.getChartElement.
  destruct (String.eqb_spec chartWidgetId EmptyString) as [| _];
    [contradiction |].
  unfold bind at 1. unfold Service.readElementCache.
  unfold bind at 1. unfold gets. rewrite Hc.
  unfold bind at 1, Date_now.
  destruct (Z.ltb_spec (World.clock w1 (World.reads w1) - timestamp)
              Service.ELEMENT_CACHE_TTL) as [_ | Hge]; [| lia].
  rewrite Hin. reflexivity.
Qed.

Lemma getChartElement_twice_witness :
  exists w1,
    Service.getChartElement Fixtures.dupLegendHost "w1" Fixtures.world0
    = (Returns (Some 1%nat), w1) /\
    (exists timestamp,
        World.chartElementCache w1 !! "w1"%string
        = Some (1%nat, timestamp)) /\
    Service.getChartElement Fixtures.dupLegendHost "w1" w1
    = (Returns (Some 1%nat), World.tick w1).
Proof.
  eexists. split; [vm_compute; reflexivity |].
  match goal with
  | |- (exists _, World.chartElementCache ?w1 !! _ = _) /\ _ =>
      destruct (getChartElement_twice Fixtures.dupLegendHost "w1"
                  Fixtures.world0 w1 1%nat ltac:(vm_compute; reflexivity))
        as [Hcached Hagain]
  end.
  split; [exact Hcached |].
  apply Hagain; [reflexivity |].
  intros timestamp Ht. vm_compute in Ht. injection Ht as <-.
  vm_compute. reflexivity.
Defined.

(* ===================================================================== *)
(** ** The rest of the service: colours, chunks, validation *)
(* ===================================================================== *)

Lemma hexDigit_range (c : ascii) (x : Z) :
  Service.hexDigit c = Some x -> (0 <= x < 16)%Z.
Proof.
  unfold Service.hexDigit.
  repeat match goal with
    | |- context [(?a <=? ?b)%nat] => destruct (Nat.leb_spec a b)
    end; cbn; intros [= <-]; lia.
Qed.

Lemma hexDigit_hexChar (d : Z) :
  (0 <= d < 16)%Z -> Service.hexDigit (hexChar d) = Some d.
Proof.
  intros Hd.
  assert (Hcases : In d [0; 1; 2; 3; 4; 5; 6; 7; 8; 9; 10; 11; 12; 13; 14;
                         15]%Z).
  { cbn. lia. }
  cbn in Hcases.
  repeat (destruct Hcases as [<- | Hcases]; [reflexivity |]).
  destruct Hcases.
Qed.

Lemma parseHexPair_range (hi lo : ascii) (n : Z) :
  Service.parseHexPair hi lo = Some n -> (0 <= n < 256)%Z.
Proof.
  unfold Service.parseHexPair.
  destruct (Service.hexDigit hi) as [x |] eqn:Hx; [| discriminate].
  destruct (Service.hexDigit lo) as [y |] eqn:Hy; [| discriminate].
  apply hexDigit_range in Hx, Hy. intros [= <-]. lia.
Qed.

Lemma parseHexPair_hexPair (n : Z) :
  (0 <= n < 256)%Z ->
  Service.parseHexPair (hexChar (n / 16)) (hexChar (n mod 16)) = Some n.
Proof.
  intros Hn. unfold Service.parseHexPair.
  rewrite !hexDigit_hexChar.
  - f_equal. pose proof (Z.div_mod n 16). lia.
  - apply Z.mod_pos_bound. lia.
  - split; [apply Z.div_pos; lia | apply Z.div_lt_upper_bound; lia].
Qed.

Lemma hexDigit_lowerChar (c : ascii) :
  Service.hexDigit (lowerChar c) = Service.hexDigit c.
Proof. destruct c as [[] [] [] [] [] [] [] []]; reflexivity. Qed.

Lemma lowerChar_hash (c : ascii) :
  Ascii.eqb (lowerChar c) "#" = Ascii.eqb c "#".
Proof. destruct c as [[] [] [] [] [] [] [] []]; reflexivity. Qed.

Lemma parseHexPair_lowerChar (hi lo : ascii) :
  Service.parseHexPair (lowerChar hi) (lowerChar lo)
  = Service.parseHexPair hi lo.
Proof. unfold Service.parseHexPair. now rewrite !hexDigit_lowerChar. Qed.

(** The six digits, once the optional hash is removed. *)
Lemma hexGroups_unfold (hex : string) :
  Service.hexGroups hex
  = let digits :=
      match hex with
      | String c rest => if Ascii.eqb c "#" then rest else hex
      | EmptyString => hex
      end in
    match digits with
    | String c1 (String c2 (String c3 (String c4 (String c5 (String c6
        EmptyString))))) =>
        match Service.parseHexPair c1 c2, Service.parseHexPair c3 c4,
              Service.parseHexPair c5 c6 with
        | Some r, Some g, Some b => Some (r, g, b)
        | _, _, _ => None
        end
    | _ => None
    end.
Proof.
  unfold Service.hexGroups.
  destruct hex as [| c rest]; [reflexivity |].
  destruct (Ascii.eqb_spec c "#") as [-> | Hne]; [reflexivity |].
  destruct c as [[] [] [] [] [] [] [] []]; try reflexivity.
  now destruct Hne.
Qed.

Lemma six_digits_lower (digits : string) :
  match toLowerCase digits with
  | String c1 (String c2 (String c3 (String c4 (String c5 (String c6
      EmptyString))))) =>
      match Service.parseHexPair c1 c2, Service.parseHexPair c3 c4,
            Service.parseHexPair c5 c6 with
      | Some r, Some g, Some b => Some (r, g, b)
      | _, _, _ => None
      end
  | _ => None
  end
  = match digits with
    | String c1 (String c2 (String c3 (String c4 (String c5 (String c6
        EmptyString))))) =>
        match Service.parseHexPair c1 c2, Service.parseHexPair c3 c4,
              Service.parseHexPair c5 c6 with
        | Some r, Some g, Some b => Some (r, g, b)
        | _, _, _ => None
        end
    | _ => None
    end.
Proof.
  destruct digits as [| c1 [| c2 [| c3 [| c4 [| c5 [| c6 [| c7 rest]]]]]]];
    try reflexivity.
  cbn [toLowerCase]. now rewrite !parseHexPair_lowerChar.
Qed.

Lemma hexGroups_toLowerCase (hex : string) :
  Service.hexGroups (toLowerCase hex) = Service.hexGroups hex.
Proof.
  rewrite !hexGroups_unfold. cbv zeta.
  destruct hex as [| c rest]; [reflexivity |].
  cbn [toLowerCase]. rewrite lowerChar_hash.
  destruct (Ascii.eqb c "#").
  - apply six_digits_lower.
  - apply (six_digits_lower (String c rest)).
Qed.

(** X16.  [hexToRgb] reads the [#rrggbb] notation, and nothing else.  It gives
    back the three components of a colour written with two hexadecimal
    digits each; every component it returns lies between 0 and 255; the
    case of the digits does not matter; and a colour in the functional
    notation of computed styles, [rgb(...)] or [rgba(...)], which the DOM
    strategy puts in its records, is read as black. *)
Theorem hexToRgb_reads_hex_notation :
  (forall r g b,
      (0 <= r < 256)%Z -> (0 <= g < 256)%Z -> (0 <= b < 256)%Z ->
      Service.hexToRgb (hexColour r g b) = Rgb.mk r g b) /\
  (forall hex,
      (0 <= Rgb.r (Service.hexToRgb hex) < 256)%Z /\
      (0 <= Rgb.g (Service.hexToRgb hex) < 256)%Z /\
      (0 <= Rgb.b (Service.hexToRgb hex) < 256)%Z) /\
  (forall hex, Service.hexToRgb (toLowerCase hex) = Service.hexToRgb hex) /\
  (forall rest, Service.hexToRgb ("rgb" +:+ rest) = Rgb.mk 0 0 0).
Proof.
  split; [| split; [| split]].
  - intros r g b Hr Hg Hb. unfold Service.hexToRgb.
    change (hexColour r g b)
      with (String "#"
              (String (hexChar (r / 16)) (String (hexChar (r mod 16))
              (String (hexChar (g / 16)) (String (hexChar (g mod 16))
              (String (hexChar (b / 16)) (String (hexChar (b mod 16))
                 EmptyString))))))).
    rewrite hexGroups_unfold.
    change (Ascii.eqb "#" "#") with true. cbv iota zeta.
    rewrite !parseHexPair_hexPair by assumption. reflexivity.
  - intros hex. unfold Service.hexToRgb.
    rewrite hexGroups_unfold. cbv zeta.
    match goal with
    | |- context [match ?digits with
                  | EmptyString => _ | String _ _ => _ end] =>
        destruct digits as [| c1 [| c2 [| c3 [| c4 [| c5 [| c6 [| c7 rest]]]]]]]
    end; cbn; try lia.
    destruct (Service.parseHexPair c1 c2) as [r |] eqn:Hr; cbn; try lia.
    destruct (Service.parseHexPair c3 c4) as [g |] eqn:Hg; cbn; try lia.
    destruct (Service.parseHexPair c5 c6) as [b |] eqn:Hb; cbn; try lia.
    apply parseHexPair_range in Hr, Hg, Hb. lia.
  - intros hex. unfold Service.hexToRgb.
    now rewrite hexGroups_toLowerCase.
  - intros rest. unfold Service.hexToRgb. cbn [append].
    destruct rest as [| c4 [| c5 [| c6 [| c7 rest]]]]; reflexivity.
Qed.

(** *** Work in chunks *)

Lemma div_succ_step (i c : nat) :
  (0 < c)%nat ->
  (S i / c = i / c + (if (S i mod c =? 0) then 1 else 0))%nat.
Proof.
  intros Hc.
  pose proof (Nat.div_mod_eq i c) as Hi.
  pose proof (Nat.mod_upper_bound i c ltac:(lia)) as Hib.
  pose proof (Nat.div_mod_eq (S i) c) as Hs.
  pose proof (Nat.mod_upper_bound (S i) c ltac:(lia)) as Hsb.
  destruct (Nat.eqb_spec (S i mod c) 0) as [Hz | Hnz].
  - rewrite Hz in Hs. nia.
  - assert (S i / c = i / c)%nat; [| lia].
    assert (i / c <= S i / c)%nat
      by (apply Nat.Div0.div_le_mono; lia).
    nia.
Qed.

Lemma executeInChunksFrom_schedule {T} (items : list T) (i chunkSize : nat) :
  let steps := Service.executeInChunksFrom i items chunkSize in
  omap processedOf steps = zip items (seq i (length items)) /\
  length (filter (fun step => isYield step = true) steps)
  = (if (chunkSize =? 0)%nat then 0
     else (i + length items) / chunkSize - i / chunkSize)%nat.
Proof.
  revert i. induction items as [| item rest IH]; intros i; cbv zeta.
  - cbn. split; [reflexivity |].
    destruct (chunkSize =? 0)%nat; [reflexivity |].
    rewrite Nat.add_0_r. lia.
  - cbn [Service.executeInChunksFrom].
    destruct (IH (S i)) as [Hitems Hyields]. cbv zeta in Hitems, Hyields.
    split.
    + cbn [omap list_omap processedOf length seq zip zip_with].
      rewrite omap_app, Hitems.
      destruct ((0 <? chunkSize)%nat && ((i + 1) mod chunkSize =? 0)%nat);
        reflexivity.
    + rewrite filter_cons. cbn [isYield].
      destruct (decide (false = true)); [discriminate |].
      rewrite filter_app, length_app, Hyields.
      destruct (Nat.eqb_spec chunkSize 0) as [Hz | Hpos].
      * rewrite Hz. cbn. reflexivity.
      * assert (Hlt : (0 <? chunkSize)%nat = true)
          by (apply Nat.ltb_lt; lia).
        rewrite Hlt. cbn [andb length].
        replace (i + 1)%nat with (S i) by lia.
        replace (i + S (length rest))%nat with (S i + length rest)%nat
          by lia.
        pose proof (div_succ_step i chunkSize ltac:(lia)) as Hstep.
        assert (S i / chunkSize <= (S i + length rest) / chunkSize)%nat
          by (apply Nat.Div0.div_le_mono; lia).
        destruct (S i mod chunkSize =? 0)%nat.
        -- rewrite filter_cons, filter_nil. cbn [isYield].
           rewrite decide_True by reflexivity. cbn [length]. lia.
        -- rewrite filter_nil. cbn [length]. lia.
Qed.

(** X17.  [executeInChunks] calls the processor once on every item, in order
    and with the index of the item, and yields to the main loop once
    after every [chunkSize] items: [floor(N / chunkSize)] times for [N]
    items, and never when [chunkSize] is 0. *)
Theorem executeInChunks_schedule {T} (items : list T) (chunkSize : nat) :
  let steps := Service.executeInChunks items (Some chunkSize) in
  omap processedOf steps = zip items (seq 0 (length items)) /\
  length (filter (fun step => isYield step = true) steps)
  = (if (chunkSize =? 0)%nat then 0 else length items / chunkSize)%nat.
Proof.
  cbv zeta. unfold Service.executeInChunks. cbn [default from_option id].
  destruct (executeInChunksFrom_schedule items 0 chunkSize) as [H1 H2].
  cbv zeta in H1, H2. split; [exact H1 |].
  rewrite H2. destruct (chunkSize =? 0)%nat eqn:E; [reflexivity |].
  apply Nat.eqb_neq in E.
  cbn [Nat.add]. rewrite Nat.Div0.div_0_l. lia.
Qed.

(** *** Validation *)

(** A width or height passes the test [<= 0] of the validation unless
    it is a number that is at most 0: a missing one and [NaN] pass. *)
Lemma leZero_false (side : option Num) :
  leZero (default NaN side) = false <->
  (forall n, side = Some (Fin n) -> (0 < n)%Z) /\ side <> Some (Inf true).
Proof.
  destruct side as [[| n | []] |]; cbn.
  - split; [split; [discriminate | discriminate] | reflexivity].
  - rewrite Z.leb_gt. split.
    + intros Hn. split; [now intros ? [= <-] | discriminate].
    + intros [Hn _]. now apply Hn.
  - split; [discriminate | intros [_ Hc]; now destruct Hc].
  - split; [split; discriminate | reflexivity].
  - split; [split; discriminate | reflexivity].
Qed.

(** X18.  [validateChartPrintOptions] accepts exactly the options that name a
    widget, whose size, when one is given, has no width and no height
    that is a number at most 0, and whose position, when one is given and
    is not the empty string, is one of the five values of
    [ChartPosition]; and it reports at most one error for each of these
    four conditions.  A width or a height that is missing or [NaN] is
    accepted. *)
Theorem validateChartPrintOptions_accepts (options : UncheckedOptions.t) :
  (Validation.valid (Service.validateChartPrintOptions options) = true <->
   truthy (UncheckedOptions.chartWidgetId options) = true /\
   (forall chartSize side,
       UncheckedOptions.chartSize options = Some chartSize ->
       side = UncheckedSize.width chartSize \/
       side = UncheckedSize.height chartSize ->
       (forall n, side = Some (Fin n) -> (0 < n)%Z) /\
       side <> Some (Inf true)) /\
   (forall position,
       UncheckedOptions.chartPosition options = Some position ->
       position <> EmptyString ->
       position ∈ ChartPosition_values)) /\
  (length (Validation.errors (Service.validateChartPrintOptions options))
   <= 4)%nat /\
  (forall chartWidgetId,
      chartWidgetId <> EmptyString ->
      Validation.valid
        (Service.validateChartPrintOptions
           (UncheckedOptions.mk (Some chartWidgetId)
              (Some (UncheckedSize.mk (Some NaN) None)) None)) = true).
Proof.
  split; [| split].
  2: {
    unfold Service.validateChartPrintOptions.
    destruct options as [widgetId size position].
    cbn [UncheckedOptions.chartWidgetId UncheckedOptions.chartSize
           UncheckedOptions.chartPosition]. cbv zeta.
    destruct (negb (truthy widgetId)); destruct size as [chartSize |];
      try destruct (leZero (default NaN (UncheckedSize.width chartSize)));
      try destruct (leZero (default NaN (UncheckedSize.height chartSize)));
      destruct (truthy position && _); cbn; lia. }
  2: {
    intros chartWidgetId Hne. unfold Service.validateChartPrintOptions.
    cbn. now destruct (String.eqb_spec chartWidgetId EmptyString). }
  unfold Service.validateChartPrintOptions.
  destruct options as [widgetId size position]. cbn [UncheckedOptions.chartWidgetId
    UncheckedOptions.chartSize UncheckedOptions.chartPosition].
  cbv zeta.
  assert (Hpos : forall p : string,
             existsb (String.eqb p) ChartPosition_values = true <->
             p ∈ ChartPosition_values).
  { intros p. rewrite existsb_exists. split.
    - intros (x & Hin & Heq). apply String.eqb_eq in Heq as ->.
      now apply list_elem_of_In.
    - intros Hin. exists p. split; [now apply list_elem_of_In |].
      apply String.eqb_refl. }
  assert (Hlen : forall (a b c d : list string) ,
             (length (((a ++ b) ++ c) ++ d) =? 0)%nat = true <->
             a = [] /\ b = [] /\ c = [] /\ d = []).
  { intros a b c d. rewrite Nat.eqb_eq, !length_app.
    destruct a, b, c, d; cbn; split; try lia; try tauto;
      intros (? & ? & ? & ?); discriminate. }
  set (e1 := if negb (truthy widgetId)
             then ["chartWidgetId est requis"%string] else []).
  set (e2 := match size with
             | Some chartSize =>
                 if leZero (default NaN (UncheckedSize.width chartSize))
                 then ["La largeur du diagramme doit être positive"%string]
                 else []
             | None => []
             end).
  set (e3 := match size with
             | Some chartSize =>
                 if leZero (default NaN (UncheckedSize.height chartSize))
                 then ["La hauteur du diagramme doit être positive"%string]
                 else []
             | None => []
             end).
  set (e4 := if truthy position
                && negb (existsb
                           (String.eqb (default EmptyString position))
                           ChartPosition_values)
             then ["Position du diagramme invalide"%string] else []).
  match goal with
  | |- Validation.valid (Validation.mk _ ?errors) = true <-> _ =>
      assert (Herrors : errors = ((e1 ++ e2) ++ e3) ++ e4)
  end.
  { subst e1 e2 e3 e4.
    destruct (negb (truthy widgetId)); destruct size as [chartSize |];
      try destruct (leZero (default NaN (UncheckedSize.width chartSize)));
      try destruct (leZero (default NaN (UncheckedSize.height chartSize)));
      destruct (truthy position && _); reflexivity. }
  rewrite Herrors. cbn [Validation.valid Validation.errors].
  rewrite Hlen. subst e1 e2 e3 e4. split.
  - intros (H1 & H2 & H3 & H4). split; [| split].
    + destruct (truthy widgetId); [reflexivity | discriminate H1].
    + intros chartSize side -> [-> | ->]; apply leZero_false.
      * destruct (leZero (default NaN (UncheckedSize.width chartSize)));
          [discriminate H2 | reflexivity].
      * destruct (leZero (default NaN (UncheckedSize.height chartSize)));
          [discriminate H3 | reflexivity].
    + intros p -> Hne. apply Hpos.
      cbn [truthy default from_option id] in H4.
      destruct (String.eqb_spec p EmptyString); [contradiction |].
      cbn [negb andb] in H4.
      destruct (existsb (String.eqb p) ChartPosition_values);
        [reflexivity | discriminate H4].
  - intros (H1 & H2 & H3). rewrite H1. cbn [negb].
    split; [reflexivity |]. split; [| split].
    + destruct size as [chartSize |]; [| reflexivity].
      now rewrite (proj2 (leZero_false _)
                     (H2 chartSize _ eq_refl (or_introl eq_refl))).
    + destruct size as [chartSize |]; [| reflexivity].
      now rewrite (proj2 (leZero_false _)
                     (H2 chartSize _ eq_refl (or_intror eq_refl))).
    + destruct position as [p |]; [| reflexivity].
      cbn [truthy default from_option id].
      destruct (String.eqb_spec p EmptyString); [reflexivity |].
      cbn [negb andb].
      apply (H3 p eq_refl) in n. apply Hpos in n. now rewrite n.
Qed.

(* ===================================================================== *)
(** ** The rest of the service: the lists of chart widgets *)
(* ===================================================================== *)

Lemma omap_keys_sublist {A B K} (f : A -> option B) (key : A -> K)
    (key' : B -> K) (l : list A) :
  (forall a b, f a = Some b -> key' b = key a) ->
  map key' (omap f l) `sublist_of` map key l.
Proof.
  intros Hf. induction l as [| a l IH]; cbn; [constructor |].
  destruct (f a) as [b |] eqn:E; cbn.
  - rewrite (Hf a b E). now constructor.
  - now constructor.
Qed.

Lemma Service_available_iff (h : Host.t) (chartWidgetId : string) :
  Service.isChartWidgetAvailable h chartWidgetId = Returns true <->
  chartWidgetId <> EmptyString /\
  exists widgets widget uri,
    Host.widgets h = Returns (Some widgets) /\
    widgets !! chartWidgetId = Some widget /\
    Widget.uri widget = Some uri /\
    includes uri "chart" = true.
Proof.
  unfold Service.isChartWidgetAvailable.
  destruct (String.eqb_spec chartWidgetId EmptyString) as [-> | Hne].
  - split; [discriminate | intros [H _]; now destruct H].
  - destruct (Host.widgets h) as [[ws |] | e]; cbn.
    + destruct (ws !! chartWidgetId) as [widget |] eqn:Hw.
      * destruct (Widget.uri widget) as [uri |] eqn:Hu.
        -- split.
           ++ intros [= Hi]. split; [exact Hne |]. exists ws, widget, uri. auto.
           ++ intros (_ & ws' & widget' & uri' & [= <-] & Hw' & Hu' & Hi).
              rewrite Hw in Hw'. injection Hw' as <-.
              rewrite Hu in Hu'. injection Hu' as <-. now rewrite Hi.
        -- split; [discriminate |].
           intros (_ & ws' & widget' & uri' & [= <-] & Hw' & Hu' & _).
           rewrite Hw in Hw'. injection Hw' as <-. congruence.
      * split; [discriminate |].
        intros (_ & ws' & widget' & uri' & [= <-] & Hw' & _). congruence.
    + split; [discriminate |].
      intros (_ & ws' & ? & ? & Hc & _). discriminate Hc.
    + split; [discriminate |].
      intros (_ & ws' & ? & ? & Hc & _). discriminate Hc.
Qed.

(** X19.  [listAvailableChartWidgets] and [isChartWidgetAvailable] agree.  The
    list holds every widget once; a widget with a non-empty identifier is
    in the list exactly when [isChartWidgetAvailable] answers [true] for
    it; and the label of such a widget is never empty (it is the
    identifier when the widget has no label). *)
Theorem listed_widgets_are_the_available_ones (h : Host.t)
    (charts : list ChartWidgetInfo.t) :
  Service.listAvailableChartWidgets h = Returns charts ->
  NoDup (map ChartWidgetInfo.id charts) /\
  (forall chartWidgetId,
      chartWidgetId <> EmptyString ->
      (chartWidgetId ∈ map ChartWidgetInfo.id charts <->
       Service.isChartWidgetAvailable h chartWidgetId = Returns true)) /\
  Forall (fun info =>
            ChartWidgetInfo.id info <> EmptyString ->
            ChartWidgetInfo.label info <> EmptyString) charts.
Proof.
  unfold Service.listAvailableChartWidgets.
  destruct (Host.widgets h) as [[ws |] | e] eqn:Hws; cbn [obind];
    [| | discriminate].
  - set (f := fun entry : string * Widget.t => _).
    intros [= <-].
    assert (Hf : forall entry info,
               f entry = Some info ->
               ChartWidgetInfo.id info = fst entry /\
               ChartWidgetInfo.label info
               = orLit (Widget.label (snd entry)) (fst entry) /\
               exists uri, Widget.uri (snd entry) = Some uri /\
                           includes uri "chart" = true).
    { intros [widgetId widget] info. subst f. cbn.
      destruct (Widget.uri widget) as [uri |]; [| discriminate].
      destruct (includes uri "chart") eqn:Hi; [| discriminate].
      intros [= <-]. cbn. eauto. }
    split; [| split].
    + assert (Hsub : map ChartWidgetInfo.id (omap f (map_to_list ws))
                     `sublist_of` map fst (map_to_list ws)).
      { apply omap_keys_sublist. intros a b0 Hab.
        now apply Hf in Hab as [-> _]. }
      pose proof (NoDup_fst_map_to_list ws) as Hnd.
      eauto using sublist_NoDup.
    + intros chartWidgetId Hne.
      rewrite Service_available_iff, Hws.
      rewrite list_elem_of_fmap. split.
      * intros (info & -> & Hin).
        apply list_elem_of_omap in Hin as ([widgetId widget] & Hin & Hfx).
        apply elem_of_map_to_list in Hin.
        destruct (Hf _ _ Hfx) as (Hid & _ & uri & Hu & Hi).
        cbn in Hid, Hu. rewrite Hid.
        split; [congruence |]. exists ws, widget, uri. auto.
      * intros (_ & ws' & widget & uri & [= <-] & Hw & Hu & Hi).
        exists (ChartWidgetInfo.mk chartWidgetId
                  (orLit (Widget.label widget) chartWidgetId)).
        split; [reflexivity |].
        apply list_elem_of_omap. exists (chartWidgetId, widget).
        split; [now apply elem_of_map_to_list |].
        subst f. cbn. now rewrite Hu, Hi.
    + apply Forall_forall. intros info Hin.
      apply list_elem_of_omap in Hin as (entry & _ & Hfx).
      destruct (Hf _ _ Hfx) as (Hid & Hl & _).
      rewrite Hid, Hl. apply orLit_nonempty.
  - intros [= <-]. split; [constructor | split; [| constructor]].
    intros chartWidgetId Hne. rewrite Service_available_iff, Hws. split.
    + intros Hin. inversion Hin.
    + intros (_ & ? & ? & ? & Hc & _). discriminate Hc.
Qed.

Lemma listed_widgets_are_the_available_ones_witness :
  Service.listAvailableChartWidgets Fixtures.salesHost
  = Returns [ChartWidgetInfo.mk "w1" "Sales"] /\
  NoDup (map ChartWidgetInfo.id [ChartWidgetInfo.mk "w1" "Sales"]) /\
  (forall chartWidgetId,
      chartWidgetId <> EmptyString ->
      (chartWidgetId ∈ map ChartWidgetInfo.id
                         [ChartWidgetInfo.mk "w1" "Sales"] <->
       Service.isChartWidgetAvailable Fixtures.salesHost chartWidgetId
       = Returns true)) /\
  Forall (fun info =>
            ChartWidgetInfo.id info <> EmptyString ->
            ChartWidgetInfo.label info <> EmptyString)
    [ChartWidgetInfo.mk "w1" "Sales"].
Proof.
  split; [vm_compute; reflexivity |].
  apply (listed_widgets_are_the_available_ones Fixtures.salesHost).
  vm_compute; reflexivity.
Defined.

(** X20.  The modular service lists the widgets whose manifest name is exactly
    ["chart"], which is stricter than its own availability test: every
    listed widget with a non-empty identifier is one for which
    [isChartWidgetAvailable] answers [true], and the list holds every
    widget once. *)
Theorem modular_listing_is_stricter (h : Host.t)
    (idMember : Widget.t -> option string) (info : ChartWidgetInfo.t) :
  info ∈ Modular.listAvailableChartWidgets h idMember ->
  ChartWidgetInfo.id info <> EmptyString ->
  Modular.isChartWidgetAvailable h (ChartWidgetInfo.id info) = true /\
  ChartWidgetInfo.label info <> EmptyString /\
  NoDup (map ChartWidgetInfo.id
           (Modular.listAvailableChartWidgets h idMember)).
Proof.
  unfold Modular.listAvailableChartWidgets, Modular.isChartWidgetAvailable.
  destruct (Host.widgets h) as [[ws |] | e];
    [| intros Hin; inversion Hin | intros Hin; inversion Hin].
  set (f := fun entry : string * Widget.t => _).
  assert (Hf : forall entry x,
             f entry = Some x ->
             ChartWidgetInfo.id x = fst entry /\
             Widget.manifestName (snd entry) = Some "chart"%string /\
             ChartWidgetInfo.label x
             = orLit (orStr (Widget.label (snd entry)) (idMember (snd entry)))
                 (fst entry)).
  { intros [widgetId widget] x. subst f. cbn.
    destruct (Widget.manifestName widget) as [name |]; [| discriminate].
    destruct (String.eqb_spec name "chart") as [-> |]; [| discriminate].
    intros [= <-]. auto. }
  intros Hin Hne.
  apply list_elem_of_omap in Hin as ([widgetId widget] & Hin & Hfx).
  apply elem_of_map_to_list in Hin.
  destruct (Hf _ _ Hfx) as (Hid & Hm & Hl). cbn in Hid, Hm, Hl.
  rewrite Hid in *.
  split; [| split].
  - destruct (String.eqb_spec widgetId EmptyString); [contradiction |].
    rewrite Hin. cbn. rewrite Hm. reflexivity.
  - rewrite Hl. now apply orLit_nonempty.
  - assert (Hsub : map ChartWidgetInfo.id (omap f (map_to_list ws))
                   `sublist_of` map fst (map_to_list ws)).
    { apply omap_keys_sublist. intros a b0 Hab.
      now apply Hf in Hab as [-> _]. }
    pose proof (NoDup_fst_map_to_list ws) as Hnd.
    eauto using sublist_NoDup.
Qed.

Lemma modular_listing_is_stricter_witness :
  ChartWidgetInfo.mk "w1" "Sales"
  ∈ Modular.listAvailableChartWidgets Fixtures.salesHost (fun _ => None) /\
  "w1"%string <> EmptyString /\
  Modular.isChartWidgetAvailable Fixtures.salesHost "w1" = true /\
  "Sales"%string <> EmptyString /\
  NoDup (map ChartWidgetInfo.id
           (Modular.listAvailableChartWidgets Fixtures.salesHost
              (fun _ => None))).
Proof.
  assert (Hin : ChartWidgetInfo.mk "w1" "Sales"
                ∈ Modular.listAvailableChartWidgets Fixtures.salesHost
                    (fun _ => None))
    by (vm_compute; left).
  split; [exact Hin |].
  split; [discriminate |].
  exact (modular_listing_is_stricter Fixtures.salesHost (fun _ => None)
           (ChartWidgetInfo.mk "w1" "Sales") Hin ltac:(discriminate)).
Defined.

(** The availability test accepts a widget that the list leaves out: one
    whose manifest name only starts with ["chart"], or contains
    ["chartwidget"]. *)
Remark modular_listing_leaves_out_available_widget :
  Modular.isChartWidgetAvailable Fixtures.chartwidgetHost "w1" = true /\
  Modular.listAvailableChartWidgets Fixtures.chartwidgetHost (fun _ => None)
  = [].
Proof. split; vm_compute; reflexivity. Qed.

Lemma prefix_toLowerCase (p s : string) :
  String.prefix p s = true ->
  String.prefix (toLowerCase p) (toLowerCase s) = true.
Proof.
  revert p. induction s as [| b s IH]; intros p.
  - destruct p; [reflexivity | discriminate].
  - destruct p as [| a p]; [reflexivity |].
    cbn. destruct (ascii_dec a b) as [-> | Hne]; [| discriminate].
    intros Hp.
    destruct (ascii_dec (lowerChar b) (lowerChar b)); [| congruence].
    now apply IH.
Qed.

Lemma includes_toLowerCase (s p : string) :
  includes s p = true -> includes (toLowerCase s) (toLowerCase p) = true.
Proof.
  induction s as [| c s IH]; cbn.
  - rewrite !orb_false_r. apply (prefix_toLowerCase p EmptyString).
  - intros H. apply orb_true_iff in H as [H | H].
    + apply (prefix_toLowerCase p (String c s)) in H. cbn in H.
      rewrite H. reflexivity.
    + rewrite (IH H). apply orb_true_r.
Qed.

(** X21.  The settings panel offers every chart the service lists: a widget
    listed by [listAvailableChartWidgets] is among the [availableCharts]
    of the selector when both read the same widgets, since the selector
    looks for ["chart"] in the [uri] without regard to case. *)
Theorem selector_offers_every_listed_chart (h : Host.t)
    (widgets : gmap string Widget.t) (charts : list ChartWidgetInfo.t)
    (chartWidgetId : string) :
  Host.widgets h = Returns (Some widgets) ->
  Service.listAvailableChartWidgets h = Returns charts ->
  chartWidgetId ∈ map ChartWidgetInfo.id charts ->
  chartWidgetId
  ∈ map ChartWidgetInfo.id (Selector.availableCharts (Some widgets)).
Proof.
  intros Hws. unfold Service.listAvailableChartWidgets. rewrite Hws.
  cbn [obind]. intros [= <-].
  unfold Selector.availableCharts.
  rewrite !list_elem_of_fmap.
  intros (info & -> & Hin).
  apply list_elem_of_omap in Hin as ([widgetId widget] & Hin & Hfx).
  cbn in Hfx.
  destruct (Widget.uri widget) as [uri |] eqn:Hu; [| discriminate].
  destruct (includes uri "chart") eqn:Hi; [| discriminate].
  injection Hfx as <-. cbn.
  exists (ChartWidgetInfo.mk widgetId
            (orLit (Widget.label widget) ("Chart (" +:+ widgetId +:+ ")"))).
  split; [reflexivity |].
  apply list_elem_of_omap. exists (widgetId, widget).
  split; [exact Hin |]. cbn. rewrite Hu.
  assert (Hne : uri <> EmptyString) by (intros ->; discriminate Hi).
  assert (Hor : orLit (Some uri) EmptyString = uri).
  { cbn. destruct (String.eqb_spec uri EmptyString); [contradiction |].
    reflexivity. }
  rewrite Hor.
  apply (includes_toLowerCase uri "chart") in Hi.
  change (toLowerCase "chart") with "chart"%string in Hi.
  now rewrite Hi.
Qed.

Lemma selector_offers_every_listed_chart_witness :
  Host.widgets Fixtures.salesHost = Returns (Some (Fixtures.registry "chart"))
  /\
  Service.listAvailableChartWidgets Fixtures.salesHost
  = Returns [ChartWidgetInfo.mk "w1" "Sales"] /\
  "w1"%string ∈ map ChartWidgetInfo.id [ChartWidgetInfo.mk "w1" "Sales"] /\
  "w1"%string
  ∈ map ChartWidgetInfo.id
      (Selector.availableCharts (Some (Fixtures.registry "chart"))).
Proof.
  split; [reflexivity |].
  split; [vm_compute; reflexivity |].
  split; [left |].
  apply (selector_offers_every_listed_chart Fixtures.salesHost
           (Fixtures.registry "chart") [ChartWidgetInfo.mk "w1" "Sales"]).
  - reflexivity.
  - vm_compute; reflexivity.
  - left.
Defined.

(* ===================================================================== *)
(** ** The rest of the service: print elements, templates, printing *)
(* ===================================================================== *)

Lemma truthy_some (a : option string) :
  truthy a = true ->
  exists s, a = Some s /\ s <> EmptyString /\ default EmptyString a = s.
Proof.
  destruct a as [s |]; cbn; [| discriminate].
  destruct (String.eqb_spec s EmptyString); [discriminate |]. eauto.
Qed.

(** What a print element is made of, given the run of the capture. *)
Lemma print_element_of_capture (h : Host.t) (id : string)
    (options : ChartPrintOptions.t) (nullMessage : string) (ttl : Z)
    (w w' : World.t) (r : ChartCaptureResult.t) :
  CaptureRun h id (Some options) false nullMessage ttl w r w' ->
  forall element,
    (if negb (ChartCaptureResult.success r)
        || negb (truthy (ChartCaptureResult.dataUrl r))
     then None
     else Some (ChartPrintElement.mk "chart"
                  (default EmptyString (ChartCaptureResult.dataUrl r))
                  (ChartPrintOptions.chartPosition options)
                  (ChartPrintOptions.chartSize options)
                  (ChartPrintOptions.chartTitle options)))
    = Some element ->
    ChartPrintElement.type element = "chart"%string /\
    ChartPrintElement.content element <> EmptyString /\
    ChartPrintElement.position element
    = ChartPrintOptions.chartPosition options /\
    ChartPrintElement.size element = ChartPrintOptions.chartSize options /\
    ChartPrintElement.title element = ChartPrintOptions.chartTitle options /\
    exists capture timestamp,
      World.captureCache w' !! id = Some (capture, timestamp) /\
      ChartCaptureResult.success capture = true /\
      ChartCaptureResult.dataUrl capture
      = Some (ChartPrintElement.content element).
Proof.
  intros HR element.
  destruct (ChartCaptureResult.success r) eqn:Hs; [| discriminate].
  destruct (truthy (ChartCaptureResult.dataUrl r)) eqn:Hu; [| discriminate].
  cbn [negb orb]. intros [= <-]. cbn.
  destruct (truthy_some _ Hu) as (s & Hd & Hne & Hdef).
  rewrite Hdef.
  destruct (CaptureRun_success_cached _ _ _ _ _ _ _ _ _ HR Hs)
    as (timestamp & Hc).
  repeat split; auto. exists r, timestamp. auto.
Qed.

(** X22.  [createChartPrintElement] never throws, in either service, and the
    element it returns is made of the capture that the capture cache now
    holds for the widget: its content is the data URL of that capture,
    which is a success, and is never empty; its position, size and title
    are those of the options. *)
Theorem createChartPrintElement_holds_the_cached_capture (h : Host.t)
    (chartWidgetId : string) (options : ChartPrintOptions.t) (w : World.t) :
  let made (run : Outcome (option ChartPrintElement.t) * World.t) :=
    exists result w',
      run = (Returns result, w') /\
      forall element,
        result = Some element ->
        ChartPrintElement.type element = "chart"%string /\
        ChartPrintElement.content element <> EmptyString /\
        ChartPrintElement.position element
        = ChartPrintOptions.chartPosition options /\
        ChartPrintElement.size element
        = ChartPrintOptions.chartSize options /\
        ChartPrintElement.title element
        = ChartPrintOptions.chartTitle options /\
        exists capture timestamp,
          World.captureCache w' !! chartWidgetId
          = Some (capture, timestamp) /\
          ChartCaptureResult.success capture = true /\
          ChartCaptureResult.dataUrl capture
          = Some (ChartPrintElement.content element) in
  made (Service.createChartPrintElement h chartWidgetId options w) /\
  made (Modular.createChartPrintElement h chartWidgetId options w).
Proof.
  cbv zeta. split.
  - destruct (Service_capture_run h chartWidgetId (Some options) false w)
      as (r & w' & Hrun & HR).
    unfold Service.createChartPrintElement, bind. rewrite Hrun.
    pose proof (print_element_of_capture _ _ _ _ _ _ _ _ HR) as H.
    destruct (negb (ChartCaptureResult.success r)
              || negb (truthy (ChartCaptureResult.dataUrl r)));
      eexists _, w'; (split; [reflexivity | exact H]).
  - destruct (Modular_capture_run h chartWidgetId (Some options) false w)
      as (r & w' & Hrun & HR).
    unfold Modular.createChartPrintElement, bind. rewrite Hrun.
    pose proof (print_element_of_capture _ _ _ _ _ _ _ _ HR) as H.
    destruct (negb (ChartCaptureResult.success r)
              || negb (truthy (ChartCaptureResult.dataUrl r)));
      eexists _, w'; (split; [reflexivity | exact H]).
Qed.

(** *** Templates *)

(** X23.  [addChartToTemplate] appends the element to the array of extra
    elements and returns a template with the same other members that
    refers to that array.  When the given template already has an array,
    it is that very array which is extended, so that the caller's
    template shows the new element as well; when it has none, a new array
    holding the element alone is made and the caller's template is left
    without one.  No other array changes, and a missing template or a
    missing element changes nothing. *)
Theorem addChartToTemplate_shares_the_array (properties : Template.t)
    (element : ChartPrintElement.t) (arrays : Arrays) :
  (exists address,
      let before :=
        match Template.extraElements properties with
        | Some existing => default [] (arrays !! existing)
        | None => []
        end in
      Service.addChartToTemplate (Some properties) (Some element) arrays
      = (Some (Template.mk (Some address) (Template.others properties)),
         <[address := before ++ [element]]> arrays) /\
      match Template.extraElements properties with
      | Some existing => address = existing
      | None => arrays !! address = None
      end) /\
  Service.addChartToTemplate None (Some element) arrays = (None, arrays) /\
  Service.addChartToTemplate (Some properties) None arrays
  = (Some properties, arrays).
Proof.
  split; [| split; reflexivity].
  unfold Service.addChartToTemplate.
  destruct (Template.extraElements properties) as [existing |].
  - exists existing. cbv zeta. split; reflexivity.
  - exists (fresh (dom arrays)). cbv zeta.
    assert (Hfresh : arrays !! fresh (dom arrays) = None).
    { apply not_elem_of_dom. apply is_fresh. }
    rewrite Hfresh. split; reflexivity.
Qed.

(** *** Printing a chart alone *)

Lemma chars_append (a b : string) :
  list_ascii_of_string (a +:+ b)
  = list_ascii_of_string a ++ list_ascii_of_string b.
Proof.
  induction a as [| c a IH]; [reflexivity |].
  change (String c a +:+ b)%string with (String c (a +:+ b)).
  cbn [list_ascii_of_string app]. now rewrite IH.
Qed.

Lemma escapeHtml_cons (a : ascii) (r : string) :
  Service.escapeHtml (String a r)
  = ((let n := nat_of_ascii a in
      if (n =? 60)%nat then "&lt;"%string
      else if (n =? 62)%nat then "&gt;"%string
      else if (n =? 38)%nat then "&amp;"%string
      else if (n =? 34)%nat then "&quot;"%string
      else if (n =? 39)%nat then "&#39;"%string
      else String a EmptyString) +:+ Service.escapeHtml r)%string.
Proof. reflexivity. Qed.

Lemma escapeHtml_no_markup (s : string) (c : ascii) :
  In c (list_ascii_of_string (Service.escapeHtml s)) -> isMarkup c = false.
Proof.
  induction s as [| a r IH]; [intros [] |].
  rewrite escapeHtml_cons, chars_append. cbv zeta.
  intros [H | H]%in_app_or; [| exact (IH H)].
  destruct (Nat.eqb_spec (nat_of_ascii a) 60) as [| H60];
    [cbn in H; intuition (subst; reflexivity) |].
  destruct (Nat.eqb_spec (nat_of_ascii a) 62) as [| H62];
    [cbn in H; intuition (subst; reflexivity) |].
  destruct (Nat.eqb_spec (nat_of_ascii a) 38) as [| H38];
    [cbn in H; intuition (subst; reflexivity) |].
  destruct (Nat.eqb_spec (nat_of_ascii a) 34) as [| H34];
    [cbn in H; intuition (subst; reflexivity) |].
  destruct (Nat.eqb_spec (nat_of_ascii a) 39) as [| H39];
    [cbn in H; intuition (subst; reflexivity) |].
  destruct H as [<- | []]. unfold isMarkup. cbv zeta.
  apply Nat.eqb_neq in H60, H62, H34, H39.
  now rewrite H60, H62, H34, H39.
Qed.

Lemma escapeHtml_plain (s : string) :
  (forall c, In c (list_ascii_of_string s) ->
             isMarkup c = false /\ nat_of_ascii c <> 38%nat) ->
  Service.escapeHtml s = s.
Proof.
  induction s as [| a r IH]; [reflexivity |].
  intros H. rewrite escapeHtml_cons, IH
    by (intros c Hc; apply H; right; exact Hc).
  destruct (H a (or_introl eq_refl)) as (Hm & H38).
  unfold isMarkup in Hm. cbv zeta in *.
  apply Nat.eqb_neq in H38.
  destruct (nat_of_ascii a =? 60)%nat; [discriminate |].
  destruct (nat_of_ascii a =? 62)%nat; [discriminate |].
  destruct (nat_of_ascii a =? 34)%nat; [discriminate |].
  destruct (nat_of_ascii a =? 39)%nat; [discriminate |].
  rewrite H38. reflexivity.
Qed.

(** X24.  The [print] format of [printChartOnly], when the browser lets the
    print window open: the element's image is returned as the URL, nothing
    is downloaded, and the page written into the window has the image as
    its source and a title in which no character opens or closes markup
    or an attribute value; a title that holds no such character and no
    ampersand is written as it is.  The title is that of the element, or
    else the given one, or else [Chart Export]. *)
Theorem print_window_title_is_escaped (b : Browser.t)
    (element : ChartPrintElement.t) (title : option string) (w : World.t) :
  ChartPrintElement.content element <> EmptyString ->
  Browser.popupAllowed b = true ->
  let displayTitle :=
    orLit (ChartPrintElement.title element)
          (default "Chart Export"%string title) in
  exists page,
    Service.printChartOnly b (Some element) title (Some PRINT) w
    = (Returns (PrintOutput.mk (ChartPrintElement.content element) None,
                PrintEffect.mk None (Some page)),
       World.tick w) /\
    PrintPage.imageSource page = ChartPrintElement.content element /\
    (forall c, In c (list_ascii_of_string (PrintPage.escapedTitle page)) ->
               isMarkup c = false) /\
    ((forall c, In c (list_ascii_of_string displayTitle) ->
                isMarkup c = false /\ nat_of_ascii c <> 38%nat) ->
     PrintPage.escapedTitle page = displayTitle).
Proof.
  intros Hcontent Hpopup displayTitle.
  exists (PrintPage.mk (Service.escapeHtml displayTitle)
            (ChartPrintElement.content element)).
  split; [| split; [reflexivity | split]].
  - unfold Service.printChartOnly, Service.printChartOnlyWith.
    destruct (String.eqb_spec (ChartPrintElement.content element)
                EmptyString) as [He | _]; [contradiction |].
    unfold try_catch, bind, Date_now, ret. cbn. rewrite Hpopup. reflexivity.
  - intros c. apply escapeHtml_no_markup.
  - apply escapeHtml_plain.
Qed.

Lemma print_window_title_is_escaped_witness :
  exists page,
    Service.printChartOnly
      (Browser.mk (fun _ => None) (fun _ => "blob:1"%string) true)
      (Some (ChartPrintElement.mk "chart" "data:image/png;base64,AAAA"
               None None (Some "<b>Sales</b>"%string)))
      None (Some PRINT) Fixtures.world0
    = (Returns (PrintOutput.mk "data:image/png;base64,AAAA" None,
                PrintEffect.mk None (Some page)),
       World.tick Fixtures.world0) /\
    PrintPage.escapedTitle page = "&lt;b&gt;Sales&lt;/b&gt;"%string.
Proof.
  destruct (print_window_title_is_escaped
              (Browser.mk (fun _ => None) (fun _ => "blob:1"%string) true)
              (ChartPrintElement.mk "chart" "data:image/png;base64,AAAA"
                 None None (Some "<b>Sales</b>"%string))
              None Fixtures.world0 ltac:(discriminate) eq_refl)
    as (page & Hrun & _).
  exists page. split; [exact Hrun |].
  vm_compute in Hrun. now injection Hrun as <-.
Defined.

(** Run the [pdf] format of [printChartOnly] on an element with content:
    the fall-back handed to the body is not used. *)
Lemma printChartOnly_pdf_run
    (fallback : M (PrintOutput.t * PrintEffect.t)) (b : Browser.t)
    (element : ChartPrintElement.t) (title : option string) (w : World.t) :
  ChartPrintElement.content element <> EmptyString ->
  let run :=
    Service.printChartOnlyWith fallback b (Some element) title (Some PDF) w in
  run = Service.printChartOnly b (Some element) title (Some PDF) w /\
  ((exists e, run = (Throws e, w) /\
              e <> ErrorObj "No chart element provided for printing") \/
   (exists url blob name w',
       run = (Returns (PrintOutput.mk url (Some blob),
                       PrintEffect.mk (Some name) None), w'))).
Proof.
  intros Hcontent. cbv zeta.
  unfold Service.printChartOnly, Service.printChartOnlyWith.
  destruct (String.eqb_spec (ChartPrintElement.content element)
              EmptyString) as [He | _]; [contradiction |].
  cbn [default from_option id]. split; [reflexivity |].
  unfold try_catch, bind, throw, ret, Service.downloadPdf, Date_now.
  destruct (Browser.imageSize b (ChartPrintElement.content element))
    as [[naturalWidth naturalHeight] |].
  - destruct (naturalWidth =? 0)%Z, (naturalHeight =? 0)%Z,
      (ChartPrintElement.size element) as [chartSize |]; cbn;
      first [right; do 4 eexists; reflexivity
            | left; eexists; split; [reflexivity | discriminate]].
  - left. eexists. split; [reflexivity | discriminate].
Qed.

(** X25.  A [print] request that finds the popup blocked ends as a [pdf]
    request: it gives what [printChartOnly] gives for the [pdf] format
    one reading of the clock later, so that when it returns, a document
    has been built and its download started, and nothing has been
    printed. *)
Theorem blocked_popup_prints_as_pdf (b : Browser.t)
    (element : ChartPrintElement.t) (title : option string) (w : World.t) :
  ChartPrintElement.content element <> EmptyString ->
  Browser.popupAllowed b = false ->
  Service.printChartOnly b (Some element) title (Some PRINT) w
  = Service.printChartOnly b (Some element) title (Some PDF) (World.tick w) /\
  forall output effect w',
    Service.printChartOnly b (Some element) title (Some PRINT) w
    = (Returns (output, effect), w') ->
    PrintOutput.blob output <> None /\
    PrintEffect.download effect <> None /\
    PrintEffect.printed effect = None.
Proof.
  intros Hcontent Hpopup.
  assert (Heq : Service.printChartOnly b (Some element) title (Some PRINT) w
                = Service.printChartOnly b (Some element) title (Some PDF)
                    (World.tick w)).
  { destruct (printChartOnly_pdf_run (throw (ErrorObj "unreachable")) b
                element title (World.tick w) Hcontent) as (<- & _).
    unfold Service.printChartOnly at 1.
    unfold Service.printChartOnlyWith at 1.
    destruct (String.eqb_spec (ChartPrintElement.content element)
                EmptyString) as [He | _]; [contradiction |].
    cbn [default from_option id]. unfold try_catch, bind at 1, Date_now, throw.
    rewrite Hpopup. cbn [negb].
    now destruct (Service.printChartOnlyWith _ b (Some element) title
                    (Some PDF) (World.tick w)) as [[] ?]. }
  split; [exact Heq |].
  intros output effect w'. rewrite Heq.
  destruct (printChartOnly_pdf_run (throw (ErrorObj "unreachable")) b
              element title (World.tick w) Hcontent)
    as (-> & [(e & -> & _) | (url & blob & name & w1 & ->)]);
    [discriminate |].
  intros [= <- <- _]. cbn. repeat split; discriminate.
Qed.

Lemma blocked_popup_prints_as_pdf_witness :
  let b := Browser.mk (fun _ => Some (800, 600)%Z)
             (fun _ => "blob:1"%string) false in
  let element :=
    ChartPrintElement.mk "chart" "data:image/png;base64,AAAA" None None
      (Some "Sales"%string) in
  Service.printChartOnly b (Some element) None (Some PRINT) Fixtures.world0
  = Service.printChartOnly b (Some element) None (Some PDF)
      (World.tick Fixtures.world0).
Proof.
  exact (proj1 (blocked_popup_prints_as_pdf
                  (Browser.mk (fun _ => Some (800, 600)%Z)
                     (fun _ => "blob:1"%string) false)
                  (ChartPrintElement.mk "chart" "data:image/png;base64,AAAA"
                     None None (Some "Sales"%string))
                  None Fixtures.world0 ltac:(discriminate) eq_refl)).
Defined.

(** X26.  The errors of [printChartOnly].  In every format the call fails with
    [No chart element provided for printing], before anything is done,
    exactly when the element is missing or has no content.  For an
    element with content, the [pdf] format (the default) throws the image
    error, having downloaded nothing, when the image cannot be decoded,
    and the [png] format always returns the content as the URL and starts
    one download. *)
Theorem printChartOnly_errors (b : Browser.t)
    (chartElement : option ChartPrintElement.t) (title : option string)
    (outputFormat : option OutputFormat) (w : World.t) :
  let run := Service.printChartOnly b chartElement title outputFormat w in
  (run = (Throws (ErrorObj "No chart element provided for printing"), w) <->
   match chartElement with
   | None => True
   | Some element => ChartPrintElement.content element = EmptyString
   end) /\
  (forall element,
      chartElement = Some element ->
      ChartPrintElement.content element <> EmptyString ->
      match default PDF outputFormat with
      | PDF =>
          Browser.imageSize b (ChartPrintElement.content element) = None ->
          run = (Throws (ErrorObj "Échec du chargement de l'image"), w)
      | PNG =>
          exists name,
            run = (Returns
                     (PrintOutput.mk (ChartPrintElement.content element) None,
                      PrintEffect.mk (Some name) None),
                   World.tick w)
      | PRINT => True
      end).
Proof.
  cbv zeta. split.
  - destruct chartElement as [element |]; [| split; reflexivity].
    destruct (String.eqb_spec (ChartPrintElement.content element)
                EmptyString) as [He | Hne].
    + unfold Service.printChartOnly, Service.printChartOnlyWith.
      rewrite He. cbn. split; auto.
    + split; [| contradiction]. intros Hrun. exfalso.
      destruct (default PDF outputFormat) eqn:Hf.
      * assert (Hpdf : Service.printChartOnly b (Some element) title
                         outputFormat w
                       = Service.printChartOnly b (Some element) title
                           (Some PDF) w).
        { unfold Service.printChartOnly, Service.printChartOnlyWith.
          now rewrite Hf. }
        rewrite Hpdf in Hrun.
        destruct (printChartOnly_pdf_run (throw (ErrorObj "unreachable")) b
                    element title w Hne)
          as (Hsame & [(e & He & Hdiff) | (url & blob & name & w1 & He)]);
          rewrite Hsame in He; rewrite He in Hrun.
        -- injection Hrun as ->. contradiction.
        -- discriminate.
      * revert Hrun.
        unfold Service.printChartOnly, Service.printChartOnlyWith.
        rewrite Hf.
        destruct (String.eqb_spec (ChartPrintElement.content element)
                    EmptyString) as [He | _]; [contradiction |].
        discriminate.
      * destruct (Browser.popupAllowed b) eqn:Hpopup.
        -- revert Hrun.
           unfold Service.printChartOnly, Service.printChartOnlyWith.
           rewrite Hf.
           destruct (String.eqb_spec (ChartPrintElement.content element)
                       EmptyString) as [He | _]; [contradiction |].
           unfold try_catch, bind, Date_now, ret. cbn. rewrite Hpopup.
           discriminate.
        -- assert (Hprint : Service.printChartOnly b (Some element) title
                              outputFormat w
                            = Service.printChartOnlyWith
                                (throw (ErrorObj "unreachable")) b
                                (Some element) title (Some PDF)
                                (World.tick w)).
           { unfold Service.printChartOnly.
             unfold Service.printChartOnlyWith at 1. rewrite Hf.
             destruct (String.eqb_spec (ChartPrintElement.content element)
                         EmptyString) as [He | _]; [contradiction |].
             unfold try_catch, bind at 1, Date_now, throw.
             rewrite Hpopup. cbn [negb].
             now destruct (Service.printChartOnlyWith _ b (Some element)
                             title (Some PDF) (World.tick w)) as [[] ?]. }
           rewrite Hprint in Hrun.
           destruct (printChartOnly_pdf_run (throw (ErrorObj "unreachable"))
                       b element title (World.tick w) Hne)
             as (_ & [(e & He & Hdiff) | (url & blob & name & w1 & He)]);
             rewrite He in Hrun.
           ++ injection Hrun as -> _. contradiction.
           ++ discriminate.
  - intros element -> Hne.
    destruct (default PDF outputFormat) eqn:Hf.
    + intros Himage.
      unfold Service.printChartOnly, Service.printChartOnlyWith.
      rewrite Hf.
      destruct (String.eqb_spec (ChartPrintElement.content element)
                  EmptyString) as [He | _]; [contradiction |].
      rewrite Himage. reflexivity.
    + eexists.
      unfold Service.printChartOnly, Service.printChartOnlyWith.
      rewrite Hf.
      destruct (String.eqb_spec (ChartPrintElement.content element)
                  EmptyString) as [He | _]; [contradiction |].
      reflexivity.
    + exact I.
Qed.

(** *** Progress of the download *)

Lemma silent_composer (h : Host.t) (chartWidgetId : string)
    (options : ProfessionalPdfOptions.t) :
  ProfessionalPdfOptions.onProgress options = false ->
  keeps sameProgress
    (Service.generateProfessionalChartPdf h chartWidgetId options).
Proof.
  intros Hcb.
  pose proof (silent_raceCapture h chartWidgetId) as H1.
  pose proof (silent_extractChartDataComplete h chartWidgetId) as H2.
  unfold Service.generateProfessionalChartPdf,
    Service.generateProfessionalChartPdf_body, Service.notifyProgress.
  rewrite Hcb. cbv zeta. keeps_steps.
Qed.

Lemma reporting_downloadPdf (filename : option string)
    (Q : string -> list (string * Z * string) -> Prop)
    (E : Exn -> list (string * Z * string) -> Prop) :
  (forall name, Q name []) -> reporting (Service.downloadPdf filename) Q E.
Proof.
  intros H w. unfold Service.downloadPdf, bind, Date_now, ret. cbn.
  exists []. rewrite app_nil_r. auto.
Qed.

Lemma Forall_last_holds {A} (P : A -> Prop) (l : list A) (z : A) :
  Forall P l -> last l = Some z -> P z.
Proof.
  induction 1 as [| x t Hx Ht IH]; [discriminate |].
  destruct t as [| y t]; cbn; [intros [= <-]; exact Hx | exact IH].
Qed.

Lemma increasing_below_last (ps : list Z) (z : Z) :
  StronglySorted Z.lt ps -> last ps = Some z ->
  Forall (fun p => (p <= z)%Z) ps.
Proof.
  induction 1 as [| x t Ht IH Hx]; [constructor |].
  destruct t as [| y t]; cbn.
  - intros [= <-]. repeat constructor. lia.
  - intros Hl. constructor; [| exact (IH Hl)].
    pose proof (Forall_last_holds _ _ _ Hx Hl). cbn in *. lia.
Qed.

Lemma increasing_then_last (ps : list Z) (z : Z) :
  StronglySorted Z.lt ps -> Forall (fun p => (p <= z)%Z) ps ->
  StronglySorted Z.le (ps ++ [z]).
Proof.
  induction 1 as [| x t Ht IH Hx]; intros Hz; cbn.
  - repeat constructor.
  - apply Forall_cons_1 in Hz as (Hxz & Hz).
    constructor; [exact (IH Hz) |].
    apply Forall_app. split; [| repeat constructor; exact Hxz].
    eapply Forall_impl; [exact Hx |]. cbn. intros; lia.
Qed.

Lemma download_reports (h : Host.t) (chartWidgetId : string)
    (options : ProfessionalPdfOptions.t) (filename : option string) :
  ProfessionalPdfOptions.onProgress options = true ->
  reporting
    (Service.generateAndDownloadProfessionalChartPdf h chartWidgetId options
       filename)
    (fun result rs =>
       head rs
       = Some ("download"%string, 0%Z,
               "Préparation du téléchargement..."%string) /\
       if fst result then
         snd result <> None /\
         StronglySorted Z.le (percentages rs) /\
         last rs
         = Some ("download"%string, 100%Z, "Téléchargement terminé!"%string)
       else
         snd result = None /\
         exists before message,
           rs = before ++
                [("error"%string, (-1)%Z, message);
                 ("error"%string, (-1)%Z,
                  "Échec de la génération du PDF"%string)])
    (fun _ _ => False).
Proof.
  intros Hcb.
  unfold Service.generateAndDownloadProfessionalChartPdf,
    Service.reportProgress.
  rewrite Hcb. cbv zeta.
  eapply reporting_try_catch with (E1 := fun _ _ => False);
    [| intros e rs H; cbv beta in H; contradiction].
  apply reporting_after_report.
  eapply reporting_bind;
    [apply (composer_reports h chartWidgetId options Hcb)
    | intros e rs H; cbv beta in H; contradiction
    | intros blob rs1 (Hhead & Hrest)].
  destruct blob as [blob |].
  - destruct Hrest as (Hsorted & Hlast).
    eapply reporting_bind
      with (Q1 := fun _ rs => rs = []) (E1 := fun _ _ => False);
      [apply reporting_downloadPdf; reflexivity
      | intros e rs H; cbv beta in H; contradiction |].
    intros name rs ->.
    apply reporting_after_report, reporting_ret. cbn [fst snd app].
    split; [reflexivity |]. split; [discriminate |].
    split.
    + unfold percentages in *. cbn [map]. rewrite map_app.
      cbn [map fst snd]. set (ps := map _ rs1) in *.
      pose proof (increasing_below_last ps 100 Hsorted Hlast) as Hle.
      constructor.
      * apply increasing_then_last; assumption.
      * apply Forall_app. split; [| repeat constructor; lia].
        destruct ps as [| p ps]; [discriminate Hhead |].
        injection Hhead as ->. apply StronglySorted_inv in Hsorted as (_ & H0).
        constructor; [lia |].
        eapply Forall_impl; [exact H0 |]. cbn. intros; lia.
    + change (?x :: rs1 ++ [?y]) with ((x :: rs1) ++ [y]).
      apply last_snoc.
  - destruct Hrest as (before & message & -> & _).
    apply reporting_after_report, reporting_ret. cbn [fst snd app].
    split; [reflexivity |]. split; [reflexivity |].
    eexists (_ :: before), message. cbn [app].
    now rewrite <- app_assoc.
Qed.

(** X27.  The progress callback of [generateAndDownloadProfessionalChartPdf],
    for a callback that does not throw.  The function never throws, and
    it returns [true] exactly when it started a download.  Without a
    callback nothing is reported.  With one, the first report is the
    [download] stage at 0 percent; on success the percentages never
    decrease and the last report is the [download] stage at 100; and on
    failure the [error] stage is reported twice in a row at -1, first by
    the composer and then with the message that the generation failed. *)
Theorem download_progress_reports (h : Host.t) (chartWidgetId : string)
    (options : ProfessionalPdfOptions.t) (filename : option string)
    (w : World.t) :
  exists ok name w' reports,
    Service.generateAndDownloadProfessionalChartPdf h chartWidgetId options
      filename w
    = (Returns (ok, name), w') /\
    (ok = true <-> name <> None) /\
    World.progress w' = World.progress w ++ reports /\
    if ProfessionalPdfOptions.onProgress options then
      head reports
      = Some ("download"%string, 0%Z,
              "Préparation du téléchargement..."%string) /\
      if ok then
        StronglySorted Z.le (percentages reports) /\
        last reports
        = Some ("download"%string, 100%Z, "Téléchargement terminé!"%string)
      else
        exists before message,
          reports = before ++
                    [("error"%string, (-1)%Z, message);
                     ("error"%string, (-1)%Z,
                      "Échec de la génération du PDF"%string)]
    else reports = [].
Proof.
  destruct (ProfessionalPdfOptions.onProgress options) eqn:Hcb.
  - pose proof (download_reports h chartWidgetId options filename Hcb w) as H.
    destruct (Service.generateAndDownloadProfessionalChartPdf h chartWidgetId
                options filename w) as [[[ok name] | e] w'].
    + destruct H as (rs & Hp & Hhead & H). exists ok, name, w', rs.
      cbn [fst snd] in H.
      destruct ok.
      * destruct H as (Hname & Hs & Hl). repeat split; auto.
      * destruct H as (-> & Hb). repeat split; auto; try discriminate;
          try (intros Hc; now destruct Hc).
    + destruct H as (rs & _ & []).
  - pose proof (silent_composer h chartWidgetId options Hcb w) as Hs.
    unfold sameProgress in Hs.
    unfold Service.generateAndDownloadProfessionalChartPdf,
      Service.reportProgress, try_catch.
    rewrite Hcb. cbv zeta. unfold bind at 1. unfold ret at 1.
    unfold bind at 1.
    destruct (Service.generateProfessionalChartPdf h chartWidgetId options w)
      as [[[blob |] | e] w1] eqn:Hrun; cbn in Hs.
    + unfold Service.downloadPdf, bind, Date_now, ret. cbn.
      eexists true, _, _, []. rewrite app_nil_r.
      repeat split; auto; discriminate.
    + unfold bind, ret. cbn.
      eexists false, None, _, []. rewrite app_nil_r.
      repeat split; auto; try discriminate;
        try (intros Hc; now destruct Hc).
    + unfold bind, ret. cbn.
      eexists false, None, _, []. rewrite app_nil_r.
      repeat split; auto; try discriminate;
        try (intros Hc; now destruct Hc).
Qed.

(** *** Documents of several charts *)

Lemma multiChartPage_run (h : Host.t) (options : option ChartPrintOptions.t)
    (includeTimestamp : bool) (total i : nat) (chartWidgetId : string)
    (w w' : World.t) (page : list Pdf.Op) :
  Service.multiChartPage h options includeTimestamp total i chartWidgetId w
  = (Returns page, w') ->
  page = [] \/
  exists url,
    url <> EmptyString /\
    omap graphicOf page = [Pdf.Image url] /\
    In (Pdf.FooterRight
          ("Page " +:+ String_of_number (Z.of_nat (i + 1)) +:+ " / "
           +:+ String_of_number (Z.of_nat total))) page.
Proof.
  destruct (Service_capture_run h chartWidgetId options false w)
    as (r & w1 & Hrun & _).
  unfold Service.multiChartPage. unfold bind at 1. rewrite Hrun.
  destruct (ChartCaptureResult.success r); cbn [negb orb];
    [| intros [= <- _]; now left].
  destruct (truthy (ChartCaptureResult.dataUrl r)) eqn:Hu; cbn [negb];
    [| intros [= <- _]; now left].
  destruct (truthy_some _ Hu) as (url & _ & Hne & ->).
  unfold bind, lift, ret, Date_now.
  destruct (Service.getChartWidgetInfo h chartWidgetId)
    as [chartInfo | e]; [| discriminate].
  intros Hpage. right. exists url. split; [exact Hne |].
  destruct (truthy (chartInfo ?. Widget.label)), includeTimestamp;
    injection Hpage as <- _; cbn; auto 6.
Qed.

Lemma multiChartPages_run (h : Host.t) (options : option ChartPrintOptions.t)
    (includeTimestamp : bool) (total : nat) (chartWidgetIds : list string) :
  forall (i : nat) (w w' : World.t) (pages : list (list Pdf.Op)),
    Service.multiChartPages h options includeTimestamp total i
      chartWidgetIds w
    = (Returns pages, w') ->
    length pages = length chartWidgetIds /\
    forall k page,
      pages !! k = Some page ->
      page = [] \/
      exists url,
        url <> EmptyString /\
        omap graphicOf page = [Pdf.Image url] /\
        In (Pdf.FooterRight
              ("Page " +:+ String_of_number (Z.of_nat (i + k + 1)) +:+ " / "
               +:+ String_of_number (Z.of_nat total))) page.
Proof.
  induction chartWidgetIds as [| chartWidgetId rest IH]; intros i w w' pages.
  - intros [= <- _]. split; [reflexivity |]. intros k page Hk.
    now rewrite lookup_nil in Hk.
  - cbn [Service.multiChartPages]. unfold bind at 1.
    destruct (Service.multiChartPage h options includeTimestamp total i
                chartWidgetId w) as [[first | e] w1] eqn:Hfirst;
      [| discriminate].
    unfold bind at 1.
    destruct (Service.multiChartPages h options includeTimestamp total (S i)
                rest w1) as [[others | e] w2] eqn:Hothers;
      [| discriminate].
    intros [= <- _].
    destruct (IH _ _ _ _ Hothers) as (Hlen & Hpages).
    split; [cbn; now rewrite Hlen |].
    intros [| k] page Hk; cbn in Hk.
    + injection Hk as <-. rewrite Nat.add_0_r.
      exact (multiChartPage_run _ _ _ _ _ _ _ _ _ Hfirst).
    + replace (i + S k)%nat with (S i + k)%nat by lia. exact (Hpages k page Hk).
Qed.

(** X28.  [generateMultiChartPdf] never throws; it returns [null] for a missing
    or empty list of widgets.  A document it returns has as many pages as
    there are widgets in the list, a widget named twice having two pages;
    it has the orientation and format asked for, [portrait] and [a4] by
    default; and each page is either blank, the widget's capture having
    failed, or holds exactly one image, whose data URL is not empty, with
    the number of the page and the number of widgets in its footer. *)
Theorem multi_chart_document_pages (h : Host.t)
    (chartWidgetIds : option (list string))
    (options : option ChartPrintOptions.t)
    (pdfOptions : PdfGenerationOptions.t) (w : World.t) :
  exists result w',
    Service.generateMultiChartPdf h chartWidgetIds options pdfOptions w
    = (Returns result, w') /\
    (default [] chartWidgetIds = [] -> result = None) /\
    forall blob,
      result = Some blob ->
      MultiPdf.orientation blob
      = default "portrait"%string
          (PdfGenerationOptions.orientation pdfOptions) /\
      MultiPdf.format blob
      = default "a4"%string (PdfGenerationOptions.format pdfOptions) /\
      length (MultiPdf.pages blob) = length (default [] chartWidgetIds) /\
      forall k page,
        MultiPdf.pages blob !! k = Some page ->
        page = [] \/
        exists url,
          url <> EmptyString /\
          omap graphicOf page = [Pdf.Image url] /\
          In (Pdf.FooterRight
                ("Page " +:+ String_of_number (Z.of_nat (k + 1)) +:+ " / "
                 +:+ String_of_number
                       (Z.of_nat (length (default [] chartWidgetIds)))))
             page.
Proof.
  unfold Service.generateMultiChartPdf, try_catch.
  destruct chartWidgetIds as [[| chartWidgetId rest] |];
    [exists None, w; repeat split; discriminate
    | | exists None, w; repeat split; discriminate].
  cbv zeta. unfold bind at 1.
  set (ids := chartWidgetId :: rest).
  destruct (Service.multiChartPages h options _ (length ids) 0 ids w)
    as [[pages | e] w1] eqn:Hrun.
  - exists (Some (MultiPdf.mkBlob
                    (default "portrait"%string
                       (PdfGenerationOptions.orientation pdfOptions))
                    (default "a4"%string
                       (PdfGenerationOptions.format pdfOptions)) pages)), w1.
    split; [reflexivity |]. split; [discriminate |].
    intros blob [= <-]. cbn.
    destruct (multiChartPages_run _ _ _ _ _ _ _ _ _ Hrun) as (Hlen & Hpages).
    repeat split; auto.
  - exists None, w1. repeat split; discriminate.
Qed.

(** *** The simple document *)

Lemma generateChartPdf_capture (h : Host.t) (chartWidgetId : string)
    (options : ChartPrintOptions.t) (w : World.t) :
  exists result w',
    Service.generateChartPdf h chartWidgetId options w
    = (Returns result, w') /\
    (result <> None ->
     exists capture timestamp url,
       World.captureCache w' !! chartWidgetId = Some (capture, timestamp) /\
       ChartCaptureResult.success capture = true /\
       ChartCaptureResult.dataUrl capture = Some url /\
       url <> EmptyString).
Proof.
  destruct (Service_capture_run h chartWidgetId (Some options) false w)
    as (r & w1 & Hrun & HR).
  unfold Service.generateChartPdf, try_catch. unfold bind at 1.
  rewrite Hrun.
  destruct (ChartCaptureResult.success r) eqn:Hs; cbn [negb orb];
    [| exists None, w1; split; [reflexivity | intros Hc; now destruct Hc]].
  destruct (truthy (ChartCaptureResult.dataUrl r)) eqn:Hu; cbn [negb];
    [| exists None, w1; split; [reflexivity | intros Hc; now destruct Hc]].
  destruct (truthy_some _ Hu) as (url & Hd & Hne & _).
  destruct (CaptureRun_success_cached _ _ _ _ _ _ _ _ _ HR Hs)
    as (timestamp & Hc).
  unfold bind, Date_now, ret. eexists _, _. split; [reflexivity |].
  intros _. exists r, timestamp, url. cbn. auto.
Qed.

(** X29.  [generateChartPdf] never throws.  The document it returns is in the
    [a4] format and shows one image, the one the capture cache now holds
    for the widget as a successful capture, followed at the end by the
    date; and it has a title exactly when the options give a title that
    is not empty, which is then that title. *)
Theorem generateChartPdf_document (h : Host.t) (chartWidgetId : string)
    (options : ChartPrintOptions.t) (w : World.t) :
  exists result w',
    Service.generateChartPdf h chartWidgetId options w
    = (Returns result, w') /\
    forall blob,
      result = Some blob ->
      Pdf.format blob = "a4"%string /\
      exists capture timestamp url,
        World.captureCache w' !! chartWidgetId = Some (capture, timestamp) /\
        ChartCaptureResult.success capture = true /\
        ChartCaptureResult.dataUrl capture = Some url /\
        url <> EmptyString /\
        omap graphicOf (Pdf.ops blob) = [Pdf.Image url] /\
        last (Pdf.ops blob) = Some Pdf.FooterDate /\
        forall text,
          In (Pdf.Title text) (Pdf.ops blob) <->
          ChartPrintOptions.chartTitle options = Some text /\
          text <> EmptyString.
Proof.
  destruct (Service_capture_run h chartWidgetId (Some options) false w)
    as (r & w1 & Hrun & HR).
  unfold Service.generateChartPdf, try_catch. unfold bind at 1.
  rewrite Hrun.
  destruct (ChartCaptureResult.success r) eqn:Hs; cbn [negb orb];
    [| exists None, w1; split; [reflexivity | discriminate]].
  destruct (truthy (ChartCaptureResult.dataUrl r)) eqn:Hu; cbn [negb];
    [| exists None, w1; split; [reflexivity | discriminate]].
  destruct (truthy_some _ Hu) as (url & Hd & Hne & Hdef).
  destruct (CaptureRun_success_cached _ _ _ _ _ _ _ _ _ HR Hs)
    as (timestamp & Hc).
  unfold bind, Date_now, ret. eexists _, _. split; [reflexivity |].
  intros blob [= <-]. cbn [Pdf.format Pdf.ops]. split; [reflexivity |].
  exists r, timestamp, url. rewrite Hdef.
  do 4 (split; [assumption |]).
  destruct (ChartPrintOptions.chartTitle options) as [t |];
    [destruct (String.eqb_spec t EmptyString) as [-> | Ht] |]; cbn.
  - do 2 (split; [reflexivity |]). intros text.
    split; [intros [[=] | [[=] | []]] | intros ([= <-] & Hc'); contradiction].
  - rewrite (proj2 (String.eqb_neq t EmptyString) Ht). cbn.
    do 2 (split; [reflexivity |]). intros text. split.
    + intros [[= <-] | [[=] | [[=] | []]]]. auto.
    + intros ([= <-] & _). now left.
  - do 2 (split; [reflexivity |]). intros text.
    split; [intros [[=] | [[=] | []]] | intros ([=] & _)].
Qed.

(** X30.  [generateAndDownloadChartPdf] never throws, and it returns [true]
    exactly when it started a download.  When it does, the capture cache
    holds a successful capture of the widget with a data URL that is not
    empty.  It returns [false] without a download whenever
    [getChartWidgetInfo] throws for the widget, also when the document
    was composed. *)
Theorem simple_download_outcome (h : Host.t) (chartWidgetId : string)
    (options : ChartPrintOptions.t) (filename : option string)
    (w : World.t) :
  exists ok name w',
    Service.generateAndDownloadChartPdf h chartWidgetId options filename w
    = (Returns (ok, name), w') /\
    (ok = true <-> name <> None) /\
    (ok = true ->
     exists capture timestamp url,
       World.captureCache w' !! chartWidgetId = Some (capture, timestamp) /\
       ChartCaptureResult.success capture = true /\
       ChartCaptureResult.dataUrl capture = Some url /\
       url <> EmptyString) /\
    (forall e, Service.getChartWidgetInfo h chartWidgetId = Throws e ->
               ok = false).
Proof.
  destruct (generateChartPdf_capture h chartWidgetId options w)
    as (result & w1 & Hrun & Hblob).
  unfold Service.generateAndDownloadChartPdf, try_catch. unfold bind at 1.
  rewrite Hrun. destruct result as [blob |].
  - destruct (Hblob ltac:(discriminate))
      as (capture & timestamp & url & Hc & Hs & Hd & Hne).
    unfold bind, lift, ret, Service.downloadPdf, Date_now.
    destruct (Service.getChartWidgetInfo h chartWidgetId)
      as [chartInfo | e].
    + eexists true, _, _. split; [reflexivity |].
      repeat split; try discriminate.
      exists capture, timestamp, url. cbn. auto.
    + exists false, None, w1. split; [reflexivity |].
      repeat split; try discriminate; try (intros Hc'; now destruct Hc').
  - exists false, None, w1. split; [reflexivity |].
    repeat split; try discriminate; try (intros Hc'; now destruct Hc').
Qed.
